(** * Amplicon pipeline: abundance filter, prompts and stage control flow

    A shallow embedding of [Amplicaon_processing2.py] and of
    [Amplicaon_processing.py], which is the same script without the three
    new functions and with another word to end the run at a prompt.

    Conventions of the embedding:
    - a Python [str] is a Rocq [string]; its characters are the code
      points below 256 (the texts of log records that go beyond them are
      kept as their UTF-8 bytes);
    - a Python [int] is a [Z]; a count held by pandas is a [Z] in the
      range of a 64-bit integer, and the sum of a column is taken modulo
      [2^64], as NumPy takes it;
    - a Python [float] is a value of the carrier of a [FloatArith]
      structure, with two instances for the IEEE 754 binary64 arithmetic
      of CPython and NumPy: [binary64], on Rocq's primitive floats, runs
      the scenarios; [ieee64], exact results rounded to nearest, is the
      one whose order properties are proved;
    - a pandas [DataFrame] of counts is a record of row labels and named
      columns of integers;
    - a [dict] is a [gmap], a [set] is a [gset];
    - the process state a stage touches (working directory, console
      input, files, log, launched commands) is a [World], threaded
      through a state-and-exception monad; the code of [main], which
      [sys.exit] and a failing validator can also leave, runs in that
      monad with a [Flow] for its result. *)

From Stdlib Require Import ZArith QArith Qabs Qround Lqa Qpower PrimFloat SpecFloat FloatOps.
From Stdlib Require Import Strings.String Strings.Ascii.
From stdpp Require Import gmap strings list.

Local Open Scope Z_scope.

(** ** Python string primitives *)

Module PyStr.

Definition chr (n : nat) : ascii := ascii_of_nat n.
Definition str1 (c : ascii) : string := String c EmptyString.

Definition TAB : ascii := chr 9.
Definition LF : ascii := chr 10.
Definition CR : ascii := chr 13.
Definition DQUOTE : ascii := chr 34.
Definition SEMI : ascii := chr 59.

(** [str.isspace] on one character (code points below 256). *)
Definition isspace (c : ascii) : bool :=
  let n := nat_of_ascii c in
  ((9 <=? n)%nat && (n <=? 13)%nat) || ((28 <=? n)%nat && (n <=? 32)%nat)
  || (n =? 133)%nat || (n =? 160)%nat.

Fixpoint lstrip (s : string) : string :=
  match s with
  | EmptyString => EmptyString
  | String c s' => if isspace c then lstrip s' else s
  end.

Fixpoint rstrip (s : string) : string :=
  match s with
  | EmptyString => EmptyString
  | String c s' =>
      match rstrip s' with
      | EmptyString => if isspace c then EmptyString else str1 c
      | r => String c r
      end
  end.

(** [s.strip()] *)
Definition strip (s : string) : string := rstrip (lstrip s).

(** [s.split(sep)] for a one-character separator: never an empty list. *)
Fixpoint split (sep : ascii) (s : string) : list string :=
  match s with
  | EmptyString => [EmptyString]
  | String c s' =>
      if Ascii.eqb c sep then EmptyString :: split sep s'
      else match split sep s' with
           | f :: fs => String c f :: fs
           | [] => [str1 c]
           end
  end.

(** [s.startswith(p)] *)
Fixpoint startswith (p s : string) : bool :=
  match p, s with
  | EmptyString, _ => true
  | String a p', String b s' => Ascii.eqb a b && startswith p' s'
  | String _ _, EmptyString => false
  end.

(** [p in s] on strings: [p] occurs in [s] as a contiguous block. *)
Fixpoint contains (p s : string) : bool :=
  startswith p s ||
  match s with
  | EmptyString => false
  | String _ s' => contains p s'
  end.

(** [s.endswith(p)] *)
Fixpoint endswith (p s : string) : bool :=
  String.eqb p s ||
  match s with
  | EmptyString => false
  | String _ s' => endswith p s'
  end.

Fixpoint last_char (s : string) : option ascii :=
  match s with
  | EmptyString => None
  | String c EmptyString => Some c
  | String _ s' => last_char s'
  end.

Definition endswith_char (c : ascii) (s : string) : bool :=
  match last_char s with
  | Some d => Ascii.eqb c d
  | None => false
  end.

Fixpoint has_char (c : ascii) (s : string) : bool :=
  match s with
  | EmptyString => false
  | String d s' => Ascii.eqb c d || has_char c s'
  end.

(** [sep.join(l)] *)
Fixpoint join (sep : string) (l : list string) : string :=
  match l with
  | [] => EmptyString
  | [x] => x
  | x :: l' => x +:+ sep +:+ join sep l'
  end.

Fixpoint concat (l : list string) : string :=
  match l with
  | [] => EmptyString
  | x :: l' => x +:+ concat l'
  end.

(** [str(n)] for an integer. *)
Definition digit_char (d : nat) : ascii := chr (48 + d).

Fixpoint pos_digits (fuel : nat) (n : N) (acc : string) : string :=
  match fuel with
  | O => acc
  | S fuel' =>
      let acc' := String (digit_char (N.to_nat (n mod 10)%N)) acc in
      if (n / 10 =? 0)%N then acc' else pos_digits fuel' (n / 10)%N acc'
  end.

Definition str_of_N (n : N) : string :=
  pos_digits (S (N.to_nat (N.log2 n))) n EmptyString.

Definition str_of_Z (z : Z) : string :=
  match z with
  | Zneg p => String "-"%char (str_of_N (Npos p))
  | _ => str_of_N (Z.to_N z)
  end.

(** [os.path.join(a, b)] on POSIX. *)
Definition path_join (a b : string) : string :=
  if startswith "/" b then b
  else if String.eqb a EmptyString || endswith_char "/"%char a then a +:+ b
  else a +:+ "/" +:+ b.

(** [os.path.dirname(p)] on POSIX: the part in front of the last "/",
    without its trailing slashes unless it consists of slashes only. *)
Fixpoint head_to_last_slash (s : string) : string :=
  match s with
  | EmptyString => EmptyString
  | String c s' =>
      if has_char "/"%char s then String c (head_to_last_slash s')
      else EmptyString
  end.

Fixpoint all_slashes (s : string) : bool :=
  match s with
  | EmptyString => true
  | String c s' => Ascii.eqb c "/"%char && all_slashes s'
  end.

Fixpoint rstrip_slashes (s : string) : string :=
  match s with
  | EmptyString => EmptyString
  | String c s' =>
      match rstrip_slashes s' with
      | EmptyString => if Ascii.eqb c "/"%char then EmptyString else str1 c
      | r => String c r
      end
  end.

Definition dirname (p : string) : string :=
  let head := head_to_last_slash p in
  if all_slashes head then head else rstrip_slashes head.

(** Lines of a text file opened in text mode, as [for line in f] yields
    them: a line ends at LF, CR or CR LF (universal newlines).  The
    terminator is left out, since every reader below strips it. *)
Fixpoint lines (s : string) : list string :=
  match s with
  | EmptyString => []
  | String c s' =>
      if Ascii.eqb c LF then EmptyString :: lines s'
      else if Ascii.eqb c CR then
        match s' with
        | String d s'' =>
            if Ascii.eqb d LF then EmptyString :: lines s''
            else EmptyString :: lines s'
        | EmptyString => [EmptyString]
        end
      else match lines s' with
           | l :: ls => String c l :: ls
           | [] => [str1 c]
           end
  end.

End PyStr.

(** ** Python numbers *)

Module PyNum.
Import PyStr.

Definition is_digit (c : ascii) : bool :=
  let n := nat_of_ascii c in (48 <=? n)%nat && (n <=? 57)%nat.

Definition digit_val (c : ascii) : N := N.of_nat (nat_of_ascii c - 48).

(** A run [digit (["_"] digit)*] read from the front of [s], continuing
    the value [acc] and the digit count [cnt]; stops in front of the
    first character that does not extend the run. *)
Fixpoint digitpart (acc : N) (cnt : nat) (s : string) : N * nat * string :=
  match s with
  | EmptyString => (acc, cnt, s)
  | String c s' =>
      if is_digit c then digitpart (acc * 10 + digit_val c)%N (S cnt) s'
      else if Ascii.eqb c "_"%char then
        match cnt, s' with
        | S _, String d _ => if is_digit d then digitpart acc cnt s' else (acc, cnt, s)
        | _, _ => (acc, cnt, s)
        end
      else (acc, cnt, s)
  end.

(** An optional sign: [true] for "-". *)
Definition sign_of (s : string) : bool * string :=
  match s with
  | String c s' =>
      if Ascii.eqb c "-"%char then (true, s')
      else if Ascii.eqb c "+"%char then (false, s')
      else (false, s)
  | EmptyString => (false, s)
  end.

(** [int(s)] for a string: [None] stands for [ValueError].  (CPython's
    cap on the number of digits of a literal is not modelled.) *)
Definition py_int (s : string) : option Z :=
  let '(neg, r) := sign_of (strip s) in
  match digitpart 0 0 r with
  | (n, S _, EmptyString) => Some (if neg then - Z.of_N n else Z.of_N n)
  | _ => None
  end.

(** What a string denotes for [float(s)], before rounding. *)
Inductive FloatLit : Type :=
| LitNan
| LitInf (neg : bool)
| LitDec (neg : bool) (m : N) (e : Z).   (* (-1)^neg * m * 10^e *)

Definition lower_char (c : ascii) : ascii :=
  let n := nat_of_ascii c in
  if (65 <=? n)%nat && (n <=? 90)%nat then chr (n + 32) else c.

Fixpoint lower (s : string) : string :=
  match s with
  | EmptyString => EmptyString
  | String c s' => String (lower_char c) (lower s')
  end.

Definition exponent_of (s : string) : option Z :=
  match s with
  | EmptyString => Some 0
  | String c s' =>
      if Ascii.eqb (lower_char c) "e"%char then
        let '(neg, r) := sign_of s' in
        match digitpart 0 0 r with
        | (n, S _, EmptyString) => Some (if neg then - Z.of_N n else Z.of_N n)
        | _ => None
        end
      else None
  end.

Definition py_float_lit (s : string) : option FloatLit :=
  let '(neg, r) := sign_of (strip s) in
  let w := lower r in
  if String.eqb w "inf" || String.eqb w "infinity" then Some (LitInf neg)
  else if String.eqb w "nan" then Some LitNan
  else
    let '(ip, n1, r1) := digitpart 0 0 r in
    let '(m, n2, r2) :=
      match r1 with
      | String c r1' =>
          if Ascii.eqb c "."%char then
            let '(m, n, r2) := digitpart ip 0 r1' in (m, n, r2)
          else (ip, O, r1)
      | EmptyString => (ip, O, r1)
      end in
    match (n1 + n2)%nat with
    | O => None
    | S _ =>
        match exponent_of r2 with
        | Some e => Some (LitDec neg m (e - Z.of_nat n2))
        | None => None
        end
    end.

(** The floating-point operations the pipeline uses. *)
Class FloatArith : Type := {
  flt : Type;
  of_int : Z -> flt;            (* int -> float conversion *)
  of_lit : FloatLit -> flt;     (* correctly rounded literal *)
  fdiv : flt -> flt -> flt;     (* true division *)
  fge : flt -> flt -> bool      (* a >= b *)
}.

(** [float(s)] for a string. *)
Definition py_float `{FloatArith} (s : string) : option flt :=
  of_lit <$> py_float_lit s.

(** *** IEEE 754 binary64, on Rocq's primitive floats *)

Definition sf_of_lit (l : FloatLit) : spec_float :=
  match l with
  | LitNan => S754_nan
  | LitInf neg => S754_infinity neg
  | LitDec neg m e =>
      match m with
      | N0 => S754_zero neg
      | Npos p =>
          if 0 <=? e
          then binary_normalize prec emax (cond_Zopp neg (Zpos p * 10 ^ e)) 0 neg
          else SFdiv prec emax (S754_finite neg p 0)
                     (S754_finite false (Z.to_pos (10 ^ (- e))) 0)
      end
  end.

#[export] Instance binary64 : FloatArith := {|
  flt := PrimFloat.float;
  of_int := fun z => SF2Prim (binary_normalize prec emax z 0 false);
  of_lit := fun l => SF2Prim (sf_of_lit l);
  fdiv := PrimFloat.div;
  fge := fun a b => PrimFloat.leb b a
|}.

(** *** Exact results: rationals completed with the IEEE special values *)

Inductive xq : Type :=
| XNan
| XInf (neg : bool)
| XFin (q : Q).

Definition Qneg (q : Q) : bool := negb (Qle_bool 0 q).

Definition xq_div (a b : xq) : xq :=
  match a, b with
  | XNan, _ | _, XNan => XNan
  | XInf _, XInf _ => XNan
  | XInf s, XFin q => XInf (xorb s (Qneg q))
  | XFin _, XInf _ => XFin 0
  | XFin p, XFin q =>
      if Qeq_bool q 0
      then (if Qeq_bool p 0 then XNan else XInf (Qneg p))
      else XFin (p / q)
  end.

Definition xq_ge (a b : xq) : bool :=
  match a, b with
  | XNan, _ | _, XNan => false
  | XInf sa, XInf sb => implb sa sb
  | XInf sa, XFin _ => negb sa
  | XFin _, XInf sb => sb
  | XFin p, XFin q => Qle_bool q p
  end.

Definition xq_of_lit (l : FloatLit) : xq :=
  match l with
  | LitNan => XNan
  | LitInf neg => XInf neg
  | LitDec neg m e =>
      let v := (inject_Z (Z.of_N m) * Qpower (inject_Z 10) e)%Q in
      XFin (if neg then Qopp v else v)
  end.

(** *** IEEE 754 binary64 by its definition

    Every operation returns its exact result rounded to the nearest
    representable number, ties to even.  (The sign of a zero is not kept:
    no comparison and no division of the pipeline tells the two zeros
    apart.) *)

Definition pow2 (k : Z) : Q := Qpower (2 # 1) k.

(** For [q > 0], the exponent [e] with [2^e <= q < 2^(e+1)]. *)
Definition ilog2 (q : Q) : Z :=
  let e0 := Z.log2 (Qnum q) - Z.log2 (Zpos (Qden q)) in
  if Qle_bool (pow2 e0) q then e0 else e0 - 1.

(** The nearest integer, ties to even. *)
Definition rne (q : Q) : Z :=
  let f := Qfloor q in
  match Qcompare (q - inject_Z f)%Q (1 # 2) with
  | Lt => f
  | Gt => f + 1
  | Eq => if Z.even f then f else f + 1
  end.

(** Rounding of [q > 0]: 53 significant bits, least exponent -1074,
    overflow from [2^1024]. *)
Definition ulp_exp (q : Q) : Z := Z.max (ilog2 q - 52) (-1074).

Definition round_val (q : Q) : Q :=
  (inject_Z (rne (q / pow2 (ulp_exp q))) * pow2 (ulp_exp q))%Q.

Definition round_pos (q : Q) : xq :=
  if Qle_bool (pow2 1024) (round_val q) then XInf false
  else XFin (Qred (round_val q)).

Definition xq_opp (a : xq) : xq :=
  match a with
  | XNan => XNan
  | XInf s => XInf (negb s)
  | XFin q => XFin (- q)%Q
  end.

Definition xq_round (a : xq) : xq :=
  match a with
  | XFin q =>
      match Qcompare q 0 with
      | Eq => XFin 0
      | Gt => round_pos q
      | Lt => xq_opp (round_pos (- q)%Q)
      end
  | _ => a
  end.

#[export] Instance ieee64 : FloatArith := {|
  flt := xq;
  of_int := fun z => xq_round (XFin (inject_Z z));
  of_lit := fun l => xq_round (xq_of_lit l);
  fdiv := fun a b => xq_round (xq_div a b);
  fge := xq_ge
|}.

(** The primitive float that holds the value of a rounded number. *)
Definition to_prim (a : xq) : PrimFloat.float :=
  match a with
  | XNan => SF2Prim S754_nan
  | XInf s => SF2Prim (S754_infinity s)
  | XFin q =>
      SF2Prim (binary_normalize prec emax (Qnum q) (- Z.log2 (Zpos (Qden q))) false)
  end.

End PyNum.

(** ** The part of pandas the filter uses *)

Module Pandas.
Import PyStr.

(** A table of counts: [index] holds the row labels (the OTU ids),
    [columns] the named sample columns, top to bottom. *)
Record DataFrame : Type := {
  index_name : string;
  index : list string;
  columns : list (string * list Z)
}.

Definition column_names (df : DataFrame) : list string := (columns df).*1.

(** [df[s]]: [None] stands for [KeyError]. *)
Fixpoint lookup_col (s : string) (cols : list (string * list Z)) : option (list Z) :=
  match cols with
  | [] => None
  | (n, v) :: cols' => if String.eqb n s then Some v else lookup_col s cols'
  end.

Definition getitem (df : DataFrame) (s : string) : option (list Z) :=
  lookup_col s (columns df).

(** [df[s] = v]: overwrites the column(s) labelled [s] in place, or
    appends a new last column. *)
Definition replace_col (s : string) (v : list Z) (cols : list (string * list Z))
  : list (string * list Z) :=
  (fun c => if String.eqb c.1 s then (c.1, v) else c) <$> cols.

Definition setitem (df : DataFrame) (s : string) (v : list Z) : DataFrame :=
  {| index_name := index_name df;
     index := index df;
     columns := match lookup_col s (columns df) with
                | Some _ => replace_col s v (columns df)
                | None => columns df ++ [(s, v)]
                end |}.

(** The cells of a column of counts are 64-bit integers ([int64]), and
    so is what the column adds up to: the sum of the cells modulo [2^64],
    taken in the range from [-2^63] up to [2^63 - 1]. *)
Definition wrap_int64 (z : Z) : Z := (z + 2 ^ 63) mod 2 ^ 64 - 2 ^ 63.

(** [Series.sum()] *)
Definition series_sum (l : list Z) : Z := wrap_int64 (foldr Z.add 0 l).

(** One field of a delimited file under minimal quoting. *)
Definition needs_quote (s : string) : bool :=
  has_char TAB s || has_char DQUOTE s || has_char LF s || has_char CR s.

Fixpoint double_quotes (s : string) : string :=
  match s with
  | EmptyString => EmptyString
  | String c s' =>
      if Ascii.eqb c DQUOTE then String DQUOTE (String DQUOTE (double_quotes s'))
      else String c (double_quotes s')
  end.

Definition csv_field (s : string) : string :=
  if needs_quote s then String DQUOTE (double_quotes s +:+ str1 DQUOTE) else s.

Definition csv_line (fields : list string) : string :=
  join (str1 TAB) (csv_field <$> fields) +:+ str1 LF.

Definition row_fields (df : DataFrame) (i : nat) (label : string) : list string :=
  label :: ((fun c => str_of_Z (nth i c.2 0)) <$> columns df).

(** The text [df.to_csv(path, sep="\t")] writes. *)
Definition to_csv (df : DataFrame) : string :=
  csv_line (index_name df :: column_names df)
  +:+ concat (imap (fun i label => csv_line (row_fields df i label)) (index df)).

End Pandas.

(** ** The abundance filter (steps 1 to 4 of [filter_low_abundance_otus]) *)

Module AbundanceFilter.
Import PyStr PyNum Pandas.

(** A sequence record of [otus.fasta], as [SeqIO.parse] yields it. *)
Record SeqRecord : Type := {
  rec_id : string;
  rec_description : string;
  rec_seq : string
}.

(** One evaluation of [x / total]: the operands. *)
Definition DivEvent : Type := Z * Z.

Section WithFloat.
Context `{FA : FloatArith}.

(** [lambda x: x if (x >= filter_min_count and (x / total) >=
    filter_min_freq) else 0], together with the divisions it
    evaluated: [and] does not evaluate its right operand when the left
    one is false. *)
Definition cell_lambda (filter_min_count : Z) (filter_min_freq : flt)
           (total x : Z) : Z * list DivEvent :=
  if x >=? filter_min_count
  then (if fge (fdiv (of_int x) (of_int total)) filter_min_freq then x else 0,
        [(x, total)])
  else (0, []).

(** [Series.apply] of that lambda, top to bottom. *)
Fixpoint apply_lambda (filter_min_count : Z) (filter_min_freq : flt)
         (total : Z) (col : list Z) : list Z * list DivEvent :=
  match col with
  | [] => ([], [])
  | x :: col' =>
      let '(y, e) := cell_lambda filter_min_count filter_min_freq total x in
      let '(ys, es) := apply_lambda filter_min_count filter_min_freq total col' in
      (y :: ys, e ++ es)
  end.

(** The body of [for sample in ...]: reads [otu_df], writes
    [otu_df_filtered]. *)
Definition filter_step (filter_min_count : Z) (filter_min_freq : flt)
           (otu_df : DataFrame) (st : DataFrame * list DivEvent)
           (sample : string) : option (DataFrame * list DivEvent) :=
  col ← getitem otu_df sample;
  let total := series_sum col in
  let '(col', e) := apply_lambda filter_min_count filter_min_freq total col in
  Some (setitem st.1 sample col', st.2 ++ e).

(** The loop, run over the labels [order]. *)
Fixpoint filter_columns (filter_min_count : Z) (filter_min_freq : flt)
         (otu_df : DataFrame) (order : list string)
         (st : DataFrame * list DivEvent) : option (DataFrame * list DivEvent) :=
  match order with
  | [] => Some st
  | sample :: order' =>
      st' ← filter_step filter_min_count filter_min_freq otu_df st sample;
      filter_columns filter_min_count filter_min_freq otu_df order' st'
  end.

(** [otu_df_filtered = otu_df.copy()] followed by the loop over
    [otu_df.columns]. *)
Definition filter_traced (filter_min_count : Z) (filter_min_freq : flt)
           (otu_df : DataFrame) : option (DataFrame * list DivEvent) :=
  filter_columns filter_min_count filter_min_freq otu_df
                 (column_names otu_df) (otu_df, []).

Definition filter_table (filter_min_count : Z) (filter_min_freq : flt)
           (otu_df : DataFrame) : option DataFrame :=
  fst <$> filter_traced filter_min_count filter_min_freq otu_df.

End WithFloat.

(** Step 2: the OTU ids read back from [otutab.filter.txt], each with
    ";" appended. *)
Definition otu_id_of_line (line : string) : list string :=
  match split TAB (strip line) with
  | [] => []
  | f0 :: _ => [f0 +:+ ";"]
  end.

Definition read_otu_ids (content : string) : list string :=
  match lines content with
  | [] => []
  | header :: rest => rest ≫= otu_id_of_line
  end.

(** Step 3: [all_otus[record.id] = record]. *)
Definition load_otus (records : list SeqRecord) : gmap string SeqRecord :=
  foldl (fun m r => <[rec_id r := r]> m) ∅ records.

(** The two nested loops that fill [passed_ids]. *)
Definition match_one (otu : string) (passed : gset string) (rids : list string)
  : gset string :=
  foldl (fun acc rid => if contains otu rid then acc ∪ {[rid]} else acc) passed rids.

Definition passed_ids (otu_ids : list string) (all_otus : gmap string SeqRecord)
  : gset string :=
  foldl (fun acc otu => match_one otu acc (elements (dom all_otus))) ∅ otu_ids.

(** Step 4: [set(all_otus.keys()) - passed_ids]. *)
Definition failed_ids (otu_ids : list string) (all_otus : gmap string SeqRecord)
  : gset string :=
  dom all_otus ∖ passed_ids otu_ids all_otus.

End AbundanceFilter.

(** ** The process state and the stages that change directory *)

Module Stage.
Import PyStr PyNum Pandas AbundanceFilter.

Inductive Exn : Type :=
| CalledProcessError (cmd : list string)
| EOFError
| KeyError (key : string)
| FileNotFoundError (path : string).

Inductive Level : Type := INFO | WARNING | ERROR.

(** What [subprocess.run] observes of a finished external program. *)
Record Completed : Type := {
  exit_ok : bool;                       (* exit status zero *)
  proc_stdout : string;
  proc_stderr : string;
  files_after : gmap string string
}.

(** The state of the process and of its machine.  [files] maps an
    absolute path to the text of a regular file, [dirs] holds the
    directories, [spawn] is the behaviour of external programs, given
    the working directory, the argument vector and the files.  What is
    printed on the console is not kept: [print] never influences what
    follows. *)
Record World : Type := {
  cwd : string;
  stdin : list string;
  files : gmap string string;
  dirs : gset string;
  log : list (Level * string);
  launched : list (list string);
  spawn : string -> list string -> gmap string string -> Completed
}.

Definition with_cwd (d : string) (w : World) : World :=
  {| cwd := d; stdin := stdin w; files := files w; dirs := dirs w;
     log := log w; launched := launched w; spawn := spawn w |}.
Definition with_stdin (l : list string) (w : World) : World :=
  {| cwd := cwd w; stdin := l; files := files w; dirs := dirs w;
     log := log w; launched := launched w; spawn := spawn w |}.
Definition with_files (f : gmap string string) (w : World) : World :=
  {| cwd := cwd w; stdin := stdin w; files := f; dirs := dirs w;
     log := log w; launched := launched w; spawn := spawn w |}.
Definition with_dirs (d : gset string) (w : World) : World :=
  {| cwd := cwd w; stdin := stdin w; files := files w; dirs := d;
     log := log w; launched := launched w; spawn := spawn w |}.
Definition with_log (l : list (Level * string)) (w : World) : World :=
  {| cwd := cwd w; stdin := stdin w; files := files w; dirs := dirs w;
     log := l; launched := launched w; spawn := spawn w |}.
Definition with_launched (l : list (list string)) (w : World) : World :=
  {| cwd := cwd w; stdin := stdin w; files := files w; dirs := dirs w;
     log := log w; launched := l; spawn := spawn w |}.

(** How a call ends: it returns, it raises, or it never ends. *)
Inductive Result (A : Type) : Type :=
| Returned (a : A) (w : World)
| Raised (e : Exn) (w : World)
| Diverged.
Arguments Returned {A} a w.
Arguments Raised {A} e w.
Arguments Diverged {A}.

Definition M (A : Type) : Type := World -> Result A.

#[export] Instance M_ret : MRet M := fun A a w => Returned a w.
#[export] Instance M_bind : MBind M := fun A B k m w =>
  match m w with
  | Returned a w' => k a w'
  | Raised e w' => Raised e w'
  | Diverged => Diverged
  end.

Definition raise {A} (e : Exn) : M A := fun w => Raised e w.

(** [try: m except: h] *)
Definition try_except {A} (m : M A) (h : M A) : M A := fun w =>
  match m w with
  | Raised _ w' => h w'
  | r => r
  end.

(** [for x in l: body x] *)
Fixpoint for_each {A} (l : list A) (body : A -> M unit) : M unit :=
  match l with
  | [] => mret tt
  | x :: l' => body x ;; for_each l' body
  end.

Definition resolve (p : string) (w : World) : string := path_join (cwd w) p.

Definition getcwd : M string := fun w => Returned (cwd w) w.

(** [os.chdir(p)]; the directory is taken to exist ([main] creates
    [7-OTU] before the stages run). *)
Definition chdir (p : string) : M unit := fun w => Returned tt (with_cwd (resolve p w) w).

Definition path_exists (p : string) : M bool := fun w =>
  Returned (bool_decide (resolve p w ∈ dom (files w) ∨ resolve p w ∈ dirs w)) w.

(** [os.makedirs(p, exist_ok=True)] *)
Definition makedirs (p : string) : M unit := fun w =>
  Returned tt (with_dirs (dirs w ∪ {[resolve p w]}) w).

Definition read_text (p : string) : M string := fun w =>
  match files w !! resolve p w with
  | Some t => Returned t w
  | None => Raised (FileNotFoundError p) w
  end.

Definition write_text (p : string) (t : string) : M unit := fun w =>
  Returned tt (with_files (<[resolve p w := t]> (files w)) w).

(** [os.remove(p)] *)
Definition remove (p : string) : M unit := fun w =>
  match files w !! resolve p w with
  | Some _ => Returned tt (with_files (delete (resolve p w) (files w)) w)
  | None => Raised (FileNotFoundError p) w
  end.

(** [os.rename(src, dst)] *)
Definition rename (src dst : string) : M unit := fun w =>
  match files w !! resolve src w with
  | Some t =>
      Returned tt (with_files (<[resolve dst w := t]> (delete (resolve src w) (files w))) w)
  | None => Raised (FileNotFoundError src) w
  end.

(** [input(prompt)]: the next console line, [EOFError] at end of input. *)
Definition input : M string := fun w =>
  match stdin w with
  | l :: rest => Returned l (with_stdin rest w)
  | [] => Raised EOFError w
  end.

(** The root logger after [basicConfig(level=logging.INFO)]: DEBUG
    records are dropped. *)
Definition logging (lv : Level) (msg : string) : M unit := fun w =>
  Returned tt (with_log (log w ++ [(lv, msg)]) w).

(** [subprocess.run(cmd, ...)] without [check]; the program is taken
    to be there to start ([main] has [check_tool] find the tools before
    the stages run). *)
Definition subprocess_run (cmd : list string) : M Completed := fun w =>
  let c := spawn w (cwd w) cmd (files w) in
  Returned c (with_files (files_after c) (with_launched (launched w ++ [cmd]) w)).

(** [tools[name]] *)
Definition tool (tools : gmap string string) (name : string) : M string :=
  match tools !! name with
  | Some path => mret path
  | None => raise (KeyError name)
  end.

(** [run_command]; its [logging.debug] call leaves no record. *)
Definition run_command (cmd : list string) (description : string) : M unit :=
  logging INFO ("Running: " +:+ description) ;;
  logging INFO ("Command: " +:+ join " " cmd) ;;
  c ← subprocess_run cmd;
  if exit_ok c
  then logging INFO (description +:+ " completed successfully.")
  else logging ERROR ("Error in " +:+ description +:+ ": " +:+ proc_stderr c) ;;
       raise (CalledProcessError cmd).

(** A loop whose every turn starts by reading the console: [body]
    yields [Some a] to leave the loop with [a] and [None] to go round
    again.  A turn that goes round again has consumed a line, or has
    found the console at end of input and swallowed the error, in which
    case every later turn does the same: the loop never ends.  Hence
    one more turn than there are pending lines decides the outcome. *)
Fixpoint loop_turns {A} (turns : nat) (body : M (option A)) : M A :=
  match turns with
  | O => fun _ => Diverged
  | S n => r ← body; match r with
                     | Some a => mret a
                     | None => loop_turns n body
                     end
  end.

Definition console_loop {A} (body : M (option A)) : M A := fun w =>
  loop_turns (S (length (stdin w))) body w.

(** [while choice not in ["1", "2"]: choice = input(...).strip()] *)
Definition ask_1_or_2 : M string :=
  console_loop (l ← input;
                let choice := strip l in
                mret (if bool_decide (choice ∈ ["1"; "2"]) then Some choice else None)).

(** Library code the stages call on file contents. *)
Class Extern : Type := {
  pd_read_csv : string -> option DataFrame;         (* [None]: it raises *)
  SeqIO_parse : string -> option (list SeqRecord);  (* [None]: it raises *)
  SeqIO_format : SeqRecord -> string;
  plt_savefig : list (string * list Z * list Z) -> string
}.

Section Stages.
Context `{FA : FloatArith} `{EX : Extern}.

(** *** New function 11 *)

(** The prompt for the identity threshold: [input] is outside the
    [try], so end of input is not swallowed. *)
Definition ask_identity : M string :=
  console_loop (l ← input;
                let up_identity := strip l in
                mret (match py_float up_identity with
                      | Some val =>
                          if fge val (of_int 0) && fge (of_int 1) val
                          then Some up_identity else None
                      | None => None
                      end)).

Definition relabel_and_cluster (tools : gmap string string) (threads : Z)
           (output_dir : string) : M unit :=
  let otu_dir := path_join output_dir "7-OTU" in
  orig_dir ← getcwd;
  chdir otu_dir ;;
  let nonchim_file :=
    path_join (path_join (dirname otu_dir) "6-chimera") "otus_nochim.fasta" in
  let temp_otus := "otus.temp.fasta" in
  vsearch ← tool tools "vsearch";
  let cmd_relabel :=
    [vsearch; "--fastx_filter"; nonchim_file; "--sizein"; "--sizeout";
     "--fasta_width"; "0"; "--relabel"; "OTU_";
     "--threads"; str_of_Z threads; "--fastaout"; temp_otus] in
  run_command cmd_relabel "OTU重命名" ;;
  choice ← ask_1_or_2;
  (if String.eqb choice "1" then
     up_identity ← ask_identity;
     let centroids := "otus.fasta" in
     vsearch ← tool tools "vsearch";
     let cmd_cluster :=
       [vsearch; "--cluster_size"; temp_otus; "--id"; up_identity;
        "--strand"; "plus"; "--threads"; str_of_Z threads;
        "--sizein"; "--sizeout"; "--fasta_width"; "0";
        "--centroids"; centroids] in
     run_command cmd_cluster "第二次UPARSE3聚类" ;;
     let all_derep_file :=
       path_join (path_join (dirname otu_dir) "4-dereplicate")
                 "all_samples_derep.fasta" in
     vsearch ← tool tools "vsearch";
     let cmd_map :=
       [vsearch; "--usearch_global"; all_derep_file; "--db"; centroids;
        "--id"; up_identity; "--strand"; "plus";
        "--threads"; str_of_Z threads; "--sizein"; "--sizeout";
        "--fasta_width"; "0"; "--qmask"; "none"; "--dbmask"; "none";
        "--otutabout"; "otutab.txt"] in
     run_command cmd_map "OTU映射" ;;
     present ← path_exists temp_otus;
     (if present : bool then remove temp_otus else mret tt)
   else if String.eqb choice "2" then
     vsearch ← tool tools "vsearch";
     let cmd_map2 :=
       [vsearch; "--usearch_global";
        path_join (path_join (dirname otu_dir) "4-dereplicate")
                  "all_samples_derep.fasta";
        "--db"; temp_otus; "--id"; "0.97"; "--strand"; "plus";
        "--threads"; str_of_Z threads; "--sizein"; "--sizeout";
        "--fasta_width"; "0"; "--qmask"; "none"; "--dbmask"; "none";
        "--otutabout"; "otutab.temp.txt"] in
     run_command cmd_map2 "OTU映射（直接映射）" ;;
     rename "otus.temp.fasta" "otus.fasta" ;;
     rename "otutab.temp.txt" "otutab.txt"
   else mret tt) ;;
  chdir orig_dir.

(** *** New function 12 *)

Definition column_or_nil (df : DataFrame) (s : string) : list Z :=
  default [] (getitem df s).

Definition plot_rarefaction_curve (tools : gmap string string) (threads : Z)
           (output_dir : string) : M unit :=
  let otu_dir := path_join output_dir "7-OTU" in
  orig_dir ← getcwd;
  chdir otu_dir ;;
  try_except
    (let cmd := "awk '{print $2}' ../../barcoding_corrected.txt > ../../id.sample" in
     c ← subprocess_run ["/bin/sh"; "-c"; cmd];
     if exit_ok c then mret tt
     else raise (CalledProcessError ["/bin/sh"; "-c"; cmd]))
    (mret tt) ;;
  let cmd_rarefy := ["Rarefy_OTUtab.R"; "otutab.txt"; "../../id.sample"] in
  run_command cmd_rarefy "计算稀释曲线" ;;
  let id_sample_file := path_join (dirname output_dir) "id.sample" in
  present ← path_exists id_sample_file;
  if negb present then chdir orig_dir
  else
    text ← read_text id_sample_file;
    let sample_ids :=
      filter (fun l => l ≠ EmptyString) (strip <$> lines text) in
    rare ← try_except (t ← read_text "rare.txt";
                       match pd_read_csv t with
                       | Some df => mret (Some df)
                       | None => raise (FileNotFoundError "rare.txt")
                       end)
                      (mret None);
    match rare with
    | None => chdir orig_dir
    | Some rare_df =>
        let known :=
          filter (fun sid => sid ∈ column_names rare_df) sample_ids in
        match known with
        | [] => chdir orig_dir
        | _ :: _ =>
            match getitem rare_df "richness" with
            | None => raise (KeyError "richness")
            | Some richness =>
                let all_data :=
                  (fun sid => (sid, richness, column_or_nil rare_df sid)) <$> known in
                write_text "rarefaction_curve.pdf" (plt_savefig all_data) ;;
                chdir orig_dir
            end
        end
    end.

(** *** New function 13 *)

(** The prompt for the minimum count: the bare [except] also swallows
    the end of input. *)
Definition ask_min_count : M Z :=
  console_loop
    (try_except
       (l ← input;
        match py_int (strip l) with
        | Some filter_min_count =>
            mret (if filter_min_count >? 0 then Some filter_min_count else None)
        | None => mret None
        end)
       (mret None)).

(** The prompt for the minimum frequency. *)
Definition ask_min_freq : M flt :=
  console_loop
    (try_except
       (l ← input;
        match py_float (strip l) with
        | Some filter_min_freq => mret (Some filter_min_freq)
        | None => mret None
        end)
       (mret None)).

Definition filter_low_abundance_otus (tools : gmap string string) (threads : Z)
           (output_dir : string) : M unit :=
  let otu_dir := path_join output_dir "7-OTU" in
  orig_dir ← getcwd;
  chdir otu_dir ;;
  choice ← ask_1_or_2;
  if String.eqb choice "2" then chdir orig_dir
  else
    filter_min_count ← ask_min_count;
    filter_min_freq ← ask_min_freq;
    (* Step 1 *)
    table ← try_except (t ← read_text "otutab.txt";
                        match pd_read_csv t with
                        | Some df => mret (Some df)
                        | None => raise (FileNotFoundError "otutab.txt")
                        end)
                       (mret None);
    match table with
    | None => chdir orig_dir
    | Some otu_df =>
        match filter_table filter_min_count filter_min_freq otu_df with
        | None => raise (KeyError "sample")
        | Some otu_df_filtered =>
            write_text "otutab.filter.txt" (to_csv otu_df_filtered) ;;
            (* Step 2 *)
            content ← read_text "otutab.filter.txt";
            let otu_ids := read_otu_ids content in
            write_text "list.t1" (concat ((fun otu => otu +:+ str1 LF) <$> otu_ids)) ;;
            (* Step 3 *)
            parsed ← try_except (t ← read_text "otus.fasta";
                                 match SeqIO_parse t with
                                 | Some records => mret (Some records)
                                 | None => raise (FileNotFoundError "otus.fasta")
                                 end)
                                (mret None);
            match parsed with
            | None => chdir orig_dir
            | Some records =>
                let all_otus := load_otus records in
                let passed := passed_ids otu_ids all_otus in
                write_text "otus.filter.fasta"
                  (concat ((fun rid => from_option SeqIO_format EmptyString (all_otus !! rid))
                             <$> elements passed)) ;;
                (* Step 4 *)
                let failed := failed_ids otu_ids all_otus in
                write_text "list.filter"
                  (concat ((fun rid => rid +:+ str1 LF) <$> elements failed)) ;;
                try_except (remove "list.t1") (mret tt) ;;
                chdir orig_dir
            end
        end
    end.

End Stages.

(** *** Step 1 of [main]: demultiplexing *)

Record SampleRow : Type := {
  run_id : string;
  sample_id : string;
  forward_primer : string;
  reverse_primer : string;
  forward_file : string;
  reverse_file : string
}.

Definition cutadapt_cmd (cutadapt : string) (threads : Z)
           (input_dir demultiplex_dir : string) (row : SampleRow) : list string :=
  let barcode_for := forward_primer row in
  let barcode_rev := reverse_primer row in
  let forward_file := path_join input_dir (forward_file row) in
  let reverse_file := path_join input_dir (reverse_file row) in
  let output_forward := path_join demultiplex_dir (sample_id row +:+ ".R1.fastq") in
  let output_reverse := path_join demultiplex_dir (sample_id row +:+ ".R2.fastq") in
  [cutadapt; "-g"; "^" +:+ barcode_for; "-G"; "^" +:+ barcode_rev;
   "-o"; output_forward; "-p"; output_reverse; "-j"; str_of_Z threads;
   "--discard-untrimmed"; "-e"; "0.1"; forward_file; reverse_file].

Definition skip_message (row : SampleRow) : string :=
  "跳过 " +:+ sample_id row +:+ " - 正向或反向文件未找到。".

(** The body of the loop over the metadata rows. *)
Definition demultiplex_row (tools : gmap string string) (threads : Z)
           (input_dir demultiplex_dir : string) (row : SampleRow) : M unit :=
  let forward_file := path_join input_dir (forward_file row) in
  let reverse_file := path_join input_dir (reverse_file row) in
  have_forward ← path_exists forward_file;
  have_reverse ← path_exists reverse_file;
  if negb have_forward || negb have_reverse
  then logging WARNING (skip_message row)
  else
    cutadapt ← tool tools "cutadapt";
    run_command (cutadapt_cmd cutadapt threads input_dir demultiplex_dir row)
                ("样本解复用 " +:+ sample_id row).

Definition demultiplex (tools : gmap string string) (threads : Z)
           (input_dir output_dir : string) (metadata : list SampleRow) : M unit :=
  let demultiplex_dir := path_join output_dir "1-demultiplex" in
  makedirs demultiplex_dir ;;
  for_each metadata (demultiplex_row tools threads input_dir demultiplex_dir).

End Stage.

(** ** The specification's wording, and the notions the statements use *)

Module Spec.
Import PyStr PyNum Pandas AbundanceFilter Stage.

(** "[total = sum(column)]": the sum of the cells, in the integers. *)
Definition column_sum (col : list Z) : Z := foldr Z.add 0 col.

Section WithFloat.
Context `{FA : FloatArith}.

(** "retain [x] unchanged if [x >= min_count AND x/total >= min_freq];
    otherwise replace with [0]" *)
Definition retained (min_count : Z) (min_freq : flt) (total x : Z) : bool :=
  (x >=? min_count) && fge (fdiv (of_int x) (of_int total)) min_freq.

Definition filtered_cell (min_count : Z) (min_freq : flt) (total x : Z) : Z :=
  if retained min_count min_freq total x then x else 0.

(** "for each sample column independently, compute [total =
    sum(column)] over the unfiltered table" *)
Definition filtered_column (min_count : Z) (min_freq : flt) (col : list Z) : list Z :=
  filtered_cell min_count min_freq (column_sum col) <$> col.

Definition filtered_table (min_count : Z) (min_freq : flt) (df : DataFrame)
  : DataFrame :=
  {| index_name := index_name df;
     index := index df;
     columns := (fun c : string * list Z =>
                   (c.1, filtered_column min_count min_freq c.2)) <$> columns df |}.

(** What the loop stores for a column: every cell judged against the
    total that [Series.sum()] gave for the column of [otu_df]. *)
Definition stored_column (min_count : Z) (min_freq : flt) (col : list Z) : list Z :=
  filtered_cell min_count min_freq (series_sum col) <$> col.

Definition stored_table (min_count : Z) (min_freq : flt) (df : DataFrame)
  : DataFrame :=
  {| index_name := index_name df;
     index := index df;
     columns := (fun c : string * list Z =>
                   (c.1, stored_column min_count min_freq c.2)) <$> columns df |}.

(** The table [otu_df_filtered] while the loop runs: the columns
    whose labels are in [done] are stored, the others still hold
    the counts copied from [otu_df]. *)
Definition in_progress (min_count : Z) (min_freq : flt) (done : list string)
           (df : DataFrame) : DataFrame :=
  {| index_name := index_name df;
     index := index df;
     columns := (fun c : string * list Z =>
                   if bool_decide (c.1 ∈ done)
                   then (c.1, stored_column min_count min_freq c.2) else c)
                  <$> columns df |}.

(** The divisions evaluated for the column labelled [s]. *)
Definition column_events (min_count : Z) (min_freq : flt) (df : DataFrame)
           (s : string) : list DivEvent :=
  match getitem df s with
  | Some col => (apply_lambda min_count min_freq (series_sum col) col).2
  | None => []
  end.

(** The count criterion alone. *)
Definition count_only_table (min_count : Z) (df : DataFrame) : DataFrame :=
  {| index_name := index_name df;
     index := index df;
     columns := (fun c : string * list Z =>
                   (c.1, (fun x => if x >=? min_count then x else 0) <$> c.2))
                  <$> columns df |}.

(** The counts pandas holds are 64-bit integers: they lie below
    [2^63]. *)
Definition count_bound : Z := 2 ^ 63.

(** Two facts of floating-point division, on counts: a quotient of
    positive integers does not decrease when the divisor decreases, and a
    quotient of positive integers is not below zero. *)
Definition div_antitone : Prop :=
  forall (x t t' : Z) (f : flt),
    0 < x -> x <= t' -> t' <= t -> t < count_bound ->
    fge (fdiv (of_int x) (of_int t)) f = true ->
    fge (fdiv (of_int x) (of_int t')) f = true.

(** The minimum frequencies entered as "0" and as "0.1". *)
Definition float_zero : flt := of_lit (LitDec false 0 0).
Definition float_tenth : flt := of_lit (LitDec false 1 (-1)).

Definition quotient_nonneg (zero : flt) : Prop :=
  forall x t : Z, 0 < x -> x <= t -> t < count_bound ->
    fge (fdiv (of_int x) (of_int t)) zero = true.

End WithFloat.

(** "cells = non-negative integer read counts" *)
Definition nonneg_table (df : DataFrame) : Prop :=
  Forall (fun c : string * list Z => Forall (fun x => 0 <= x) c.2) (columns df).

(** The cells are 64-bit integers, as the [int64] columns hold them
    that pandas builds for a table of counts. *)
Definition int64_table (df : DataFrame) : Prop :=
  Forall (fun c : string * list Z => Forall (fun x => - 2 ^ 63 <= x < 2 ^ 63) c.2)
         (columns df).

(** Every column adds up to less than [2^63], so that the sum of its
    cells fits a 64-bit integer. *)
Definition within_int64 (df : DataFrame) : Prop :=
  Forall (fun c : string * list Z => column_sum c.2 < count_bound) (columns df).

(** Every column has one cell per row label. *)
Definition rectangular (df : DataFrame) : Prop :=
  Forall (fun c : string * list Z => length c.2 = length (index df)) (columns df).

(** The rows of a table taken in the order [p] of their positions. *)
Definition reorder_rows (p : list nat) (df : DataFrame) : DataFrame :=
  {| index_name := index_name df;
     index := (fun i => nth i (index df) EmptyString) <$> p;
     columns := (fun c : string * list Z => (c.1, (fun i => nth i c.2 0) <$> p))
                  <$> columns df |}.

(** The cells of the row at position [i]. *)
Definition row_cells (df : DataFrame) (i : nat) : list Z :=
  (fun c : string * list Z => nth i c.2 0) <$> columns df.

(** A row label that survives the round trip through the delimited
    file: it does not start or end with white space and holds no tab,
    double quote or line break. *)
Definition clean_label (l : string) : bool :=
  match l with
  | EmptyString => false
  | String c _ => negb (isspace c)
  end
  && match last_char l with
     | Some c => negb (isspace c)
     | None => false
     end
  && negb (needs_quote l).

(** Characters that are neither white space nor the double quote, and
    strings made of them. *)
Definition plain_char (c : ascii) : bool :=
  negb (isspace c) && negb (Ascii.eqb c DQUOTE).

Fixpoint plain (s : string) : bool :=
  match s with
  | EmptyString => true
  | String c s' => plain_char c && plain s'
  end.

Definition one_line (s : string) : bool :=
  negb (has_char LF s) && negb (has_char CR s).

(** The header of the table holds no line break. *)
Definition header_one_line (df : DataFrame) : Prop :=
  Forall (fun s => one_line s = true) (index_name df :: column_names df).

(** A record of [otus.fasta] as VSEARCH labels it. *)
Definition otu_record (rid : string) : SeqRecord :=
  {| rec_id := rid; rec_description := rid; rec_seq := "ACGT" |}.

(** The raw input files of a sample, and whether both are there. *)
Definition raw_paths (input_dir : string) (row : SampleRow) : list string :=
  [path_join input_dir (forward_file row); path_join input_dir (reverse_file row)].

Definition on_disk (w : World) (p : string) : bool :=
  bool_decide (resolve p w ∈ dom (files w) ∨ resolve p w ∈ dirs w).

Definition present (w : World) (input_dir : string) (row : SampleRow) : bool :=
  forallb (on_disk w) (raw_paths input_dir row).

(** Every external program ends with exit status zero. *)
Definition all_exit_ok (w : World) : Prop :=
  forall d cmd fs, exit_ok (spawn w d cmd fs) = true.

(** No external program creates or removes a raw input file. *)
Definition raw_inputs_kept (w : World) (input_dir : string)
           (metadata : list SampleRow) : Prop :=
  forall d cmd fs row p,
    row ∈ metadata -> p ∈ raw_paths input_dir row ->
    (resolve p w ∈ dom (files_after (spawn w d cmd fs)) <-> resolve p w ∈ dom fs).

(** The texts of the WARNING records of a log. *)
Definition is_warning (e : Level * string) : bool :=
  match e.1 with
  | WARNING => true
  | _ => false
  end.

Definition warnings (l : list (Level * string)) : list string :=
  (List.filter is_warning l).*2.

(** The world in which the loop of the demultiplex stage starts. *)
Definition stage_entry (output_dir : string) (w : World) : World :=
  with_dirs (dirs w ∪ {[resolve (path_join output_dir "1-demultiplex") w]}) w.

(** A machine whose external programs all end with the same status and
    leave the files alone. *)
Definition machine (status : bool) (console : list string)
           (fs : gmap string string) : World :=
  {| cwd := "/home/user/run";
     stdin := console;
     files := fs;
     dirs := ∅;
     log := [];
     launched := [];
     spawn := fun _ _ fs' =>
                {| exit_ok := status; proc_stdout := EmptyString;
                   proc_stderr := "failed"; files_after := fs' |} |}.

Definition no_library : Extern :=
  {| pd_read_csv := fun _ => None;
     SeqIO_parse := fun _ => None;
     SeqIO_format := fun r => rec_id r;
     plt_savefig := fun _ => EmptyString |}.

(** A library that reads the given table and records from any text. *)
Definition fixed_library (df : DataFrame) (records : list SeqRecord) : Extern :=
  {| pd_read_csv := fun _ => Some df;
     SeqIO_parse := fun _ => Some records;
     SeqIO_format := fun r =>
       ">" +:+ rec_description r +:+ str1 LF +:+ rec_seq r +:+ str1 LF;
     plt_savefig := fun _ => EmptyString |}.

Definition sample (sid : string) : SampleRow :=
  {| run_id := "run1"; sample_id := sid;
     forward_primer := "GTGCCAGCMGCCGCGGTAA"; reverse_primer := "GGACTACHVGGGTWTCTAAT";
     forward_file := sid +:+ "_R1.fastq"; reverse_file := sid +:+ "_R2.fastq" |}.

(** The scenarios of section 8. *)
Definition one_sample (counts : list Z) : DataFrame :=
  {| index_name := "#OTU ID";
     index := imap (fun i _ => "OTU_" +:+ str_of_Z (Z.of_nat (S i))) counts;
     columns := [("S1", counts)] |}.

Definition two_samples : DataFrame :=
  {| index_name := "#OTU ID";
     index := ["OTU_1"; "OTU_2"; "OTU_3"];
     columns := [("S1", [120; 40; 5]); ("S2", [0; 0; 0])] |}.

End Spec.


(** ** Further Python builtins: the ones [main] and its helpers use *)

Module Builtins.
Import PyStr PyNum.

(** [str.isdigit]: among the code points below 256 the digits are "0"
    to "9" and the superscripts two, three and one. *)
Definition isdigit_char (c : ascii) : bool :=
  let n := nat_of_ascii c in
  is_digit c || (n =? 178)%nat || (n =? 179)%nat || (n =? 185)%nat.

Fixpoint all_chars (p : ascii -> bool) (s : string) : bool :=
  match s with
  | EmptyString => true
  | String c s' => p c && all_chars p s'
  end.

Definition isdigit (s : string) : bool :=
  match s with
  | EmptyString => false
  | String _ _ => all_chars isdigit_char s
  end.

(** [s.split()]: the maximal runs of characters that are not white
    space, in order; none for a blank string. *)
Fixpoint split_whitespace (s : string) : list string :=
  match s with
  | EmptyString => []
  | String c s' =>
      if isspace c then split_whitespace s'
      else match s' with
           | EmptyString => [str1 c]
           | String d _ =>
               if isspace d then str1 c :: split_whitespace s'
               else match split_whitespace s' with
                    | t :: ts => String c t :: ts
                    | [] => [str1 c]
                    end
           end
  end.

(** [s.strip(chars)] *)
Fixpoint lstrip_chars (chars s : string) : string :=
  match s with
  | EmptyString => EmptyString
  | String c s' => if has_char c chars then lstrip_chars chars s' else s
  end.

Fixpoint rstrip_chars (chars s : string) : string :=
  match s with
  | EmptyString => EmptyString
  | String c s' =>
      match rstrip_chars chars s' with
      | EmptyString => if has_char c chars then EmptyString else str1 c
      | r => String c r
      end
  end.

Definition strip_chars (chars s : string) : string :=
  rstrip_chars chars (lstrip_chars chars s).

(** [os.path.normpath] on POSIX.  [new_comps] grows at its end, as the
    list of the library does. *)
Definition normpath_step (initial_slashes : nat) (new_comps : list string)
           (comp : string) : list string :=
  if bool_decide (comp ∈ [EmptyString; "."]) then new_comps
  else if negb (String.eqb comp "..")
          || (Nat.eqb initial_slashes 0 && bool_decide (new_comps = []))
          || match last new_comps with
             | Some c => String.eqb c ".."
             | None => false
             end
       then new_comps ++ [comp]
       else removelast new_comps.

Definition normpath (path : string) : string :=
  if String.eqb path EmptyString then "."
  else
    let initial_slashes :=
      if startswith "/" path
      then if startswith "//" path && negb (startswith "///" path) then 2%nat else 1%nat
      else 0%nat in
    let comps := fold_left (normpath_step initial_slashes) (split "/"%char path) [] in
    let path' := concat (replicate initial_slashes "/") +:+ join "/" comps in
    if String.eqb path' EmptyString then "." else path'.

(** What reading a file opened in text mode does to its line ends
    (universal newlines): CR LF and a lone CR become LF. *)
Fixpoint universal_newlines (s : string) : string :=
  match s with
  | EmptyString => EmptyString
  | String c s' =>
      if Ascii.eqb c CR then
        match s' with
        | String d s'' =>
            if Ascii.eqb d LF then String LF (universal_newlines s'')
            else String LF (universal_newlines s')
        | EmptyString => str1 LF
        end
      else String c (universal_newlines s')
  end.

End Builtins.

(** ** [main] and its helpers *)

Module Pipeline.
Import PyStr PyNum Builtins Pandas AbundanceFilter Stage Spec.

(** What unwinds the stack besides the exceptions of [Exn]:
    [sys.exit(status)], the [ValueError] of [int(literal)], and an
    exception raised while pandas loads the metadata (the path is no
    regular file, the text is no table, or the six column names do not
    fit). *)
Inductive Signal : Type :=
| SystemExit (status : string)
| ValueError (literal : string)
| PandasError.

(** How a step that may do so goes on. *)
Inductive Flow (A : Type) : Type :=
| Continue (a : A)
| Unwind (s : Signal).
Arguments Continue {A} a.
Arguments Unwind {A} s.

(** The code of [main]: none of it is inside a [try] of its own, so an
    unwinding signal skips whatever follows. *)
Definition P (A : Type) : Type := M (Flow A).

#[export] Instance P_ret : MRet P := fun A a => (mret (Continue a) : M (Flow A)).
#[export] Instance P_bind : MBind P := fun A B k m =>
  (r ← (m : M (Flow A));
   match r with
   | Continue a => k a
   | Unwind s => mret (Unwind s)
   end : M (Flow B)).

Definition lift {A} (m : M A) : P A := (a ← m; mret (Continue a) : M (Flow A)).

Definition unwind {A} (s : Signal) : P A := (mret (Unwind s) : M (Flow A)).

(** A validator of [get_valid_input]: it looks at the value and at the
    machine, and changes nothing. *)
Definition Validator : Type := string -> World -> Flow bool.

(** [lambda x: x in ["1", "2"]] *)
Definition one_or_two : Validator := fun x _ =>
  Continue (bool_decide (x ∈ ["1"; "2"])).

(** [lambda x: x.isdigit() and int(x) > 0] *)
Definition positive_integer : Validator := fun x _ =>
  if isdigit x then
    match py_int x with
    | Some n => Continue (n >? 0)
    | None => Unwind (ValueError x)
    end
  else Continue false.

(** [lambda x: x.isdigit() and int(x) >= int(min_length)] *)
Definition at_least (min_length : string) : Validator := fun x _ =>
  if isdigit x then
    match py_int x with
    | Some n =>
        match py_int min_length with
        | Some m => Continue (n >=? m)
        | None => Unwind (ValueError min_length)
        end
    | None => Unwind (ValueError x)
    end
  else Continue false.

(** [all(token.isdigit() and int(token) > 0 for token in tokens)] *)
Fixpoint all_positive (tokens : list string) : Flow bool :=
  match tokens with
  | [] => Continue true
  | token :: tokens' =>
      if isdigit token then
        match py_int token with
        | Some n => if n >? 0 then all_positive tokens' else Continue false
        | None => Unwind (ValueError token)
        end
      else Continue false
  end.

Definition validate_lengths : Validator := fun s _ =>
  let tokens := split_whitespace s in
  match all_positive tokens with
  | Continue true => Continue (0 <? length tokens)%nat
  | r => r
  end.

(** [lambda x: os.path.exists(x)] *)
Definition path_exists_validator : Validator := fun x w => Continue (on_disk w x).

(** [lambda x: x.lower() in ["yes", "no"]]; [lower] and [str.lower]
    agree on whether the result is a given ASCII word. *)
Definition yes_or_no : Validator := fun x _ =>
  Continue (bool_decide (lower x ∈ ["yes"; "no"])).

(** What the machine offers beyond the files: the search path, the
    permission bits, and pandas reading the metadata table into its
    rows ([None]: it raises, or the six column names do not fit). *)
Class Host : Type := {
  shutil_which : string -> World -> option string;
  os_access_X_OK : string -> World -> bool;
  read_metadata : string -> option (list SampleRow)
}.

(** [os.path.abspath] *)
Definition abspath (path : string) : M string := fun w =>
  Returned (normpath (resolve path w)) w.

(** [os.path.isfile(p) and os.access(p, os.X_OK)] *)
Definition is_executable_file `{Host} (p : string) : M bool := fun w =>
  Returned (bool_decide (resolve p w ∈ dom (files w)) && os_access_X_OK p w) w.

(** A text file opened for writing and written through its handle.
    Text that CPython still buffers counts as written: the block that
    holds the handle flushes it however it is left.  A write reaches the
    path only while the file opened there is still in place. *)
Definition open_w (p : string) : M unit := write_text p EmptyString.

Definition append_text (p t : string) : M unit := fun w =>
  match files w !! resolve p w with
  | Some old => Returned tt (with_files (<[resolve p w := old +:+ t]> (files w)) w)
  | None => Returned tt w
  end.

(** [subprocess.run(cmd, stdout=f, check=True)] for the handle [f] of
    the file opened at [out]: no record is logged. *)
Definition subprocess_run_to (cmd : list string) (out : string) : M unit :=
  c ← subprocess_run cmd;
  append_text out (proc_stdout c) ;;
  if exit_ok c then mret tt else raise (CalledProcessError cmd).

(** The command-line arguments, as [parse_args] returns them. *)
Record Namespace : Type := {
  input_dir : string;
  metadata_file : string;
  output_dir : string;
  threads : Z
}.

(** *** Steps 2 to 7: argument vectors and log texts *)

Definition merge_inputs (demultiplex_dir : string) (row : SampleRow) : list string :=
  [path_join demultiplex_dir (sample_id row +:+ ".R1.fastq");
   path_join demultiplex_dir (sample_id row +:+ ".R2.fastq")].

Definition merge_cmd (vsearch : string) (threads : Z)
           (demultiplex_dir merge_dir : string) (row : SampleRow) : list string :=
  let demux_forward := path_join demultiplex_dir (sample_id row +:+ ".R1.fastq") in
  let demux_reverse := path_join demultiplex_dir (sample_id row +:+ ".R2.fastq") in
  let merge_out := path_join merge_dir (sample_id row +:+ ".merged.fastq") in
  [vsearch; "--fastq_mergepairs"; demux_forward; "--reverse"; demux_reverse;
   "--threads"; str_of_Z threads; "--fastqout"; merge_out; "--fastq_eeout"].

Definition merge_skip_message (row : SampleRow) : string :=
  "跳过 " +:+ sample_id row +:+ " - 解复用文件未找到。".

Definition input_skip_message (sample_id input_file : string) : string :=
  "跳过 " +:+ sample_id +:+ " - 输入文件 " +:+ input_file +:+ " 未找到。".

Definition range_filter_cmd (vsearch : string) (threads : Z)
           (merge_dir quality_dir min_length max_length sample_id : string)
  : list string :=
  let input_file := path_join merge_dir (sample_id +:+ ".merged.fastq") in
  let output_file := path_join quality_dir (sample_id +:+ ".filtered.fasta") in
  [vsearch; "--fastx_filter"; input_file; "--fastaout"; output_file;
   "--fastq_maxee"; "1.0"; "--fastq_maxee_rate"; "0.01";
   "--fastq_minlen"; min_length; "--fastq_maxlen"; max_length;
   "--fastq_maxns"; "0"; "--fasta_width"; "0"; "--threads"; str_of_Z threads].

Definition seqkit_cmd (seqkit : string) (threads : Z) (length input_file : string)
  : list string :=
  [seqkit; "seq"; "-j"; str_of_Z threads; "-m"; length; "-M"; length; input_file].

Definition fixed_filter_cmd (vsearch : string) (threads : Z)
           (quality_dir sample_id : string) : list string :=
  let temp_file := path_join quality_dir (sample_id +:+ ".temp.fastq") in
  let output_file := path_join quality_dir (sample_id +:+ ".filtered.fasta") in
  [vsearch; "--fastx_filter"; temp_file; "--fastaout"; output_file;
   "--fastq_maxee"; "1.0"; "--fastq_maxee_rate"; "0.01";
   "--fastq_maxns"; "0"; "--fasta_width"; "0"; "--threads"; str_of_Z threads].

Definition derep_cmd (vsearch : string) (threads : Z)
           (quality_dir dereplicate_dir sample_id : string) : list string :=
  let input_file := path_join quality_dir (sample_id +:+ ".filtered.fasta") in
  let output_file := path_join dereplicate_dir (sample_id +:+ ".derep.fasta") in
  [vsearch; "--derep_fulllength"; input_file; "--strand"; "plus";
   "--output"; output_file; "--sizeout"; "--relabel"; sample_id +:+ ".";
   "--fasta_width"; "0"; "--threads"; str_of_Z threads].

Definition uparse_cmd (vsearch : string) (threads : Z)
           (all_derep_file otu_file : string) : list string :=
  [vsearch; "--cluster_smallmem"; all_derep_file; "--id"; "0.97"; "--usersort";
   "--centroids"; otu_file; "--strand"; "plus"; "--sizein"; "--sizeout";
   "--fasta_width"; "0"; "--threads"; str_of_Z threads].

Definition unoise_cmd (vsearch : string) (threads : Z)
           (all_derep_file otu_file : string) : list string :=
  [vsearch; "--unoise3"; all_derep_file; "--centroids"; otu_file; "--usersort";
   "--sizein"; "--sizeout"; "--fasta_width"; "0"; "--threads"; str_of_Z threads].

Definition denovo_cmd (vsearch : string) (threads : Z)
           (otu_file nochim_file : string) : list string :=
  [vsearch; "--uchime_denovo"; otu_file; "--nonchimeras"; nochim_file;
   "--sizein"; "--sizeout"; "--usersort"; "--fasta_width"; "0";
   "--threads"; str_of_Z threads].

Definition uchime_ref_cmd (vsearch : string) (threads : Z)
           (otu_file ref_db nochim_file : string) : list string :=
  [vsearch; "--uchime_ref"; otu_file; "--db"; ref_db; "--usersort";
   "--nonchimeras"; nochim_file; "--sizein"; "--sizeout"; "--fasta_width"; "0";
   "--threads"; str_of_Z threads].

Definition otutab_cmd (vsearch : string) (threads : Z)
           (all_derep_file nochim_file otu_table : string) : list string :=
  [vsearch; "--usearch_global"; all_derep_file; "--db"; nochim_file; "--usersort";
   "--id"; "0.97"; "--otutabout"; otu_table; "--strand"; "plus"; "--sizein";
   "--threads"; str_of_Z threads].

Definition sintax_cmd (vsearch : string) (threads : Z)
           (nochim_file ref_db sintax_out : string) : list string :=
  [vsearch; "--sintax"; nochim_file; "--db"; ref_db; "--sintax_cutoff"; "0.8";
   "--usersort"; "--strand"; "both"; "--tabbedout"; sintax_out;
   "--threads"; str_of_Z threads].

(** *** Step 2: merging the read pairs *)

Definition merge_row (tools : gmap string string) (threads : Z)
           (demultiplex_dir merge_dir : string) (row : SampleRow) : M unit :=
  let demux_forward := path_join demultiplex_dir (sample_id row +:+ ".R1.fastq") in
  let demux_reverse := path_join demultiplex_dir (sample_id row +:+ ".R2.fastq") in
  have_forward ← path_exists demux_forward;
  have_reverse ← path_exists demux_reverse;
  if negb have_forward || negb have_reverse
  then logging WARNING (merge_skip_message row)
  else
    vsearch ← tool tools "vsearch";
    run_command (merge_cmd vsearch threads demultiplex_dir merge_dir row)
                ("合并样本 " +:+ sample_id row +:+ " 的双端测序文件").

Definition merge (tools : gmap string string) (threads : Z)
           (output_dir : string) (metadata : list SampleRow) : M unit :=
  let demultiplex_dir := path_join output_dir "1-demultiplex" in
  let merge_dir := path_join output_dir "2-merge" in
  makedirs merge_dir ;;
  for_each metadata (merge_row tools threads demultiplex_dir merge_dir).

(** *** Step 4: dereplication *)

Definition dereplicate_sample (tools : gmap string string) (threads : Z)
           (quality_dir dereplicate_dir all_derep_file sample_id : string) : M unit :=
  let input_file := path_join quality_dir (sample_id +:+ ".filtered.fasta") in
  let output_file := path_join dereplicate_dir (sample_id +:+ ".derep.fasta") in
  present ← path_exists input_file;
  if negb present
  then logging WARNING (input_skip_message sample_id input_file)
  else
    vsearch ← tool tools "vsearch";
    run_command (derep_cmd vsearch threads quality_dir dereplicate_dir sample_id)
                ("样本内去重复 " +:+ sample_id) ;;
    text ← read_text output_file;
    append_text all_derep_file (universal_newlines text).

Definition dereplicate (tools : gmap string string) (threads : Z)
           (output_dir : string) (metadata : list SampleRow) : M unit :=
  let quality_dir := path_join output_dir "3-quality" in
  let dereplicate_dir := path_join output_dir "4-dereplicate" in
  makedirs dereplicate_dir ;;
  let all_derep_file := path_join dereplicate_dir "all_samples_derep.fasta" in
  open_w all_derep_file ;;
  for_each (sample_id <$> metadata)
           (dereplicate_sample tools threads quality_dir dereplicate_dir all_derep_file).

(** *** Step 7: the OTU table *)

Definition otu_table_step (tools : gmap string string) (threads : Z)
           (output_dir : string) : M unit :=
  let all_derep_file :=
    path_join (path_join output_dir "4-dereplicate") "all_samples_derep.fasta" in
  let nochim_file := path_join (path_join output_dir "6-chimera") "otus_nochim.fasta" in
  let otu_dir := path_join output_dir "7-OTU" in
  makedirs otu_dir ;;
  let otu_table := path_join otu_dir "otu_table.txt" in
  vsearch ← tool tools "vsearch";
  run_command (otutab_cmd vsearch threads all_derep_file nochim_file otu_table)
              "生成 OTU 表".

Section Script.
(** The word that ends the run at a prompt: the one constant in which
    the helpers of the two scripts differ. *)
Variable sentinel : string.
Context `{HO : Host}.

(** [validator(value)] inside the loop of [get_valid_input]: the
    value leaves the loop, or the loop goes round, or the validator
    raises. *)
Definition consult (v : Validator) (value : string) : M (option (Flow string)) :=
  fun w =>
    Returned (match v value w with
              | Continue true => Some (Continue value)
              | Continue false => None
              | Unwind s => Some (Unwind s)
              end) w.

(** One turn of the loop of [get_valid_input]. *)
Definition get_valid_input_turn (validator : option Validator)
  : M (option (Flow string)) :=
  l ← input;
  let value := strip l in
  if String.eqb (lower value) sentinel
  then mret (Some (Unwind (SystemExit "用户选择结束运行。")))
  else match validator with
       | None => mret (Some (Continue value))
       | Some v => consult v value
       end.

Definition get_valid_input (validator : option Validator) : P string :=
  console_loop (get_valid_input_turn validator).

(** [pd.read_csv(metadata_file, sep='\t', header=None)] and the
    assignment of the six column names. *)
Definition load_metadata (metadata_file : string) : P (list SampleRow) := fun w =>
  match files w !! resolve metadata_file w with
  | Some text =>
      match read_metadata text with
      | Some metadata => Returned (Continue metadata) w
      | None => Returned (Unwind PandasError) w
      end
  | None => Returned (Unwind PandasError) w
  end.

(** One turn of the loop of [check_tool]. *)
Definition check_tool_turn (tool_name : string) : M (option (Flow string)) :=
  dir_input ← input;
  if String.eqb (lower (strip dir_input)) sentinel
  then mret (Some (Unwind (SystemExit "用户选择结束运行。")))
  else
    dir_path ← abspath (strip_chars "'" dir_input);
    let tool_full_path := path_join dir_path tool_name in
    ok ← is_executable_file tool_full_path;
    if ok : bool
    then logging INFO (tool_name +:+ " found at " +:+ tool_full_path) ;;
         mret (Some (Continue tool_full_path))
    else mret None.

Definition check_tool (tool_name : string) : P string := fun w =>
  match shutil_which tool_name w with
  | Some (String c p) =>
      let tool_path := String c p in
      lift (logging INFO (tool_name +:+ " found at " +:+ tool_path) ;;
            mret tool_path) w
  | _ => console_loop (check_tool_turn tool_name) w
  end.

(** *** Step 3: quality filtering *)

Definition quality_range_sample (tools : gmap string string) (threads : Z)
           (merge_dir quality_dir min_length max_length sample_id : string) : M unit :=
  let input_file := path_join merge_dir (sample_id +:+ ".merged.fastq") in
  present ← path_exists input_file;
  if negb present
  then logging WARNING (input_skip_message sample_id input_file)
  else
    vsearch ← tool tools "vsearch";
    run_command (range_filter_cmd vsearch threads merge_dir quality_dir
                                  min_length max_length sample_id)
                ("质量过滤 " +:+ sample_id).

Definition quality_fixed_sample (tools : gmap string string) (threads : Z)
           (merge_dir quality_dir : string) (lengths : list string)
           (sample_id : string) : M unit :=
  let input_file := path_join merge_dir (sample_id +:+ ".merged.fastq") in
  let temp_file := path_join quality_dir (sample_id +:+ ".temp.fastq") in
  present ← path_exists input_file;
  if negb present
  then logging WARNING (input_skip_message sample_id input_file)
  else
    open_w temp_file ;;
    for_each lengths (fun length =>
      seqkit ← tool tools "seqkit";
      subprocess_run_to (seqkit_cmd seqkit threads length input_file) temp_file) ;;
    vsearch ← tool tools "vsearch";
    run_command (fixed_filter_cmd vsearch threads quality_dir sample_id)
                ("质量过滤 " +:+ sample_id) ;;
    remove temp_file.

Definition quality (tools : gmap string string) (threads : Z)
           (output_dir : string) (metadata : list SampleRow) : P unit :=
  let merge_dir := path_join output_dir "2-merge" in
  let quality_dir := path_join output_dir "3-quality" in
  lift (makedirs quality_dir) ;;
  marker_type ← get_valid_input (Some one_or_two);
  if String.eqb marker_type "1" then
    min_length ← get_valid_input (Some positive_integer);
    max_length ← get_valid_input (Some (at_least min_length));
    lift (for_each (sample_id <$> metadata)
                   (quality_range_sample tools threads merge_dir quality_dir
                                         min_length max_length))
  else
    lengths_input ← get_valid_input (Some validate_lengths);
    let lengths := split_whitespace lengths_input in
    lift (for_each (sample_id <$> metadata)
                   (quality_fixed_sample tools threads merge_dir quality_dir lengths)).

(** *** Step 5: clustering *)

Definition cluster (tools : gmap string string) (threads : Z)
           (output_dir : string) : P unit :=
  let all_derep_file :=
    path_join (path_join output_dir "4-dereplicate") "all_samples_derep.fasta" in
  let cluster_dir := path_join output_dir "5-cluster" in
  lift (makedirs cluster_dir) ;;
  cluster_method ← get_valid_input (Some one_or_two);
  let otu_file := path_join cluster_dir "otus.fasta" in
  if String.eqb cluster_method "1" then
    lift (vsearch ← tool tools "vsearch";
          run_command (uparse_cmd vsearch threads all_derep_file otu_file)
                      "使用 UPARSE3 进行 OTU 聚类")
  else
    lift (vsearch ← tool tools "vsearch";
          run_command (unoise_cmd vsearch threads all_derep_file otu_file)
                      "使用 UNOISE3 进行 ASV 聚类").

(** *** Step 6: chimera detection *)

Definition chimera (tools : gmap string string) (threads : Z)
           (output_dir : string) : P unit :=
  let otu_file := path_join (path_join output_dir "5-cluster") "otus.fasta" in
  let chimera_dir := path_join output_dir "6-chimera" in
  lift (makedirs chimera_dir) ;;
  let nochim_file := path_join chimera_dir "otus_nochim.fasta" in
  chimera_method ← get_valid_input (Some one_or_two);
  if String.eqb chimera_method "1" then
    lift (vsearch ← tool tools "vsearch";
          run_command (denovo_cmd vsearch threads otu_file nochim_file)
                      "执行 de novo 嵌合体检测")
  else
    ref_db ← get_valid_input (Some path_exists_validator);
    lift (vsearch ← tool tools "vsearch";
          run_command (uchime_ref_cmd vsearch threads otu_file ref_db nochim_file)
                      "执行参考数据库嵌合体检测").

(** *** Step 8: the optional classification *)

Definition classify_step (tools : gmap string string) (threads : Z)
           (output_dir : string) : P unit :=
  let nochim_file := path_join (path_join output_dir "6-chimera") "otus_nochim.fasta" in
  classify ← get_valid_input (Some yes_or_no);
  if String.eqb (lower classify) "yes" then
    let sintax_dir := path_join output_dir "8-SINTAX" in
    lift (makedirs sintax_dir) ;;
    let sintax_out := path_join sintax_dir "otus_sintax.txt" in
    ref_db ← get_valid_input (Some path_exists_validator);
    lift (vsearch ← tool tools "vsearch";
          run_command (sintax_cmd vsearch threads nochim_file ref_db sintax_out)
                      "执行 SINTAX 分类注释")
  else mret tt.

(** *** [main] *)

(** From the start of [main] to the loaded metadata: the paths made
    absolute, the two existence checks, the output directory, the five
    tools in the order of the dictionary display, the table. *)
Definition prepare (args : Namespace)
  : P (string * string * gmap string string * list SampleRow) :=
  input_dir ← lift (abspath (input_dir args));
  metadata_file ← lift (abspath (metadata_file args));
  output_dir ← lift (abspath (output_dir args));
  have_input ← lift (path_exists input_dir);
  if negb have_input then lift (raise (FileNotFoundError input_dir))
  else
    have_metadata ← lift (path_exists metadata_file);
    if negb have_metadata then lift (raise (FileNotFoundError metadata_file))
    else
      lift (makedirs output_dir) ;;
      cutadapt ← check_tool "cutadapt";
      vsearch ← check_tool "vsearch";
      usearch ← check_tool "usearch";
      seqkit ← check_tool "seqkit";
      csvtk ← check_tool "csvtk";
      let tools : gmap string string :=
        <["csvtk" := csvtk]> (<["seqkit" := seqkit]> (<["usearch" := usearch]>
          (<["vsearch" := vsearch]> (<["cutadapt" := cutadapt]> ∅)))) in
      lift (logging INFO "正在加载元数据...") ;;
      metadata ← load_metadata metadata_file;
      mret (input_dir, output_dir, tools, metadata).

(** Steps 1 to 7. *)
Definition steps_1_to_7 (threads : Z) (input_dir output_dir : string)
           (tools : gmap string string) (metadata : list SampleRow) : P unit :=
  lift (demultiplex tools threads input_dir output_dir metadata) ;;
  lift (merge tools threads output_dir metadata) ;;
  quality tools threads output_dir metadata ;;
  lift (dereplicate tools threads output_dir metadata) ;;
  cluster tools threads output_dir ;;
  chimera tools threads output_dir ;;
  lift (otu_table_step tools threads output_dir).

Definition finish : P unit := lift (logging INFO "扩增子测序数据处理完成！").

(** The last lines of the script: [main] under
    [except Exception as e], which logs one ERROR record and lets the
    interpreter end with status 0; [SystemExit] is no [Exception], and
    with a text as its argument ends the interpreter with status 1.
    [text] stands for [str(e)]. *)
Definition run_script (text : Exn + Signal -> string) (main : P unit) : M Z := fun w =>
  match main w with
  | Returned (Continue _) w' => Returned 0 w'
  | Returned (Unwind (SystemExit _)) w' => Returned 1 w'
  | Returned (Unwind s) w' =>
      (logging ERROR ("发生错误: " +:+ text (inr s)) ;; mret 0) w'
  | Raised e w' =>
      (logging ERROR ("发生错误: " +:+ text (inl e)) ;; mret 0) w'
  | Diverged => Diverged
  end.

End Script.

(** [Amplicaon_processing.py]: the prompts end the run at the word
    "exist". *)
Module Processing1.
Section Main.
Context `{HO : Host}.

Definition get_valid_input : option Validator -> P string := get_valid_input "exist".
Definition check_tool : string -> P string := check_tool "exist".

Definition main (args : Namespace) : P unit :=
  '(input_dir, output_dir, tools, metadata) ← prepare "exist" args;
  steps_1_to_7 "exist" (threads args) input_dir output_dir tools metadata ;;
  classify_step "exist" tools (threads args) output_dir ;;
  finish.

End Main.
End Processing1.

(** [Amplicaon_processing2.py]: the word is "exit", and the three new
    functions run between step 7 and step 8. *)
Module Processing2.
Section Main.
Context `{FA : FloatArith} `{EX : Extern} `{HO : Host}.

Definition get_valid_input : option Validator -> P string := get_valid_input "exit".
Definition check_tool : string -> P string := check_tool "exit".

Definition main (args : Namespace) : P unit :=
  '(input_dir, output_dir, tools, metadata) ← prepare "exit" args;
  steps_1_to_7 "exit" (threads args) input_dir output_dir tools metadata ;;
  lift (relabel_and_cluster tools (threads args) output_dir) ;;
  lift (plot_rarefaction_curve tools (threads args) output_dir) ;;
  lift (filter_low_abundance_otus tools (threads args) output_dir) ;;
  classify_step "exit" tools (threads args) output_dir ;;
  finish.

End Main.
End Processing2.

(** A host without a search path on which every file is executable and
    the metadata are the given rows. *)
Definition plain_host (metadata : list SampleRow) : Host :=
  {| shutil_which := fun _ _ => None;
     os_access_X_OK := fun _ _ => true;
     read_metadata := fun _ => Some metadata |}.

End Pipeline.

(** ** Notions the statements about [main] and its helpers use *)

Module Notions.
Import PyStr PyNum Builtins Stage Spec Pipeline.

(** The validator, if there is one, lets the value through. *)
Definition accepts (validator : option Validator) (value : string) (w : World) : Prop :=
  match validator with
  | None => True
  | Some v => v value w = Continue true
  end.

(** A line at which the prompt goes round again, whatever is still
    pending on the console: it is not the word that ends the run, and
    the validator says no. *)
Definition turned_down (sentinel : string) (validator : option Validator)
           (w : World) (l : string) : Prop :=
  lower (strip l) ≠ sentinel
  /\ match validator with
     | None => False
     | Some v => forall pending, v (strip l) (with_stdin pending w) = Continue false
     end.

(** The path [check_tool] tries for the console line [l], and whether
    it names an executable regular file while [pending] is what is left
    on the console. *)
Definition candidate (tool_name : string) (w : World) (l : string) : string :=
  path_join (normpath (resolve (strip_chars "'" l) w)) tool_name.

Definition usable `{Host} (tool_name : string) (w : World) (pending : list string)
           (l : string) : bool :=
  bool_decide (resolve (candidate tool_name w l) w ∈ dom (files w))
  && os_access_X_OK (candidate tool_name w l) (with_stdin pending w).

(** The world in which a call ends, if it does. *)
Definition final_world {A} (r : Result A) : option World :=
  match r with
  | Returned _ w => Some w
  | Raised _ w => Some w
  | Diverged => None
  end.

(** A computation that launches no external program. *)
Definition quiet {A} (m : M A) : Prop :=
  forall w,
    match final_world (m w) with
    | Some w' => launched w' = launched w
    | None => True
    end.

(** No file outside the paths [S] differs between [w] and [w']. *)
Definition frame (S : list string) (w w' : World) : Prop :=
  forall q, q ∉ S -> files w' !! q = files w !! q.

(** Run in the directory [d], the computation stays there, and however
    it ends it has touched no file outside [S]. *)
Definition keeps {A} (d : string) (S : list string) (m : M A) : Prop :=
  forall w,
    cwd w = d ->
    match final_world (m w) with
    | Some w' => cwd w' = d /\ frame S w w'
    | None => True
    end.

(** The same without the promise to stay in [d]. *)
Definition ends_framed {A} (d : string) (S : list string) (m : M A) : Prop :=
  forall w w',
    cwd w = d -> final_world (m w) = Some w' -> frame S w w'.

(** The record [check_tool] logs for the path it returns. *)
Definition found_record (tool_name p : string) : Level * string :=
  (INFO, tool_name +:+ " found at " +:+ p).

(** The world once [os.makedirs(dir, exist_ok=True)] has run. *)
Definition entered (dir : string) (w : World) : World :=
  with_dirs (dirs w ∪ {[resolve dir w]}) w.

(** The world once [cmd] has been launched from [w] and [records] have
    been logged. *)
Definition ran (cmd : list string) (records : list (Level * string)) (w : World)
  : World :=
  {| cwd := cwd w; stdin := stdin w;
     files := files_after (spawn w (cwd w) cmd (files w));
     dirs := dirs w; log := log w ++ records;
     launched := launched w ++ [cmd]; spawn := spawn w |}.

(** The argument vectors that [relabel_and_cluster] builds: the
    relabelling, the second clustering and its mapping, which both carry
    the identity threshold that was asked for, and the direct mapping. *)
Definition relabel_cmd (vsearch : string) (threads : Z) (output_dir : string)
  : list string :=
  [vsearch; "--fastx_filter";
   path_join (path_join (dirname (path_join output_dir "7-OTU")) "6-chimera")
             "otus_nochim.fasta";
   "--sizein"; "--sizeout"; "--fasta_width"; "0"; "--relabel"; "OTU_";
   "--threads"; str_of_Z threads; "--fastaout"; "otus.temp.fasta"].

Definition second_cluster_cmd (vsearch : string) (threads : Z) (up_identity : string)
  : list string :=
  [vsearch; "--cluster_size"; "otus.temp.fasta"; "--id"; up_identity;
   "--strand"; "plus"; "--threads"; str_of_Z threads;
   "--sizein"; "--sizeout"; "--fasta_width"; "0";
   "--centroids"; "otus.fasta"].

Definition second_map_cmd (vsearch : string) (threads : Z)
           (output_dir up_identity : string) : list string :=
  [vsearch; "--usearch_global";
   path_join (path_join (dirname (path_join output_dir "7-OTU")) "4-dereplicate")
             "all_samples_derep.fasta";
   "--db"; "otus.fasta"; "--id"; up_identity; "--strand"; "plus";
   "--threads"; str_of_Z threads; "--sizein"; "--sizeout";
   "--fasta_width"; "0"; "--qmask"; "none"; "--dbmask"; "none";
   "--otutabout"; "otutab.txt"].

Definition direct_map_cmd (vsearch : string) (threads : Z) (output_dir : string)
  : list string :=
  [vsearch; "--usearch_global";
   path_join (path_join (dirname (path_join output_dir "7-OTU")) "4-dereplicate")
             "all_samples_derep.fasta";
   "--db"; "otus.temp.fasta"; "--id"; "0.97"; "--strand"; "plus";
   "--threads"; str_of_Z threads; "--sizein"; "--sizeout";
   "--fasta_width"; "0"; "--qmask"; "none"; "--dbmask"; "none";
   "--otutabout"; "otutab.temp.txt"].

(** All of the paths are on disk. *)
Definition inputs_present (w : World) (inputs : list string) : bool :=
  forallb (on_disk w) inputs.

(** No external program creates or removes an input of an item of [l]. *)
Definition inputs_kept {A} (w : World) (inputs : A -> list string) (l : list A) : Prop :=
  forall d cmd fs x p,
    x ∈ l -> p ∈ inputs x ->
    (resolve p w ∈ dom (files_after (spawn w d cmd fs)) <-> resolve p w ∈ dom fs).

(** The input of a sample at steps 3 and 4. *)
Definition merged_file (output_dir sample_id : string) : string :=
  path_join (path_join output_dir "2-merge") (sample_id +:+ ".merged.fastq").

Definition filtered_file (output_dir sample_id : string) : string :=
  path_join (path_join output_dir "3-quality") (sample_id +:+ ".filtered.fasta").

Definition temp_file (output_dir sample_id : string) : string :=
  path_join (path_join output_dir "3-quality") (sample_id +:+ ".temp.fastq").

Definition derep_file (output_dir sample_id : string) : string :=
  path_join (path_join output_dir "4-dereplicate") (sample_id +:+ ".derep.fasta").

Definition all_derep_file (output_dir : string) : string :=
  path_join (path_join output_dir "4-dereplicate") "all_samples_derep.fasta".

(** The world in which the loop of step 4 starts: the directory made,
    the cumulative file opened for writing. *)
Definition derep_entry (output_dir : string) (w : World) : World :=
  with_files (<[resolve (all_derep_file output_dir) w := EmptyString]> (files w))
             (entered (path_join output_dir "4-dereplicate") w).

(** A machine on which the exit status of a program is decided by its
    argument vector, and which otherwise behaves as [w]. *)
Definition with_spawn_status (ok : list string -> bool) (w : World) : World :=
  {| cwd := cwd w; stdin := stdin w; files := files w; dirs := dirs w;
     log := log w; launched := launched w;
     spawn := fun d cmd fs =>
       {| exit_ok := ok cmd;
          proc_stdout := proc_stdout (spawn w d cmd fs);
          proc_stderr := proc_stderr (spawn w d cmd fs);
          files_after := files_after (spawn w d cmd fs) |} |}.

(** A machine on which VSEARCH dereplication writes one record, named
    after the label it is given, into its output file, provided this is
    a per-sample file; every program exits with status zero. *)
Definition derep_text (label : string) : string :=
  ">" +:+ label +:+ "1;size=2" +:+ str1 LF +:+ "ACGT" +:+ str1 LF.

Definition derep_machine (console : list string) (fs : gmap string string) : World :=
  {| cwd := "/home/user/run";
     stdin := console;
     files := fs;
     dirs := ∅;
     log := [];
     launched := [];
     spawn := fun _ cmd fs' =>
       {| exit_ok := true; proc_stdout := EmptyString; proc_stderr := EmptyString;
          files_after :=
            match cmd !! 1%nat, cmd !! 6%nat, cmd !! 9%nat with
            | Some "--derep_fulllength", Some output_file, Some label =>
                if endswith ".derep.fasta" output_file
                then <[output_file := derep_text label]> fs'
                else fs'
            | _, _, _ => fs'
            end |} |}.

End Notions.

Import PyStr PyNum Pandas AbundanceFilter Stage Spec.

(** * Properties *)

(** ** Columns and the filter loop *)

Section FilterFacts.
Context `{FA : FloatArith}.
Variables (mc : Z) (mf : flt).

Lemma cell_lambda_value total x :
  (cell_lambda mc mf total x).1 = filtered_cell mc mf total x.
Proof.
  unfold cell_lambda, filtered_cell, retained.
  destruct (x >=? mc); simpl; [|done].
  by destruct (fge _ _).
Qed.

Lemma cell_lambda_events total x e :
  e ∈ (cell_lambda mc mf total x).2 -> e = (x, total) /\ mc <= x.
Proof.
  unfold cell_lambda. destruct (Z.geb_spec x mc) as [Hge|Hlt]; simpl.
  - intros ->%list_elem_of_singleton. split; [done|lia].
  - intros []%elem_of_nil.
Qed.

Lemma apply_lambda_value total col :
  (apply_lambda mc mf total col).1 = filtered_cell mc mf total <$> col.
Proof.
  induction col as [|x col IH]; simpl; [done|].
  pose proof (cell_lambda_value total x) as Hx.
  destruct (cell_lambda mc mf total x), (apply_lambda mc mf total col).
  simpl in *. by rewrite Hx, IH.
Qed.

Lemma apply_lambda_events total col e :
  e ∈ (apply_lambda mc mf total col).2 ->
  exists x, x ∈ col /\ e = (x, total) /\ mc <= x.
Proof.
  induction col as [|x col IH]; simpl.
  - intros []%elem_of_nil.
  - pose proof (cell_lambda_events total x e) as Hc.
    destruct (cell_lambda mc mf total x) as [y ev],
             (apply_lambda mc mf total col) as [ys es]; simpl in *.
    intros [Hin|Hin]%elem_of_app.
    + destruct (Hc Hin) as [-> ?]. exists x. split; [left|done].
    + destruct (IH Hin) as (x' & ? & ? & ?). exists x'. split; [by right|done].
Qed.

Lemma lookup_col_elem s v cols :
  NoDup cols.*1 -> (s, v) ∈ cols -> lookup_col s cols = Some v.
Proof.
  induction cols as [|[n u] cols IH]; simpl.
  - intros _ []%elem_of_nil.
  - intros [Hn Hnd]%NoDup_cons [Heq|Hin]%elem_of_cons.
    + inversion Heq; subst. by rewrite String.eqb_refl.
    + destruct (String.eqb_spec n s) as [->|Hne]; [|by apply IH].
      exfalso. apply Hn. apply list_elem_of_fmap. by exists (s, v).
Qed.

Lemma lookup_col_name s cols :
  s ∈ cols.*1 -> exists v, lookup_col s cols = Some v /\ (s, v) ∈ cols.
Proof.
  induction cols as [|[n u] cols IH]; simpl.
  - intros []%elem_of_nil.
  - destruct (String.eqb_spec n s) as [->|Hne].
    + intros _. exists u. split; [done|left].
    + intros [Heq|Hin]%elem_of_cons; [done|].
      destruct (IH Hin) as (v & ? & ?). exists v. split; [done|by right].
Qed.

Lemma lookup_col_fmap_names s (g : string * list Z -> string * list Z) cols :
  (forall c, (g c).1 = c.1) ->
  lookup_col s (g <$> cols) = (fun v => (g (s, v)).2) <$> lookup_col s cols.
Proof.
  intros Hg. induction cols as [|[n u] cols IH]; simpl; [done|].
  pose proof (Hg (n, u)) as Hn. destruct (g (n, u)) as [n' u'] eqn:E.
  simpl in Hn. subst n'.
  destruct (String.eqb_spec n s) as [->|Hne]; simpl; [by rewrite E|done].
Qed.

Lemma in_progress_nil df : in_progress mc mf [] df = df.
Proof.
  destruct df as [nm idx cols]. unfold in_progress. simpl. f_equal.
  rewrite <- (list_fmap_id cols) at 2.
  apply Forall_fmap_ext_1, Forall_forall. by intros c _.
Qed.

Lemma in_progress_all done df :
  (forall s, s ∈ column_names df -> s ∈ done) ->
  in_progress mc mf done df = stored_table mc mf df.
Proof.
  intros Hall. unfold in_progress, stored_table. f_equal.
  apply Forall_fmap_ext_1, Forall_forall. intros c Hc. simpl.
  rewrite bool_decide_eq_true_2; [done|].
  apply Hall, list_elem_of_fmap. by exists c.
Qed.

Lemma filter_step_in_progress df done ev s :
  NoDup (column_names df) -> s ∈ column_names df ->
  filter_step mc mf df (in_progress mc mf done df, ev) s
  = Some (in_progress mc mf (s :: done) df, ev ++ column_events mc mf df s).
Proof.
  intros Hnd Hs. unfold filter_step, column_events, getitem.
  destruct (lookup_col_name s (columns df) Hs) as (col & Hcol & Hin).
  rewrite Hcol. simpl.
  pose proof (apply_lambda_value (series_sum col) col) as Hv.
  destruct (apply_lambda mc mf (series_sum col) col) as [col' e]. simpl in *.
  subst col'. f_equal. f_equal.
  unfold setitem, in_progress. simpl. f_equal.
  rewrite lookup_col_fmap_names by (intros c; by case_bool_decide).
  rewrite Hcol. simpl. unfold replace_col.
  rewrite <- list_fmap_compose.
  apply Forall_fmap_ext_1, Forall_forall. intros [n u] Hc. simpl.
  assert ((if bool_decide (n ∈ done)
           then (n, stored_column mc mf u) else (n, u)).1 = n) as Hfst
    by (by case_bool_decide).
  rewrite Hfst.
  destruct (String.eqb_spec n s) as [->|Hne].
  - rewrite bool_decide_eq_true_2 by left.
    assert (u = col) as ->; [|done].
    pose proof (lookup_col_elem s u (columns df) Hnd Hc). congruence.
  - case_bool_decide as H1; case_bool_decide as H2; try done.
    + exfalso. apply H2. by right.
    + exfalso. apply elem_of_cons in H2 as [?|?]; [by subst|done].
Qed.

Lemma filter_columns_in_progress df order done ev :
  NoDup (column_names df) ->
  (forall s, s ∈ order -> s ∈ column_names df) ->
  filter_columns mc mf df order (in_progress mc mf done df, ev)
  = Some (in_progress mc mf (reverse order ++ done) df,
          ev ++ (order ≫= column_events mc mf df)).
Proof.
  intros Hnd. revert done ev.
  induction order as [|s order IH]; intros done ev Hsub; simpl.
  - by rewrite app_nil_r.
  - rewrite filter_step_in_progress; [|done|apply Hsub; left]. simpl.
    rewrite IH by (intros; apply Hsub; by right).
    by rewrite reverse_cons, <- !app_assoc.
Qed.

Lemma lookup_col_Some s v cols : lookup_col s cols = Some v -> (s, v) ∈ cols.
Proof.
  induction cols as [|[n u] cols IH]; simpl; [done|].
  destruct (String.eqb_spec n s) as [->|Hne].
  - intros [= ->]. left.
  - intros H. right. by apply IH.
Qed.

Lemma column_events_elem df s e :
  e ∈ column_events mc mf df s ->
  exists col x, (s, col) ∈ columns df /\ x ∈ col /\ e = (x, series_sum col) /\ mc <= x.
Proof.
  unfold column_events, getitem.
  destruct (lookup_col s (columns df)) as [col|] eqn:E; [|by intros []%elem_of_nil].
  intros (x & ? & ? & ?)%apply_lambda_events.
  exists col, x. split; [by apply lookup_col_Some|done].
Qed.

Lemma filtered_cell_zero total : filtered_cell mc mf total 0 = 0.
Proof. unfold filtered_cell. by destruct (retained _ _ _ _). Qed.

End FilterFacts.

Lemma column_sum_perm (l l' : list Z) : l ≡ₚ l' -> column_sum l = column_sum l'.
Proof.
  unfold column_sum.
  induction 1 as [|x l l' _ IH|x y l|l l' l'' _ IH1 _ IH2]; simpl; lia.
Qed.

Lemma column_sum_member (l : list Z) (x : Z) :
  Forall (fun y => 0 <= y) l -> x ∈ l -> x <= column_sum l.
Proof.
  unfold column_sum.
  induction 1 as [|y l Hy Hl IH]; simpl.
  - intros []%elem_of_nil.
  - assert (0 <= foldr Z.add 0 l) by (clear IH; induction Hl; simpl; lia).
    intros [->|Hin]%elem_of_cons; [lia|]. specialize (IH Hin). lia.
Qed.

Lemma column_sum_cons (x : Z) (l : list Z) : column_sum (x :: l) = x + column_sum l.
Proof. reflexivity. Qed.

Lemma column_sum_zeros (l : list Z) :
  Forall (fun y => y = 0) l -> column_sum l = 0.
Proof.
  induction 1 as [|y l Hy _ IH]; [done|].
  change (y + column_sum l = 0). lia.
Qed.

Lemma column_sum_nonneg (l : list Z) :
  Forall (fun y => 0 <= y) l -> 0 <= column_sum l.
Proof. unfold column_sum. induction 1; simpl; lia. Qed.

(** ** The 64-bit sum *)

Lemma series_sum_wrap (l : list Z) : series_sum l = wrap_int64 (column_sum l).
Proof. reflexivity. Qed.

Lemma wrap_int64_range (z : Z) : - 2 ^ 63 <= wrap_int64 z < 2 ^ 63.
Proof.
  unfold wrap_int64.
  pose proof (Z.mod_pos_bound (z + 2 ^ 63) (2 ^ 64) ltac:(lia)). lia.
Qed.

Lemma wrap_int64_congruent (z : Z) : (wrap_int64 z - z) mod 2 ^ 64 = 0.
Proof.
  unfold wrap_int64.
  rewrite (Z.mod_eq (z + 2 ^ 63) (2 ^ 64)) by lia.
  replace (z + 2 ^ 63 - 2 ^ 64 * ((z + 2 ^ 63) / 2 ^ 64) - 2 ^ 63 - z)
    with ((- ((z + 2 ^ 63) / 2 ^ 64)) * 2 ^ 64) by lia.
  apply Z.mod_mul. lia.
Qed.

Lemma wrap_int64_small (z : Z) : - 2 ^ 63 <= z < 2 ^ 63 -> wrap_int64 z = z.
Proof.
  intros Hz. unfold wrap_int64. rewrite Z.mod_small by lia. lia.
Qed.

Lemma wrap_int64_zero (z : Z) : 0 < z -> wrap_int64 z = 0 -> 2 ^ 64 <= z.
Proof.
  unfold wrap_int64. intros Hz Hw.
  pose proof (Z.div_mod (z + 2 ^ 63) (2 ^ 64) ltac:(lia)) as Hd.
  assert ((z + 2 ^ 63) mod 2 ^ 64 = 2 ^ 63) as Hm by lia.
  rewrite Hm in Hd.
  assert (0 < (z + 2 ^ 63) / 2 ^ 64) by nia. nia.
Qed.

Lemma series_sum_perm (l l' : list Z) : l ≡ₚ l' -> series_sum l = series_sum l'.
Proof. intros H. by rewrite !series_sum_wrap, (column_sum_perm l l'). Qed.

Lemma series_sum_exact (l : list Z) :
  Forall (fun y => 0 <= y) l -> column_sum l < count_bound -> series_sum l = column_sum l.
Proof.
  intros Hnn Hb. rewrite series_sum_wrap. apply wrap_int64_small.
  pose proof (column_sum_nonneg l Hnn). unfold count_bound in Hb. lia.
Qed.

Lemma nth_seq_all {A} (d : A) (l : list A) :
  (fun i => nth i l d) <$> seq 0 (length l) = l.
Proof.
  induction l as [|x l IH]; simpl; [done|]. f_equal.
  rewrite <- seq_shift. rewrite <- (IH) at 2.
  change (map S (seq 0 (length l))) with (S <$> seq 0 (length l)).
  by rewrite <- list_fmap_compose.
Qed.

(** ** The filter, cell by cell *)

Lemma filter_traced_spec `{FA : FloatArith} (mc : Z) (mf : flt) (df : DataFrame)
      (order : list string) :
  NoDup (column_names df) ->
  order ≡ₚ column_names df ->
  filter_columns mc mf df order (df, [])
  = Some (stored_table mc mf df, order ≫= column_events mc mf df).
Proof.
  intros Hnd Hp.
  rewrite <- (in_progress_nil mc mf df) at 2.
  rewrite filter_columns_in_progress; [|done|by intros s Hs; rewrite <- Hp].
  rewrite in_progress_all; [done|].
  intros s Hs. by rewrite app_nil_r, elem_of_reverse, Hp.
Qed.

Lemma filter_table_spec `{FA : FloatArith} (mc : Z) (mf : flt) (df : DataFrame) :
  NoDup (column_names df) ->
  filter_table mc mf df = Some (stored_table mc mf df).
Proof.
  intros Hnd. unfold filter_table, filter_traced. by rewrite filter_traced_spec.
Qed.

Lemma stored_table_exact `{FA : FloatArith} (mc : Z) (mf : flt) (df : DataFrame) :
  nonneg_table df -> within_int64 df ->
  stored_table mc mf df = filtered_table mc mf df.
Proof.
  intros Hnn Hb. unfold stored_table, filtered_table. f_equal.
  apply Forall_fmap_ext_1.
  unfold nonneg_table, within_int64 in *. rewrite Forall_forall in Hnn, Hb.
  apply Forall_forall. intros [n col] Hin. simpl. f_equal.
  unfold stored_column, filtered_column.
  by rewrite (series_sum_exact col (Hnn _ Hin) (Hb _ Hin)).
Qed.

Lemma filter_table_exact `{FA : FloatArith} (mc : Z) (mf : flt) (df : DataFrame) :
  NoDup (column_names df) -> nonneg_table df -> within_int64 df ->
  filter_table mc mf df = Some (filtered_table mc mf df).
Proof.
  intros Hnd Hnn Hb. rewrite filter_table_spec by done.
  by rewrite stored_table_exact.
Qed.




(** ** The denominator *)

Lemma reorder_rows_stored `{FA : FloatArith} (mc : Z) (mf : flt) (p : list nat)
      (df : DataFrame) :
  rectangular df -> p ≡ₚ seq 0 (length (index df)) ->
  stored_table mc mf (reorder_rows p df) = reorder_rows p (stored_table mc mf df).
Proof.
  intros Hrect Hp. unfold stored_table, reorder_rows. simpl. f_equal.
  rewrite <- !list_fmap_compose.
  apply Forall_fmap_ext_1. eapply Forall_impl; [exact Hrect|].
  intros [n col] Hlen. simpl in *. f_equal. unfold stored_column.
  assert (series_sum ((fun i => nth i col 0) <$> p) = series_sum col) as ->.
  { transitivity (series_sum ((fun i => nth i col 0) <$> seq 0 (length col)));
      [|by rewrite nth_seq_all].
    apply series_sum_perm. rewrite Hlen. by apply fmap_Permutation. }
  rewrite <- list_fmap_compose.
  apply Forall_fmap_ext_1, Forall_forall. intros i _. simpl.
  rewrite <- (filtered_cell_zero mc mf (series_sum col)) at 2.
  change (filtered_cell mc mf (series_sum col) <$> col)
    with (map (filtered_cell mc mf (series_sum col)) col).
  by rewrite map_nth.
Qed.

Lemma column_names_reorder (p : list nat) (df : DataFrame) :
  column_names (reorder_rows p df) = column_names df.
Proof.
  unfold column_names, reorder_rows. simpl.
  rewrite <- list_fmap_compose. by apply Forall_fmap_ext_1, Forall_forall.
Qed.

(** C3.  In a table of 64-bit integer cells, the total used for a sample
    column is the 64-bit sum of that column in the unfiltered table: every
    division the loop evaluates has as its divisor the number between
    [-2^63] and [2^63 - 1] that differs from the sum of a column of the
    original table by a multiple of [2^64], which is the column sum itself
    when that lies in this range; the result is the same table whatever
    the order in which the columns are visited and whatever the order of
    the rows, and for non-negative counts with column sums below [2^63] it
    is the table filtered against the column sums. *)
Theorem denominator_is_unfiltered_total `{FA : FloatArith} (min_count : Z)
        (min_freq : flt) (df : DataFrame) (order : list string) (p : list nat) :
  NoDup (column_names df) ->
  rectangular df ->
  int64_table df ->
  order ≡ₚ column_names df ->
  p ≡ₚ seq 0 (length (index df)) ->
  exists df' events,
    filter_columns min_count min_freq df order (df, []) = Some (df', events)
    /\ (forall x t, (x, t) ∈ events ->
          exists s col, (s, col) ∈ columns df /\ x ∈ col
            /\ - 2 ^ 63 <= t < 2 ^ 63
            /\ (t - column_sum col) mod 2 ^ 64 = 0
            /\ (- 2 ^ 63 <= column_sum col < 2 ^ 63 -> t = column_sum col))
    /\ filter_table min_count min_freq df = Some df'
    /\ filter_table min_count min_freq (reorder_rows p df) = Some (reorder_rows p df')
    /\ (nonneg_table df -> within_int64 df ->
        df' = filtered_table min_count min_freq df).
Proof.
  intros Hnd Hrect _ Ho Hp.
  exists (stored_table min_count min_freq df),
         (order ≫= column_events min_count min_freq df).
  rewrite filter_traced_spec by done.
  split; [done|]. split; [|split; [|split]].
  - intros x t (s & Hev & _)%list_elem_of_bind.
    apply column_events_elem in Hev as (col & x' & ? & ? & [= -> ->] & _).
    exists s, col. rewrite series_sum_wrap.
    split; [done|]. split; [done|]. split; [apply wrap_int64_range|].
    split; [apply wrap_int64_congruent|].
    intros Hr. by apply wrap_int64_small.
  - by rewrite filter_table_spec.
  - rewrite filter_table_spec by (by rewrite column_names_reorder).
    by rewrite reorder_rows_stored.
  - intros Hnn Hb. by apply stored_table_exact.
Qed.

Lemma denominator_is_unfiltered_total_witness :
  exists df' events,
    filter_columns (FA:=binary64) 50 (of_int 0) two_samples ["S2"; "S1"] (two_samples, [])
    = Some (df', events)
    /\ filter_table (FA:=binary64) 50 (of_int 0) two_samples = Some df'.
Proof.
  assert (NoDup (column_names two_samples)) as Hnd.
  { apply (bool_decide_unpack _). vm_compute. reflexivity. }
  assert (rectangular two_samples) as Hrect.
  { repeat constructor. }
  assert (int64_table two_samples) as Hint.
  { repeat constructor; by apply Z.leb_le. }
  assert (["S2"; "S1"] ≡ₚ column_names two_samples) as Ho.
  { apply perm_swap. }
  assert ([2; 0; 1]%nat ≡ₚ seq 0 (length (index two_samples))) as Hp.
  { simpl. etrans; [apply perm_swap|apply perm_skip, perm_swap]. }
  destruct (denominator_is_unfiltered_total (FA:=binary64) 50 (of_int 0) two_samples
              ["S2"; "S1"] [2; 0; 1]%nat Hnd Hrect Hint Ho Hp)
    as (df' & events & H & _ & Ht & _).
  by exists df', events.
Defined.

(** C3 as stated fails once a column adds up to [2^63] or more: the two
    cells [2^62] add up to [2^63], and both divisions the loop evaluates
    have the divisor [-2^63], which is not the sum of the column. *)
Lemma divisor_is_not_the_column_sum :
  int64_table (one_sample [2 ^ 62; 2 ^ 62])
  /\ filter_traced (FA:=binary64) 1 (of_int 0) (one_sample [2 ^ 62; 2 ^ 62])
     = Some (one_sample [0; 0], [(2 ^ 62, - 2 ^ 63); (2 ^ 62, - 2 ^ 63)])
  /\ column_sum [2 ^ 62; 2 ^ 62] = 2 ^ 63
  /\ - 2 ^ 63 <> column_sum [2 ^ 62; 2 ^ 62].
Proof.
  split; [repeat constructor; by apply Z.leb_le|].
  split; [vm_compute; reflexivity|]. split; [vm_compute; reflexivity|].
  vm_compute. discriminate.
Qed.

(** C4.  With a positive minimum count, a sample column whose cells are
    all zero has the total 0 and comes back as all zeros without a single
    division being evaluated for it; the divisions of a run are those of
    its columns, and in a table of non-negative counts a division on a
    zero total can only come from a column that adds up to [2^64] or
    more. *)
Theorem zero_total_column_zeroed `{FA : FloatArith} (min_count : Z) (min_freq : flt)
        (df : DataFrame) :
  NoDup (column_names df) ->
  0 < min_count ->
  exists df' events,
    filter_traced min_count min_freq df = Some (df', events)
    /\ (forall s col, (s, col) ∈ columns df -> Forall (fun x => x = 0) col ->
          series_sum col = 0
          /\ getitem df' s = Some col
          /\ column_events min_count min_freq df s = [])
    /\ events = column_names df ≫= column_events min_count min_freq df
    /\ (nonneg_table df -> forall x t, (x, t) ∈ events -> t = 0 ->
          exists s col, (s, col) ∈ columns df /\ x ∈ col /\ 2 ^ 64 <= column_sum col).
Proof.
  intros Hnd Hmc.
  exists (stored_table min_count min_freq df),
         (column_names df ≫= column_events min_count min_freq df).
  split; [by apply filter_traced_spec|]. split; [|split; [done|]].
  - intros s col Hin Hz. split; [|split].
    + by rewrite series_sum_wrap, column_sum_zeros.
    + unfold getitem, stored_table. simpl.
      rewrite lookup_col_fmap_names by done.
      rewrite (lookup_col_elem s col) by done. simpl. f_equal.
      unfold stored_column. rewrite <- (list_fmap_id col) at 3.
      apply Forall_fmap_ext_1. eapply Forall_impl; [exact Hz|].
      intros x ->. apply filtered_cell_zero.
    + apply elem_of_nil_inv. intros e He.
      apply column_events_elem in He as (col' & x & Hin' & Hx & _ & Hge).
      assert (col' = col) as ->.
      { pose proof (lookup_col_elem s col _ Hnd Hin).
        pose proof (lookup_col_elem s col' _ Hnd Hin'). congruence. }
      rewrite Forall_forall in Hz. specialize (Hz x Hx). lia.
  - intros Hnn x t (s & Hev & _)%list_elem_of_bind Ht.
    apply column_events_elem in Hev as (col & x' & Hin & Hx & [= -> ->] & Hge).
    exists s, col. split; [done|]. split; [done|].
    unfold nonneg_table in Hnn. rewrite Forall_forall in Hnn.
    specialize (Hnn _ Hin). simpl in Hnn.
    pose proof (column_sum_member col x' Hnn Hx).
    apply wrap_int64_zero; [lia|by rewrite <- series_sum_wrap].
Qed.

Lemma zero_total_column_zeroed_witness :
  exists df' events,
    filter_traced (FA:=binary64) 50 (of_int 0) two_samples = Some (df', events)
    /\ getitem df' "S2" = Some [0; 0; 0]
    /\ column_events (FA:=binary64) 50 (of_int 0) two_samples "S2" = [].
Proof.
  assert (NoDup (column_names two_samples)) as Hnd.
  { apply (bool_decide_unpack _). vm_compute. reflexivity. }
  assert (0 < 50) as Hmc by lia.
  destruct (zero_total_column_zeroed (FA:=binary64) 50 (of_int 0) two_samples Hnd Hmc)
    as (df' & events & Hrun & Hcol & _).
  exists df', events. split; [exact Hrun|].
  assert (("S2", [0; 0; 0]) ∈ columns two_samples) as Hin.
  { right. left. }
  assert (Forall (fun x => x = 0) [0; 0; 0]) as Hz by (repeat constructor).
  destruct (Hcol "S2" [0; 0; 0] Hin Hz) as (_ & Hget & Hev).
  split; [exact Hget|exact Hev].
Defined.

(** A zero total by overflow: four cells [2^62] add up to [2^64], the
    64-bit total is 0 and the four quotients are evaluated on it. *)
Example zero_total_by_overflow :
  filter_traced (FA:=binary64) 1 (of_int 0) (one_sample [2 ^ 62; 2 ^ 62; 2 ^ 62; 2 ^ 62])
  = Some (one_sample [2 ^ 62; 2 ^ 62; 2 ^ 62; 2 ^ 62],
          [(2 ^ 62, 0); (2 ^ 62, 0); (2 ^ 62, 0); (2 ^ 62, 0)]).
Proof. vm_compute. reflexivity. Qed.

(** ** Rounding to nearest *)

Section Rounding.
Local Open Scope Q_scope.

Lemma pow2_pos k : 0 < pow2 k.
Proof. apply Qpower_0_lt. reflexivity. Qed.

Lemma two_neq_0 : ~ (2 # 1) == 0.
Proof. intros H. discriminate H. Qed.

Lemma pow2_add a b : pow2 (a + b) == pow2 a * pow2 b.
Proof. apply Qpower_plus, two_neq_0. Qed.

Lemma pow2_sub a b : pow2 (a - b) == pow2 a / pow2 b.
Proof. apply Qpower_minus, two_neq_0. Qed.

Lemma pow2_le a b : (a <= b)%Z -> pow2 a <= pow2 b.
Proof. intros H. apply Qpower_le_compat_l; [exact H|discriminate]. Qed.

Lemma pow2_lt_inv a b : pow2 a < pow2 b -> (a < b)%Z.
Proof. intros H. apply (Qpower_lt_compat_l_inv (2 # 1)); [exact H|reflexivity]. Qed.

Lemma pow2_Z n : (0 <= n)%Z -> pow2 n == inject_Z (2 ^ n).
Proof. intros H. symmetry. apply (Zpower_Qpower 2 n H). Qed.

Lemma pow2_quot a b c : 0 < c -> c * pow2 b == pow2 a -> c == pow2 (a - b).
Proof.
  intros Hc H. rewrite pow2_sub, <- H.
  pose proof (pow2_pos b) as Hb. field. intros E. rewrite E in Hb. discriminate Hb.
Qed.

Lemma ilog2_spec q : 0 < q -> pow2 (ilog2 q) <= q /\ q < pow2 (ilog2 q + 1).
Proof.
  intros Hq. unfold ilog2. destruct q as [n d]. cbn [Qnum Qden].
  assert (0 < n)%Z as Hn by (unfold Qlt in Hq; simpl in Hq; lia).
  set (L := Z.log2 n). set (M := Z.log2 (Zpos d)).
  pose proof (Z.log2_spec n Hn) as HL. fold L in HL.
  pose proof (Z.log2_spec (Zpos d) eq_refl) as HM. fold M in HM.
  pose proof (Z.log2_nonneg n) as HL0. fold L in HL0.
  pose proof (Z.log2_nonneg (Zpos d)) as HM0. fold M in HM0.
  assert (0 < 2 ^ M)%Z as HpM by (apply Z.pow_pos_nonneg; lia).
  assert (0 < 2 ^ Z.succ M)%Z as HpM1 by (apply Z.pow_pos_nonneg; lia).
  assert (n # d < pow2 (L - M + 1)) as Hup.
  { replace (L - M + 1)%Z with (Z.succ L - M)%Z by lia.
    rewrite pow2_sub, !pow2_Z by lia.
    apply Qlt_shift_div_l; [unfold Qlt; simpl; lia|].
    unfold Qlt, Qmult, inject_Z. simpl. nia. }
  assert (pow2 (L - M - 1) < n # d) as Hlow.
  { replace (L - M - 1)%Z with (L - Z.succ M)%Z by lia.
    rewrite pow2_sub, !pow2_Z by lia.
    apply Qlt_shift_div_r; [unfold Qlt; simpl; lia|].
    unfold Qlt, Qmult, inject_Z. simpl. nia. }
  destruct (Qle_bool (pow2 (L - M)) (n # d)) eqn:E.
  - split; [by apply Qle_bool_iff|exact Hup].
  - split; [by apply Qlt_le_weak|].
    replace (L - M - 1 + 1)%Z with (L - M)%Z by lia.
    apply Qnot_le_lt. intros H%Qle_bool_iff. congruence.
Qed.

Lemma ilog2_mono a b : 0 < a -> a <= b -> (ilog2 a <= ilog2 b)%Z.
Proof.
  intros Ha Hab.
  destruct (ilog2_spec a Ha) as [H1 _].
  destruct (ilog2_spec b) as [_ H2]; [by eapply Qlt_le_trans|].
  assert (pow2 (ilog2 a) < pow2 (ilog2 b + 1)) as H.
  { eapply Qle_lt_trans; [exact H1|]. by eapply Qle_lt_trans. }
  apply pow2_lt_inv in H. lia.
Qed.

Lemma rne_bounds q : (Qfloor q <= rne q <= Qfloor q + 1)%Z.
Proof.
  unfold rne. destruct (Qcompare _ _); [destruct (Z.even _)| |]; lia.
Qed.

Lemma rne_mono a b : a <= b -> (rne a <= rne b)%Z.
Proof.
  intros Hab. pose proof (Qfloor_resp_le a b Hab) as Hf.
  destruct (Z.eq_dec (Qfloor a) (Qfloor b)) as [E|E].
  - unfold rne. rewrite E.
    destruct (Qcompare (a - inject_Z (Qfloor b)) (1 # 2)) eqn:Ea;
      destruct (Qcompare (b - inject_Z (Qfloor b)) (1 # 2)) eqn:Eb;
      try (destruct (Z.even (Qfloor b)); lia); try lia;
      exfalso;
      first [apply Qeq_alt in Ea|apply Qlt_alt in Ea|apply Qgt_alt in Ea];
      first [apply Qeq_alt in Eb|apply Qlt_alt in Eb|apply Qgt_alt in Eb];
      lra.
  - pose proof (rne_bounds a). pose proof (rne_bounds b). lia.
Qed.

Lemma rne_Z n : rne (inject_Z n) = n.
Proof.
  unfold rne. rewrite Qfloor_Z.
  assert (Qcompare (inject_Z n - inject_Z n) (1 # 2) = Lt) as ->; [|done].
  apply Qlt_alt.
  assert (inject_Z n - inject_Z n == 0) as -> by ring. reflexivity.
Qed.

Lemma rne_le_Z q n : q <= inject_Z n -> (rne q <= n)%Z.
Proof. intros H. rewrite <- (rne_Z n). by apply rne_mono. Qed.

Lemma rne_ge_Z q n : inject_Z n <= q -> (n <= rne q)%Z.
Proof. intros H. rewrite <- (rne_Z n). by apply rne_mono. Qed.

Lemma pow2_neq_0 k : ~ pow2 k == 0.
Proof. intros E. pose proof (pow2_pos k) as H. rewrite E in H. discriminate H. Qed.

Lemma scaled_le a b k : a <= b -> a / pow2 k <= b / pow2 k.
Proof.
  intros H. apply Qmult_le_compat_r; [exact H|].
  apply Qlt_le_weak, Qinv_lt_0_compat, pow2_pos.
Qed.

Lemma round_val_nonneg q : 0 < q -> 0 <= round_val q.
Proof.
  intros Hq. unfold round_val.
  assert (0 <= rne (q / pow2 (ulp_exp q)))%Z as H.
  { apply rne_ge_Z. apply Qlt_le_weak, Qlt_shift_div_l; [apply pow2_pos|].
    by rewrite Qmult_0_l. }
  apply Qmult_le_0_compat; [|apply Qlt_le_weak, pow2_pos].
  by rewrite Zle_Qle in H.
Qed.

Lemma round_val_mono a b : 0 < a -> a <= b -> round_val a <= round_val b.
Proof.
  intros Ha Hab.
  assert (0 < b) as Hb by (by eapply Qlt_le_trans).
  pose proof (ilog2_mono a b Ha Hab) as He.
  destruct (ilog2_spec a Ha) as [_ Ha2].
  destruct (ilog2_spec b Hb) as [Hb1 _].
  unfold round_val, ulp_exp.
  set (ea := ilog2 a) in *. set (eb := ilog2 b) in *.
  set (ka := Z.max (ea - 52) (-1074)). set (kb := Z.max (eb - 52) (-1074)).
  destruct (Z.eq_dec ka kb) as [E|E].
  - rewrite E. apply Qmult_le_compat_r; [|apply Qlt_le_weak, pow2_pos].
    rewrite <- Zle_Qle. apply rne_mono. by apply scaled_le.
  - assert (kb = eb - 52 /\ ea + 1 <= eb /\ ka < kb /\ ka <= eb)%Z
      as (Hkb & Hea & Hk & Hk') by lia.
    apply (Qle_trans _ (pow2 eb)).
    + assert (rne (a / pow2 ka) <= 2 ^ (eb - ka))%Z as H.
      { apply rne_le_Z. rewrite <- pow2_Z by lia. rewrite pow2_sub.
        apply scaled_le. apply Qlt_le_weak.
        eapply Qlt_le_trans; [exact Ha2|]. by apply pow2_le. }
      rewrite Zle_Qle in H.
      eapply Qle_trans;
        [apply Qmult_le_compat_r; [exact H|apply Qlt_le_weak, pow2_pos]|].
      rewrite <- pow2_Z by lia. rewrite <- pow2_add.
      replace (eb - ka + ka)%Z with eb by lia. apply Qle_refl.
    + assert (2 ^ 52 <= rne (b / pow2 kb))%Z as H.
      { apply rne_ge_Z. rewrite <- pow2_Z by lia.
        replace 52%Z with (eb - kb)%Z by lia. rewrite pow2_sub.
        by apply scaled_le. }
      rewrite Zle_Qle in H.
      eapply Qle_trans;
        [|apply Qmult_le_compat_r; [exact H|apply Qlt_le_weak, pow2_pos]].
      rewrite <- pow2_Z by lia. rewrite <- pow2_add.
      replace (52 + kb)%Z with eb by lia. apply Qle_refl.
Qed.

Lemma round_pos_mono a b :
  0 < a -> a <= b -> xq_ge (round_pos b) (round_pos a) = true.
Proof.
  intros Ha Hab. pose proof (round_val_mono a b Ha Hab) as Hv.
  unfold round_pos.
  destruct (Qle_bool (pow2 1024) (round_val a)) eqn:Ea;
    destruct (Qle_bool (pow2 1024) (round_val b)) eqn:Eb; try reflexivity.
  - apply Qle_bool_iff in Ea.
    assert (Qle_bool (pow2 1024) (round_val b) = true) as H.
    { apply Qle_bool_iff. by eapply Qle_trans. }
    congruence.
  - cbn [xq_ge]. apply Qle_bool_iff. by apply Qred_le.
Qed.

Lemma round_pos_nonneg q : 0 < q -> xq_ge (round_pos q) (XFin 0) = true.
Proof.
  intros Hq. unfold round_pos.
  destruct (Qle_bool (pow2 1024) (round_val q)); [reflexivity|].
  cbn [xq_ge]. apply Qle_bool_iff. rewrite Qred_correct. by apply round_val_nonneg.
Qed.

Lemma xq_ge_trans a b c :
  xq_ge c b = true -> xq_ge b a = true -> xq_ge c a = true.
Proof.
  destruct a as [|sa|qa], b as [|sb|qb], c as [|sc|qc]; cbn [xq_ge];
    try discriminate; try (by destruct sa, sb, sc); try (by destruct sa, sb);
    try (by destruct sb, sc); try (by destruct sa); try (by destruct sb);
    try (by destruct sc); try done.
  rewrite !Qle_bool_iff. intros H1 H2. by eapply Qle_trans.
Qed.

End Rounding.

(** ** Division of counts in [ieee64] *)

Section Ieee64.
Local Open Scope Q_scope.

Lemma of_int_ieee64_pos z :
  (0 < z)%Z -> of_int (FloatArith:=ieee64) z = round_pos (inject_Z z).
Proof.
  intros Hz. cbn [of_int ieee64 xq_round].
  assert (Qcompare (inject_Z z) 0 = Gt) as ->; [|done].
  apply Qgt_alt. unfold Qlt. simpl. lia.
Qed.

Lemma round_pos_one : round_pos (inject_Z 1) = XFin 1.
Proof. vm_compute. reflexivity. Qed.

Lemma round_pos_count_bound : round_pos (inject_Z count_bound) = XFin (inject_Z count_bound).
Proof. vm_compute. reflexivity. Qed.

Lemma of_int_ieee64_count z :
  (0 < z)%Z -> (z <= count_bound)%Z ->
  exists v, of_int (FloatArith:=ieee64) z = XFin v /\ 1 <= v.
Proof.
  intros Hz Hb. rewrite of_int_ieee64_pos by done.
  assert (xq_ge (round_pos (inject_Z z)) (round_pos (inject_Z 1)) = true) as Hlo.
  { apply round_pos_mono; [reflexivity|]. rewrite <- Zle_Qle. lia. }
  assert (xq_ge (round_pos (inject_Z count_bound)) (round_pos (inject_Z z)) = true) as Hhi.
  { apply round_pos_mono; [unfold Qlt; simpl; lia|]. by rewrite <- Zle_Qle. }
  rewrite round_pos_one in Hlo. rewrite round_pos_count_bound in Hhi.
  destruct (round_pos (inject_Z z)) as [|s|v]; cbn [xq_ge] in *.
  - discriminate.
  - subst s. discriminate.
  - exists v. split; [done|]. by apply Qle_bool_iff.
Qed.

Lemma of_int_ieee64_mono z z' :
  (0 < z)%Z -> (z <= z')%Z ->
  xq_ge (of_int (FloatArith:=ieee64) z') (of_int (FloatArith:=ieee64) z) = true.
Proof.
  intros Hz Hle. rewrite !of_int_ieee64_pos by lia.
  apply round_pos_mono; [unfold Qlt; simpl; lia|]. by rewrite <- Zle_Qle.
Qed.

Lemma fdiv_ieee64_pos vx vt :
  0 < vx -> 0 < vt ->
  fdiv (FloatArith:=ieee64) (XFin vx) (XFin vt) = round_pos (vx / vt).
Proof.
  intros Hx Ht. cbn [fdiv ieee64 xq_div].
  assert (Qeq_bool vt 0 = false) as ->.
  { apply not_true_is_false. intros E%Qeq_bool_iff. rewrite E in Ht. discriminate Ht. }
  cbn [xq_round].
  assert (Qcompare (vx / vt) 0 = Gt) as ->; [|done].
  apply Qgt_alt. apply Qlt_shift_div_l; [done|]. by rewrite Qmult_0_l.
Qed.

Lemma quotient_pos vx vt : 0 < vx -> 0 < vt -> 0 < vx / vt.
Proof. intros Hx Ht. apply Qlt_shift_div_l; [done|]. by rewrite Qmult_0_l. Qed.

Lemma quotient_antitone vx vt vt' :
  0 < vx -> 0 < vt' -> vt' <= vt -> vx / vt <= vx / vt'.
Proof.
  intros Hx Ht' Hle.
  assert (0 < vt) as Ht by (by eapply Qlt_le_trans).
  apply Qle_shift_div_l; [done|].
  assert (vx / vt * vt' == vx * vt' / vt) as ->.
  { field. intros E. rewrite E in Ht. discriminate Ht. }
  apply Qle_shift_div_r; [done|].
  by apply Qmult_le_l.
Qed.

Lemma ieee64_div_antitone : div_antitone (FA:=ieee64).
Proof.
  intros x t t' f Hx Hxt Htt Hb.
  destruct (of_int_ieee64_count x) as (vx & Ex & Hvx); [lia|lia|].
  destruct (of_int_ieee64_count t) as (vt & Et & Hvt); [lia|lia|].
  destruct (of_int_ieee64_count t') as (vt' & Et' & Hvt'); [lia|lia|].
  pose proof (of_int_ieee64_mono t' t) as Hm.
  rewrite Et, Et' in Hm. cbn [xq_ge] in Hm.
  assert (vt' <= vt) as Hle by (apply Qle_bool_iff, Hm; lia).
  assert (0 < vx) as Hpx by (eapply Qlt_le_trans; [|exact Hvx]; reflexivity).
  assert (0 < vt') as Hpt' by (eapply Qlt_le_trans; [|exact Hvt']; reflexivity).
  assert (0 < vt) as Hpt by (eapply Qlt_le_trans; [|exact Hvt]; reflexivity).
  rewrite Ex, Et, Et', !fdiv_ieee64_pos by done.
  intros Hf. eapply xq_ge_trans; [|exact Hf].
  apply round_pos_mono; [by apply quotient_pos|by apply quotient_antitone].
Qed.

Lemma ieee64_quotient_nonneg : quotient_nonneg (FA:=ieee64) float_zero.
Proof.
  intros x t Hx Hxt Hb.
  destruct (of_int_ieee64_count x) as (vx & Ex & Hvx); [lia|lia|].
  destruct (of_int_ieee64_count t) as (vt & Et & Hvt); [lia|lia|].
  assert (0 < vx) as Hpx by (eapply Qlt_le_trans; [|exact Hvx]; reflexivity).
  assert (0 < vt) as Hpt by (eapply Qlt_le_trans; [|exact Hvt]; reflexivity).
  rewrite Ex, Et, fdiv_ieee64_pos by done.
  apply round_pos_nonneg. by apply quotient_pos.
Qed.

End Ieee64.

(** The two models of binary64 agree where the scenarios use them. *)
Example ieee64_agrees_with_binary64 :
  to_prim (fdiv (FloatArith:=ieee64) (of_int 120) (of_int 165))
  = fdiv (FloatArith:=binary64) (of_int 120) (of_int 165)
  /\ to_prim (fdiv (FloatArith:=ieee64) (of_int 1) (of_int 3))
     = fdiv (FloatArith:=binary64) (of_int 1) (of_int 3)
  /\ to_prim (of_int (FloatArith:=ieee64) 9007199254740993)
     = of_int (FloatArith:=binary64) 9007199254740993
  /\ (to_prim <$> py_float (H:=ieee64) "0.1") = py_float (H:=binary64) "0.1"
  /\ (to_prim <$> py_float (H:=ieee64) "4.9e-324") = py_float (H:=binary64) "4.9e-324"
  /\ (to_prim <$> py_float (H:=ieee64) "1e400") = py_float (H:=binary64) "1e400".
Proof. repeat split; vm_compute; reflexivity. Qed.

(** ** Idempotence and the zero frequency threshold *)

Section Laws.
Context `{FA : FloatArith}.

Lemma filtered_cell_le mc mf total x :
  0 <= x -> 0 <= filtered_cell mc mf total x <= x.
Proof. intros Hx. unfold filtered_cell. destruct (retained _ _ _ _); lia. Qed.

Lemma filtered_column_nonneg mc mf col :
  Forall (fun x => 0 <= x) col -> Forall (fun x => 0 <= x) (filtered_column mc mf col).
Proof.
  intros H. unfold filtered_column. apply Forall_fmap.
  eapply Forall_impl; [exact H|]. intros x Hx. simpl.
  by apply filtered_cell_le.
Qed.

Lemma filtered_column_sum_le mc mf total col :
  Forall (fun x => 0 <= x) col ->
  column_sum (filtered_cell mc mf total <$> col) <= column_sum col.
Proof.
  induction 1 as [|x col Hx _ IH]; [done|].
  rewrite fmap_cons, !column_sum_cons.
  pose proof (filtered_cell_le mc mf total x Hx). lia.
Qed.

Lemma filtered_column_idem mc mf col :
  div_antitone -> Forall (fun x => 0 <= x) col -> column_sum col < count_bound ->
  filtered_column mc mf (filtered_column mc mf col) = filtered_column mc mf col.
Proof.
  intros Hlaw Hnn Hb. unfold filtered_column at 1.
  set (col' := filtered_column mc mf col).
  rewrite <- (list_fmap_id col') at 3.
  apply Forall_fmap_ext_1, Forall_forall. intros y Hy. simpl.
  assert (Forall (fun x => 0 <= x) col') as Hnn' by by apply filtered_column_nonneg.
  pose proof (column_sum_member col' y Hnn' Hy) as Hle.
  pose proof (filtered_column_sum_le mc mf (column_sum col) col Hnn) as Hsum.
  fold (filtered_column mc mf col) in Hsum. fold col' in Hsum.
  unfold col', filtered_column in Hy.
  apply list_elem_of_fmap in Hy as (x & -> & Hx).
  rewrite Forall_forall in Hnn. specialize (Hnn x Hx).
  destruct (Z.eq_dec (filtered_cell mc mf (column_sum col) x) 0) as [->|Hne].
  { apply filtered_cell_zero. }
  unfold filtered_cell in Hne, Hle |- *.
  destruct (retained mc mf (column_sum col) x) eqn:Hret; [|done].
  apply andb_true_iff in Hret as [Hge Hfr].
  unfold retained. rewrite Hge. cbn [andb].
  erewrite Hlaw; [done|lia|exact Hle|exact Hsum|exact Hb|exact Hfr].
Qed.

Lemma filtered_table_idem mc mf df :
  div_antitone -> nonneg_table df -> within_int64 df ->
  filtered_table mc mf (filtered_table mc mf df) = filtered_table mc mf df.
Proof.
  intros Hlaw Hnn Hb. unfold filtered_table. simpl. f_equal.
  rewrite <- list_fmap_compose.
  apply Forall_fmap_ext_1.
  unfold nonneg_table, within_int64 in *. rewrite Forall_forall in Hnn, Hb.
  apply Forall_forall. intros [n col] Hin. simpl. f_equal.
  apply filtered_column_idem; [done|exact (Hnn _ Hin)|exact (Hb _ Hin)].
Qed.

Lemma filtered_table_nonneg mc mf df :
  nonneg_table df -> nonneg_table (filtered_table mc mf df).
Proof.
  unfold nonneg_table, filtered_table. simpl. intros Hnn.
  apply Forall_fmap. eapply Forall_impl; [exact Hnn|].
  intros [n col] H. simpl in *. by apply filtered_column_nonneg.
Qed.

Lemma filtered_table_within mc mf df :
  nonneg_table df -> within_int64 df -> within_int64 (filtered_table mc mf df).
Proof.
  unfold nonneg_table, within_int64, filtered_table. simpl. intros Hnn Hb.
  apply Forall_fmap. rewrite Forall_forall in Hnn, Hb.
  apply Forall_forall. intros [n col] Hin. simpl.
  pose proof (filtered_column_sum_le mc mf (column_sum col) col (Hnn _ Hin)) as Hle.
  specialize (Hb _ Hin). simpl in Hb. unfold filtered_column. lia.
Qed.

Lemma column_names_filtered mc mf df :
  column_names (filtered_table mc mf df) = column_names df.
Proof.
  unfold column_names, filtered_table. simpl.
  rewrite <- list_fmap_compose. by apply Forall_fmap_ext_1, Forall_forall.
Qed.

Lemma column_names_stored mc mf df :
  column_names (stored_table mc mf df) = column_names df.
Proof.
  unfold column_names, stored_table. simpl.
  rewrite <- list_fmap_compose. by apply Forall_fmap_ext_1, Forall_forall.
Qed.

Lemma count_only_when_zero zero mc col :
  quotient_nonneg zero -> Forall (fun x => 0 <= x) col -> column_sum col < count_bound ->
  filtered_column mc zero col = (fun x => if x >=? mc then x else 0) <$> col.
Proof.
  intros Hlaw Hnn Hb. unfold filtered_column.
  apply Forall_fmap_ext_1, Forall_forall. intros x Hx.
  pose proof (column_sum_member col x Hnn Hx) as Hle.
  rewrite Forall_forall in Hnn. specialize (Hnn x Hx).
  unfold filtered_cell, retained.
  destruct (x >=? mc); simpl; [|done].
  destruct (Z.eq_dec x 0) as [->|Hne].
  - by destruct (fge _ _).
  - rewrite Hlaw; [done|lia|lia|done].
Qed.

End Laws.

(** C5.  Filtering is idempotent on tables of non-negative counts whose
    columns each add up to less than [2^63]: for every such table and every
    pair of thresholds, filtering the filtered table again with the same
    thresholds gives the filtered table back.  (The division is one whose
    quotient of counts does not shrink when the divisor does, as that of
    [ieee64] is.) *)
Theorem filter_idempotent `{FA : FloatArith} (min_count : Z) (min_freq : flt)
        (df df' : DataFrame) :
  div_antitone ->
  NoDup (column_names df) ->
  nonneg_table df ->
  within_int64 df ->
  filter_table min_count min_freq df = Some df' ->
  filter_table min_count min_freq df' = Some df'.
Proof.
  intros Hlaw Hnd Hnn Hb. rewrite filter_table_exact by done. intros [= <-].
  rewrite filter_table_exact.
  - by rewrite filtered_table_idem.
  - by rewrite column_names_filtered.
  - by apply filtered_table_nonneg.
  - by apply filtered_table_within.
Qed.

Lemma filter_idempotent_witness :
  filter_table (FA:=ieee64) 50 float_tenth
               (filtered_table (FA:=ieee64) 50 float_tenth two_samples)
  = Some (filtered_table (FA:=ieee64) 50 float_tenth two_samples).
Proof.
  assert (NoDup (column_names two_samples)) as Hnd.
  { apply (bool_decide_unpack _). vm_compute. reflexivity. }
  assert (nonneg_table two_samples) as Hnn.
  { repeat constructor; simpl; lia. }
  assert (within_int64 two_samples) as Hb.
  { repeat constructor; reflexivity. }
  apply (filter_idempotent (FA:=ieee64) 50 float_tenth two_samples _
           ieee64_div_antitone Hnd Hnn Hb).
  apply (filter_table_exact (FA:=ieee64)); [exact Hnd|exact Hnn|exact Hb].
Defined.

(** On the primitive floats, for the table of the scenarios. *)
Example filter_twice_binary64 :
  (f ← py_float (H:=binary64) "0.1";
   df' ← filter_table 50 f two_samples;
   filter_table 50 f df')
  = (f ← py_float (H:=binary64) "0.1"; filter_table 50 f two_samples).
Proof. vm_compute. reflexivity. Qed.

(** C5 as stated fails once a column adds up to [2^63] or more.  The
    column [2^62, 2^62, 2^62, 2^62 - 95, 100] adds up to [2^64 + 5], so its
    64-bit total is 5: with the thresholds 1000 and 1 the first pass keeps
    the four large cells and zeroes the last one.  What is left adds up to
    [2^64 - 95], so the total of the second pass is -95, every quotient is
    negative, and the second pass zeroes the cells the first one kept. *)
Lemma second_pass_zeroes_after_overflow :
  exists f,
    py_float (H:=binary64) "1" = Some f
    /\ nonneg_table (one_sample [2 ^ 62; 2 ^ 62; 2 ^ 62; 2 ^ 62 - 95; 100])
    /\ series_sum [2 ^ 62; 2 ^ 62; 2 ^ 62; 2 ^ 62 - 95; 100] = 5
    /\ filter_table 1000 f (one_sample [2 ^ 62; 2 ^ 62; 2 ^ 62; 2 ^ 62 - 95; 100])
       = Some (one_sample [2 ^ 62; 2 ^ 62; 2 ^ 62; 2 ^ 62 - 95; 0])
    /\ series_sum [2 ^ 62; 2 ^ 62; 2 ^ 62; 2 ^ 62 - 95; 0] = - 95
    /\ filter_table 1000 f (one_sample [2 ^ 62; 2 ^ 62; 2 ^ 62; 2 ^ 62 - 95; 0])
       = Some (one_sample [0; 0; 0; 0; 0]).
Proof.
  eexists. split; [vm_compute; reflexivity|].
  split; [repeat constructor; by apply Z.leb_le|].
  repeat split; vm_compute; reflexivity.
Qed.

(** C6.  On tables of non-negative counts whose columns each add up to
    less than [2^63], the minimum frequency 0 leaves only the count
    criterion: a cell is kept exactly when it reaches the minimum count;
    with a minimum count of 10 the column [9, 10, 1000] becomes
    [0, 10, 1000].  (A quotient of positive counts is not below zero, as
    in [ieee64].) *)
Theorem zero_min_freq_leaves_count_criterion `{FA : FloatArith} (min_count : Z)
        (df : DataFrame) :
  quotient_nonneg float_zero ->
  NoDup (column_names df) ->
  nonneg_table df ->
  within_int64 df ->
  py_float "0" = Some float_zero
  /\ filter_table min_count float_zero df = Some (count_only_table min_count df)
  /\ (f ← py_float (H:=binary64) "0"; filter_table 10 f (one_sample [9; 10; 1000]))
     = Some (one_sample [0; 10; 1000]).
Proof.
  intros Hlaw Hnd Hnn Hb. split; [done|]. split; [|vm_compute; reflexivity].
  rewrite filter_table_exact by done. f_equal.
  unfold filtered_table, count_only_table. f_equal.
  apply Forall_fmap_ext_1.
  unfold nonneg_table, within_int64 in *. rewrite Forall_forall in Hnn, Hb.
  apply Forall_forall. intros [n col] Hin. simpl. f_equal.
  apply count_only_when_zero; [done|exact (Hnn _ Hin)|exact (Hb _ Hin)].
Qed.

Lemma zero_min_freq_leaves_count_criterion_witness :
  filter_table (FA:=ieee64) 10 float_zero two_samples
  = Some (count_only_table 10 two_samples).
Proof.
  assert (NoDup (column_names two_samples)) as Hnd.
  { apply (bool_decide_unpack _). vm_compute. reflexivity. }
  assert (nonneg_table two_samples) as Hnn.
  { repeat constructor; simpl; lia. }
  assert (within_int64 two_samples) as Hb.
  { repeat constructor; reflexivity. }
  exact (proj1 (proj2 (zero_min_freq_leaves_count_criterion (FA:=ieee64) 10 two_samples
                         ieee64_quotient_nonneg Hnd Hnn Hb))).
Defined.

(** C6 as stated fails once a column adds up to [2^63] or more: with the
    minimum frequency 0 and the minimum count 1 both cells of the column
    [2^62, 2^62] meet the count criterion, and both are zeroed, because
    the 64-bit total [-2^63] makes their quotients negative. *)
Lemma zero_min_freq_zeroes_counted_cells :
  exists f,
    py_float (H:=binary64) "0" = Some f
    /\ nonneg_table (one_sample [2 ^ 62; 2 ^ 62])
    /\ count_only_table 1 (one_sample [2 ^ 62; 2 ^ 62]) = one_sample [2 ^ 62; 2 ^ 62]
    /\ filter_table 1 f (one_sample [2 ^ 62; 2 ^ 62]) = Some (one_sample [0; 0]).
Proof.
  eexists. split; [vm_compute; reflexivity|].
  split; [repeat constructor; by apply Z.leb_le|].
  repeat split; vm_compute; reflexivity.
Qed.

(** ** Strings *)

Lemma app_str_cons (c : ascii) (s t : string) : String c s +:+ t = String c (s +:+ t).
Proof. reflexivity. Qed.

Lemma has_char_app c s t : has_char c (s +:+ t) = has_char c s || has_char c t.
Proof.
  induction s as [|d s IH]; simpl; [done|]. rewrite IH. by rewrite orb_assoc.
Qed.

Lemma last_char_app s t : t <> EmptyString -> last_char (s +:+ t) = last_char t.
Proof.
  intros Ht. induction s as [|d s IH]; [done|].
  change (last_char (String d (s +:+ t)) = last_char t).
  assert (s +:+ t <> EmptyString) as Hne by (destruct s; [exact Ht|discriminate]).
  simpl. rewrite IH. by destruct (s +:+ t).
Qed.

Lemma lstrip_id c s : isspace c = false -> lstrip (String c s) = String c s.
Proof. intros H. simpl. by rewrite H. Qed.

Lemma rstrip_id s c : last_char s = Some c -> isspace c = false -> rstrip s = s.
Proof.
  induction s as [|d s IH]; simpl; [done|].
  destruct s as [|e s'].
  - intros [= ->] ->. done.
  - intros Hl Hc. rewrite IH by done. done.
Qed.

Lemma strip_id c s d :
  isspace c = false ->
  last_char (String c s) = Some d -> isspace d = false ->
  strip (String c s) = String c s.
Proof.
  intros Hc Hl Hd. unfold strip. rewrite lstrip_id by done.
  by eapply rstrip_id.
Qed.

Lemma split_no_sep sep s : has_char sep s = false -> split sep s = [s].
Proof.
  induction s as [|c s IH]; simpl; [done|].
  rewrite (Ascii.eqb_sym c sep).
  destruct (Ascii.eqb sep c); simpl; [done|]. intros H. by rewrite IH.
Qed.

Lemma split_app_sep sep s t :
  has_char sep s = false ->
  split sep (s +:+ String sep t) = s :: split sep t.
Proof.
  induction s as [|c s IH]; simpl.
  - intros _. by rewrite Ascii.eqb_refl.
  - rewrite (Ascii.eqb_sym c sep).
    destruct (Ascii.eqb sep c); simpl; [done|]. intros H. by rewrite IH.
Qed.

Lemma lines_app_line s t :
  one_line s = true -> lines (s +:+ String LF t) = s :: lines t.
Proof.
  unfold one_line. induction s as [|c s IH]; cbn [lines has_char String.append].
  - intros _. reflexivity.
  - rewrite app_str_cons. cbn [lines].
    intros [H1 H2]%andb_true_iff.
    apply negb_true_iff, orb_false_iff in H1 as [H1 H1'].
    apply negb_true_iff, orb_false_iff in H2 as [H2 H2'].
    rewrite (Ascii.eqb_sym c LF), H1, (Ascii.eqb_sym c CR), H2.
    rewrite IH; [done|]. by rewrite H1', H2'.
Qed.

Lemma app_str_assoc (s t u : string) : (s +:+ t) +:+ u = s +:+ (t +:+ u).
Proof. induction s as [|c s IH]; [done|]. by rewrite !app_str_cons, IH. Qed.

Lemma app_str_nil_r (s : string) : s +:+ EmptyString = s.
Proof. induction s as [|c s IH]; [done|]. by rewrite app_str_cons, IH. Qed.

Lemma plain_has_char c s : plain_char c = false -> plain s = true -> has_char c s = false.
Proof.
  intros Hc. induction s as [|d s IH]; [done|]. cbn [plain has_char].
  intros [Hd Hs]%andb_true_iff. rewrite IH by done.
  destruct (Ascii.eqb_spec c d) as [->|]; [congruence|done].
Qed.

Lemma plain_no_quote s : plain s = true -> needs_quote s = false.
Proof.
  intros H. unfold needs_quote. by rewrite !plain_has_char.
Qed.

Lemma plain_one_line s : plain s = true -> one_line s = true.
Proof. intros H. unfold one_line. by rewrite !plain_has_char. Qed.

Lemma plain_last_char s :
  plain s = true -> s <> EmptyString -> exists d, last_char s = Some d /\ isspace d = false.
Proof.
  induction s as [|c s IH]; [done|]. cbn [plain].
  intros [Hc Hs]%andb_true_iff _. destruct s as [|e s'].
  - exists c. split; [done|].
    unfold plain_char in Hc. apply andb_true_iff in Hc as [Hc _].
    by apply negb_true_iff.
  - destruct (IH Hs) as (d & ? & ?); [done|]. by exists d.
Qed.

Lemma digit_char_plain d : (d < 10)%nat -> plain_char (digit_char d) = true.
Proof. intros H. do 10 (destruct d as [|d]; [reflexivity|]). lia. Qed.

Lemma pos_digits_plain fuel n acc :
  plain acc = true -> plain (pos_digits fuel n acc) = true.
Proof.
  revert n acc. induction fuel as [|fuel IH]; intros n acc Hacc; [done|].
  cbn [pos_digits].
  assert (plain (String (digit_char (N.to_nat (n mod 10)%N)) acc) = true) as Hp.
  { cbn [plain]. rewrite Hacc, digit_char_plain; [done|].
    pose proof (N.mod_upper_bound n 10). lia. }
  destruct (n / 10 =? 0)%N; [done|]. by apply IH.
Qed.

Lemma pos_digits_nonempty fuel n acc :
  (0 < fuel)%nat -> pos_digits fuel n acc <> EmptyString.
Proof.
  revert n acc. induction fuel as [|fuel IH]; intros n acc Hf; [lia|].
  cbn [pos_digits]. destruct (n / 10 =? 0)%N; [done|].
  destruct fuel as [|fuel']; [done|]. apply IH. lia.
Qed.

Lemma str_of_Z_plain z : plain (str_of_Z z) = true /\ str_of_Z z <> EmptyString.
Proof.
  unfold str_of_Z, str_of_N. destruct z as [|p|p].
  - split; [by apply pos_digits_plain|apply pos_digits_nonempty; lia].
  - split; [by apply pos_digits_plain|apply pos_digits_nonempty; lia].
  - split; [|done]. cbn [plain]. by rewrite pos_digits_plain.
Qed.

Lemma join_cons2 sep x y l : join sep (x :: y :: l) = x +:+ sep +:+ join sep (y :: l).
Proof. reflexivity. Qed.

Lemma join_has_char c sep cells :
  has_char c sep = false ->
  Forall (fun s => has_char c s = false) cells ->
  has_char c (join sep cells) = false.
Proof.
  intros Hsep. induction 1 as [|x cells Hx Hcells IH]; [done|].
  destruct cells as [|y cells]; [done|].
  by rewrite join_cons2, !has_char_app, Hx, Hsep, IH.
Qed.

Lemma join_last_char cells :
  cells <> [] ->
  Forall (fun s => plain s = true /\ s <> EmptyString) cells ->
  join (str1 TAB) cells <> EmptyString
  /\ exists d, last_char (join (str1 TAB) cells) = Some d /\ isspace d = false.
Proof.
  intros Hne. induction 1 as [|x cells [Hx Hxne] Hcells IH]; [done|].
  destruct cells as [|y cells].
  - split; [done|]. by apply plain_last_char.
  - destruct IH as (Hj & d & Hl & Hd); [done|].
    rewrite join_cons2. split.
    + destruct x; [done|discriminate].
    + exists d. split; [|done].
      rewrite last_char_app; [by rewrite last_char_app|].
      discriminate.
Qed.

Lemma clean_label_inv l :
  clean_label l = true ->
  (exists c l', l = String c l' /\ isspace c = false)
  /\ (exists d, last_char l = Some d /\ isspace d = false)
  /\ needs_quote l = false.
Proof.
  unfold clean_label.
  intros [[H1 H2]%andb_true_iff H3%negb_true_iff]%andb_true_iff.
  split; [|split; [|done]].
  - destruct l as [|c l']; [done|]. exists c, l'. split; [done|by apply negb_true_iff].
  - destruct (last_char l) as [d|]; [|done]. exists d. split; [done|by apply negb_true_iff].
Qed.

Lemma needs_quote_inv l :
  needs_quote l = false ->
  has_char TAB l = false /\ has_char LF l = false /\ has_char CR l = false.
Proof.
  unfold needs_quote.
  intros [[[H1 H2]%orb_false_iff H3]%orb_false_iff H4]%orb_false_iff. done.
Qed.

Lemma csv_fields_plain cells :
  Forall (fun s => plain s = true /\ s <> EmptyString) cells ->
  csv_field <$> cells = cells.
Proof.
  intros H. rewrite <- (list_fmap_id cells) at 2.
  apply Forall_fmap_ext_1. eapply Forall_impl; [exact H|].
  intros s [Hs _]. unfold csv_field. by rewrite plain_no_quote.
Qed.

Lemma row_body l cells :
  clean_label l = true ->
  Forall (fun s => plain s = true /\ s <> EmptyString) cells ->
  one_line (join (str1 TAB) (csv_field <$> l :: cells)) = true
  /\ otu_id_of_line (join (str1 TAB) (csv_field <$> l :: cells)) = [l +:+ ";"].
Proof.
  intros Hl Hcells.
  destruct (clean_label_inv l Hl) as ((c & l' & -> & Hc) & (d & Hlast & Hd) & Hq).
  destruct (needs_quote_inv _ Hq) as (Htab & Hlf & Hcr).
  rewrite fmap_cons, (csv_fields_plain cells Hcells).
  assert (csv_field (String c l') = String c l') as ->
    by (unfold csv_field; by rewrite Hq).
  split.
  - unfold one_line. rewrite !join_has_char; [done|done| |done|].
    + constructor; [done|]. eapply Forall_impl; [exact Hcells|].
      intros s [Hs _]. by apply plain_has_char.
    + constructor; [done|]. eapply Forall_impl; [exact Hcells|].
      intros s [Hs _]. by apply plain_has_char.
  - unfold otu_id_of_line. destruct cells as [|y cells].
    + cbn [join]. rewrite (strip_id c l' d) by done.
      by rewrite split_no_sep.
    + rewrite join_cons2.
      destruct (join_last_char (y :: cells)) as (Hne & e & Hle & He); [done|done|].
      rewrite app_str_cons, (strip_id c _ e); [|done| |done].
      * rewrite <- app_str_cons.
        change (str1 TAB +:+ join (str1 TAB) (y :: cells))
          with (String TAB (join (str1 TAB) (y :: cells))).
        by rewrite split_app_sep.
      * rewrite <- app_str_cons.
        rewrite last_char_app; [by rewrite last_char_app|]. discriminate.
Qed.

Lemma lines_of_rows (g : nat -> string -> string) (labels : list string) :
  (forall i l, l ∈ labels -> one_line (g i l) = true
                             /\ otu_id_of_line (g i l) = [l +:+ ";"]) ->
  lines (concat (imap (fun i l => g i l +:+ str1 LF) labels)) ≫= otu_id_of_line
  = (fun l => l +:+ ";") <$> labels.
Proof.
  revert g. induction labels as [|l labels IH]; intros g Hg; [done|].
  rewrite imap_cons. cbn [concat].
  rewrite app_str_assoc.
  change (str1 LF +:+ ?x) with (String LF x).
  destruct (Hg 0%nat l) as [H1 H2]; [left|].
  rewrite lines_app_line by done.
  rewrite bind_cons, H2. rewrite fmap_cons. f_equal.
  apply (IH (fun i => g (S i))). intros i l' Hl'. apply Hg. by right.
Qed.

Lemma csv_field_has_char c s :
  c <> DQUOTE -> has_char c s = false -> has_char c (csv_field s) = false.
Proof.
  intros Hc Hs. unfold csv_field. destruct (needs_quote s); [|done].
  cbn [has_char]. rewrite has_char_app.
  assert (has_char c (double_quotes s) = false) as ->.
  { induction s as [|d s IH]; [done|]. cbn [has_char double_quotes] in *.
    apply orb_false_iff in Hs as [Hd Hs].
    destruct (Ascii.eqb d DQUOTE); cbn [has_char]; rewrite ?Hd, IH; try done.
    by destruct (Ascii.eqb_spec c DQUOTE). }
  cbn [has_char str1]. by destruct (Ascii.eqb_spec c DQUOTE).
Qed.

Lemma read_otu_ids_to_csv (df : DataFrame) :
  header_one_line df ->
  Forall (fun l => clean_label l = true) (index df) ->
  read_otu_ids (to_csv df) = (fun l => l +:+ ";") <$> index df.
Proof.
  intros Hh Hl. unfold read_otu_ids, to_csv, csv_line.
  rewrite app_str_assoc.
  change (str1 LF +:+ ?x) with (String LF x).
  rewrite lines_app_line.
  - apply (lines_of_rows (fun i l => join (str1 TAB) (csv_field <$> row_fields df i l))).
    intros i l Hin. unfold row_fields. apply row_body.
    + rewrite Forall_forall in Hl. by apply Hl.
    + apply Forall_fmap, Forall_forall. intros c _. apply str_of_Z_plain.
  - unfold one_line. unfold header_one_line in Hh.
    rewrite !join_has_char; [done|done| |done|].
    + apply Forall_fmap. eapply Forall_impl; [exact Hh|].
      intros s [_ H]%andb_true_iff. apply csv_field_has_char; [done|].
      by apply negb_true_iff.
    + apply Forall_fmap. eapply Forall_impl; [exact Hh|].
      intros s [H _]%andb_true_iff. apply csv_field_has_char; [done|].
      by apply negb_true_iff.
Qed.

(** ** Passed and failed records *)

Lemma match_one_elem (otu : string) (acc : gset string) (rids : list string) (rid : string) :
  rid ∈ match_one otu acc rids <-> rid ∈ acc \/ (rid ∈ rids /\ contains otu rid = true).
Proof.
  unfold match_one. revert acc.
  induction rids as [|r rids IH]; intros acc; simpl.
  - split; [by left|]. intros [H|[H _]]; [done|by apply elem_of_nil in H].
  - rewrite IH. destruct (contains otu r) eqn:E.
    + rewrite elem_of_union, elem_of_singleton, elem_of_cons.
      split; intros H.
      * destruct H as [[H| ->]|[H1 H2]]; intuition congruence.
      * destruct H as [H|[[->|H1] H2]]; intuition congruence.
    + rewrite elem_of_cons. split; intros H.
      * destruct H as [H|[H1 H2]]; intuition congruence.
      * destruct H as [H|[[->|H1] H2]]; intuition congruence.
Qed.

Lemma passed_ids_elem (otu_ids : list string) (all_otus : gmap string SeqRecord)
      (rid : string) :
  rid ∈ passed_ids otu_ids all_otus
  <-> rid ∈ dom all_otus /\ exists otu, otu ∈ otu_ids /\ contains otu rid = true.
Proof.
  unfold passed_ids.
  assert (forall acc : gset string,
            rid ∈ foldl (fun acc otu => match_one otu acc (elements (dom all_otus)))
                        acc otu_ids
            <-> rid ∈ acc \/ (rid ∈ dom all_otus
                              /\ exists otu, otu ∈ otu_ids /\ contains otu rid = true))
    as Hgen.
  { induction otu_ids as [|o otu_ids IH]; intros acc; simpl.
    - split; [by left|]. intros [H|[_ (o & H & _)]]; [done|by apply elem_of_nil in H].
    - rewrite IH, match_one_elem, elem_of_elements.
      split.
      + intros [[H|[H1 H2]]|[H1 (o' & H2 & H3)]].
        * by left.
        * right. split; [done|]. exists o. split; [left|done].
        * right. split; [done|]. exists o'. split; [by right|done].
      + intros [H|[H1 (o' & [->|H2]%elem_of_cons & H3)]].
        * by left; left.
        * left. right. done.
        * right. split; [done|]. by exists o'. }
  rewrite Hgen. split; [|by right]. intros [H|H]; [by apply not_elem_of_empty in H|done].
Qed.

Lemma load_otus_dom (records : list SeqRecord) (rid : string) :
  rid ∈ dom (load_otus records) <-> exists r, r ∈ records /\ rec_id r = rid.
Proof.
  unfold load_otus.
  assert (forall m : gmap string SeqRecord,
            rid ∈ dom (foldl (fun m r => <[rec_id r := r]> m) m records)
            <-> rid ∈ dom m \/ exists r, r ∈ records /\ rec_id r = rid) as Hgen.
  { induction records as [|r records IH]; intros m; simpl.
    - split; [by left|]. intros [H|(r & H & _)]; [done|by apply elem_of_nil in H].
    - rewrite IH, dom_insert, elem_of_union, elem_of_singleton.
      split.
      + intros [[->|H]|(r' & H1 & H2)].
        * right. exists r. split; [left|done].
        * by left.
        * right. exists r'. split; [by right|done].
      + intros [H|(r' & [->|H1]%elem_of_cons & H2)].
        * left. by right.
        * left. by left.
        * right. by exists r'. }
  rewrite Hgen, dom_empty. split; [|by right].
  intros [H|H]; [by apply not_elem_of_empty in H|done].
Qed.

Lemma index_stored `{FA : FloatArith} mc mf df :
  index (stored_table mc mf df) = index df.
Proof. reflexivity. Qed.

Lemma header_stored `{FA : FloatArith} mc mf df :
  header_one_line df -> header_one_line (stored_table mc mf df).
Proof. unfold header_one_line. by rewrite column_names_stored. Qed.

(** The filter keeps every row of the table, also a row whose counts
    all became zero, so the ids read back from the filtered table are the
    row labels of the input table, each followed by ";". *)
Lemma row_labels_read_back `{FA : FloatArith} (min_count : Z) (min_freq : flt)
      (df df' : DataFrame) :
  NoDup (column_names df) ->
  header_one_line df ->
  Forall (fun l => clean_label l = true) (index df) ->
  filter_table min_count min_freq df = Some df' ->
  read_otu_ids (to_csv df') = (fun l => l +:+ ";") <$> index df.
Proof.
  intros Hnd Hh Hl. rewrite filter_table_spec by done. intros [= <-].
  rewrite read_otu_ids_to_csv; [done|by apply header_stored|done].
Qed.

Lemma passed_ids_labels (labels : list string) (records : list SeqRecord) (rid : string) :
  rid ∈ passed_ids ((fun l => l +:+ ";") <$> labels) (load_otus records)
  <-> (exists r, r ∈ records /\ rec_id r = rid)
      /\ exists label, label ∈ labels /\ contains (label +:+ ";") rid = true.
Proof.
  rewrite passed_ids_elem, load_otus_dom.
  split; intros [Hr Hm]; (split; [done|]).
  - destruct Hm as (otu & (label & -> & H1)%list_elem_of_fmap & H2). by exists label.
  - destruct Hm as (label & H1 & H2). exists (label +:+ ";").
    split; [|done]. apply list_elem_of_fmap. by exists label.
Qed.

Lemma failed_ids_labels (labels : list string) (records : list SeqRecord) (rid : string) :
  rid ∈ failed_ids ((fun l => l +:+ ";") <$> labels) (load_otus records)
  <-> (exists r, r ∈ records /\ rec_id r = rid)
      /\ ~ exists label, label ∈ labels /\ contains (label +:+ ";") rid = true.
Proof.
  unfold failed_ids. rewrite elem_of_difference, passed_ids_labels, load_otus_dom.
  split.
  - intros [Hr Hn]. split; [done|]. intros Hm. by apply Hn.
  - intros [Hr Hn]. split; [done|]. intros [_ Hm]. by apply Hn.
Qed.

(** C2 as stated fails: the only count of OTU_1 is below the minimum
    count, its filtered row is all zeros, and yet its record is in the
    passed set and not in the failed set. *)
Lemma all_zero_row_still_passes :
  exists df',
    (f ← py_float (H:=binary64) "0.1"; filter_table 50 f (one_sample [5])) = Some df'
    /\ index df' = ["OTU_1"]
    /\ row_cells df' 0 = [0]
    /\ "OTU_1;size=5" ∈ passed_ids (read_otu_ids (to_csv df'))
                                    (load_otus [otu_record "OTU_1;size=5"])
    /\ "OTU_1;size=5" ∉ failed_ids (read_otu_ids (to_csv df'))
                                    (load_otus [otu_record "OTU_1;size=5"]).
Proof.
  exists (one_sample [0]).
  assert (read_otu_ids (to_csv (one_sample [0])) = ["OTU_1;"]) as Hids
    by (vm_compute; reflexivity).
  assert ("OTU_1;size=5" ∈ passed_ids (read_otu_ids (to_csv (one_sample [0])))
                                      (load_otus [otu_record "OTU_1;size=5"])) as Hp.
  { rewrite Hids. apply passed_ids_elem. split.
    - apply load_otus_dom. exists (otu_record "OTU_1;size=5"). split; [left|done].
    - exists "OTU_1;". split; [left|reflexivity]. }
  split; [vm_compute; reflexivity|]. split; [reflexivity|]. split; [reflexivity|].
  split; [exact Hp|].
  unfold failed_ids. rewrite elem_of_difference. intros [_ Hn]. by apply Hn.
Qed.

(** The same run through the whole stage: the record of the zeroed OTU is
    written to [otus.filter.fasta], [list.filter] is left empty, the
    temporary list is removed and the working directory is restored. *)
Example zeroed_otu_written_as_passed :
  let fs : gmap string string :=
    list_to_map [("/data/out/7-OTU/otutab.txt", to_csv (one_sample [5]));
                 ("/data/out/7-OTU/otus.fasta", ">OTU_1;size=5")] in
  let lib := fixed_library (one_sample [5]) [otu_record "OTU_1;size=5"] in
  exists w',
    filter_low_abundance_otus (FA:=binary64) (EX:=lib) ∅ 4 "/data/out"
                              (machine true ["1"; "50"; "0.1"] fs)
    = Returned tt w'
    /\ files w' !! "/data/out/7-OTU/otutab.filter.txt" = Some (to_csv (one_sample [0]))
    /\ files w' !! "/data/out/7-OTU/otus.filter.fasta"
       = Some (SeqIO_format (otu_record "OTU_1;size=5"))
    /\ files w' !! "/data/out/7-OTU/list.filter" = Some EmptyString
    /\ files w' !! "/data/out/7-OTU/list.t1" = None
    /\ cwd w' = "/home/user/run".
Proof.
  cbv zeta. eexists. split; [vm_compute; reflexivity|].
  repeat split; vm_compute; reflexivity.
Qed.

(** ** Substring matching of ids *)

Lemma startswith_app p q : startswith p (p +:+ q) = true.
Proof.
  induction p as [|c p IH]; [done|].
  rewrite app_str_cons. cbn [startswith]. by rewrite Ascii.eqb_refl, IH.
Qed.

Lemma startswith_inv p s : startswith p s = true -> exists q, s = p +:+ q.
Proof.
  revert s. induction p as [|c p IH]; intros s; [by exists s|].
  destruct s as [|d s]; [done|]. cbn [startswith].
  intros [Hc Hs]%andb_true_iff. apply Ascii.eqb_eq in Hc as ->.
  destruct (IH s Hs) as [q ->]. by exists q.
Qed.

Lemma contains_iff p s :
  contains p s = true <-> exists u v, s = u +:+ p +:+ v.
Proof.
  induction s as [|c s IH]; cbn [contains].
  - rewrite orb_false_r. split.
    + intros [q ->]%startswith_inv. by exists EmptyString, q.
    + intros (u & v & H). destruct u as [|d u]; [|discriminate].
      change (EmptyString = p +:+ v) in H. rewrite H. apply startswith_app.
  - rewrite orb_true_iff, IH. split.
    + intros [[q ->]%startswith_inv|(u & v & ->)].
      * by exists EmptyString, q.
      * by exists (String c u), v.
    + intros (u & v & H). destruct u as [|d u].
      * left. change (String c s = p +:+ v) in H. rewrite H. apply startswith_app.
      * right. rewrite app_str_cons in H. injection H as -> ->. by exists u, v.
Qed.

Lemma startswith_delimited a b s :
  has_char SEMI a = false -> has_char SEMI b = false ->
  startswith (a +:+ ";") (b +:+ ";" +:+ s) = true -> a = b.
Proof.
  revert b. induction a as [|c a IH]; intros b Ha Hb.
  - destruct b as [|d b]; [done|].
    rewrite app_str_cons. change (EmptyString +:+ ";") with (String SEMI EmptyString).
    cbn [startswith has_char] in *. apply orb_false_iff in Hb as [Hd _].
    rewrite Hd. done.
  - cbn [has_char] in Ha. apply orb_false_iff in Ha as [Hc Ha].
    destruct b as [|d b].
    + rewrite app_str_cons. change (EmptyString +:+ ";" +:+ s) with (String SEMI s).
      cbn [startswith]. rewrite Ascii.eqb_sym, Hc. done.
    + rewrite !app_str_cons. cbn [startswith has_char] in *.
      apply orb_false_iff in Hb as [_ Hb].
      intros [Hcd Hs]%andb_true_iff. apply Ascii.eqb_eq in Hcd as ->.
      f_equal. by apply IH.
Qed.

Lemma startswith_has_char c p s :
  startswith p s = true -> has_char c s = false -> has_char c p = false.
Proof.
  intros [q ->]%startswith_inv. rewrite has_char_app. by intros [? _]%orb_false_iff.
Qed.

Lemma contains_delimited a b s :
  has_char SEMI a = false -> has_char SEMI b = false ->
  endswith a b = false ->
  contains (a +:+ ";") s = false ->
  contains (a +:+ ";") (b +:+ ";" +:+ s) = false.
Proof.
  intros Ha Hb Hend Hs. induction b as [|d b IH].
  - change (EmptyString +:+ ";" +:+ s) with (String SEMI s).
    cbn [contains]. rewrite Hs, orb_false_r.
    apply not_true_is_false. intros H.
    apply (startswith_delimited a EmptyString s Ha) in H; [|done].
    subst a. done.
  - rewrite app_str_cons. cbn [contains]. rewrite <- app_str_cons.
    cbn [endswith has_char] in *.
    apply orb_false_iff in Hend as [Hne Hend].
    apply orb_false_iff in Hb as [Hd Hb].
    rewrite IH by done. rewrite orb_false_r.
    apply not_true_is_false. intros H.
    apply startswith_delimited in H; [|done|cbn [has_char]; by rewrite Hd, Hb].
    subst a. by rewrite String.eqb_refl in Hne.
Qed.

(** C10 as stated fails: "1" is a proper prefix of "11", the rest of
    the identifier holds no "1;", and the test for "1" still matches. *)
Lemma prefix_that_is_suffix_matches :
  "1" <> "11"
  /\ startswith "1" "11" = true
  /\ contains ("1" +:+ ";") "size=3" = false
  /\ contains ("1" +:+ ";") ("11" +:+ ";" +:+ "size=3") = true.
Proof. repeat split; done. Qed.

(** C10, as the code has it.  For ids without ";": when [A] is a prefix
    of [B] but not a suffix of [B], a record named [B ; suffix] whose
    suffix holds no [A ;] is not matched by the test for [A]; and a record
    is matched exactly when its identifier contains the id immediately
    followed by ";". *)
Theorem delimiter_separates_prefix_ids (A B suffix : string) :
  startswith A B = true ->
  has_char SEMI B = false ->
  endswith A B = false ->
  contains (A +:+ ";") suffix = false ->
  contains (A +:+ ";") (B +:+ ";" +:+ suffix) = false
  /\ forall otu rid : string,
       contains (otu +:+ ";") rid = true <-> exists u v, rid = u +:+ (otu +:+ ";") +:+ v.
Proof.
  intros Hpre HB Hend Hsuf. split.
  - apply contains_delimited; [|done|done|done].
    by apply (startswith_has_char SEMI A B).
  - intros otu rid. apply contains_iff.
Qed.

Lemma delimiter_separates_prefix_ids_witness :
  contains ("OTU_1" +:+ ";") ("OTU_10" +:+ ";" +:+ "size=7") = false.
Proof.
  assert (startswith "OTU_1" "OTU_10" = true) as H1 by reflexivity.
  assert (has_char SEMI "OTU_10" = false) as H2 by reflexivity.
  assert (endswith "OTU_1" "OTU_10" = false) as H3 by reflexivity.
  assert (contains ("OTU_1" +:+ ";") "size=7" = false) as H4 by reflexivity.
  exact (proj1 (delimiter_separates_prefix_ids "OTU_1" "OTU_10" "size=7" H1 H2 H3 H4)).
Defined.

(** ** The threshold prompts *)

Section Prompts.
Context `{FA : FloatArith}.

Lemma ask_min_count_nil w : stdin w = [] -> ask_min_count w = Diverged.
Proof.
  intros H. unfold ask_min_count, console_loop. rewrite H.
  cbn [length loop_turns]. unfold mbind, M_bind, try_except, input. by rewrite H.
Qed.

Lemma ask_min_count_cons w r rs :
  stdin w = r :: rs ->
  ask_min_count w
  = match py_int (strip r) with
    | Some n => if n >? 0 then Returned n (with_stdin rs w)
                else ask_min_count (with_stdin rs w)
    | None => ask_min_count (with_stdin rs w)
    end.
Proof.
  intros H. unfold ask_min_count, console_loop. rewrite H.
  cbn [length loop_turns]. unfold mbind, M_bind, try_except, input at 1. rewrite H.
  destruct (py_int (strip r)) as [n|]; [destruct (n >? 0)|]; reflexivity.
Qed.

Lemma ask_min_freq_nil w : stdin w = [] -> ask_min_freq w = Diverged.
Proof.
  intros H. unfold ask_min_freq, console_loop. rewrite H.
  cbn [length loop_turns]. unfold mbind, M_bind, try_except, input. by rewrite H.
Qed.

Lemma ask_min_freq_cons w r rs :
  stdin w = r :: rs ->
  ask_min_freq w
  = match py_float (strip r) with
    | Some f => Returned f (with_stdin rs w)
    | None => ask_min_freq (with_stdin rs w)
    end.
Proof.
  intros H. unfold ask_min_freq, console_loop. rewrite H.
  cbn [length loop_turns]. unfold mbind, M_bind, try_except, input at 1. rewrite H.
  destruct (py_float (strip r)) as [f|]; reflexivity.
Qed.

Lemma ask_min_count_accepts pre l rest v w :
  stdin w = pre ++ l :: rest ->
  Forall (fun r => forall n, py_int (strip r) = Some n -> n <= 0) pre ->
  py_int (strip l) = Some v -> 0 < v ->
  ask_min_count w = Returned v (with_stdin rest w).
Proof.
  intros Hin Hpre Hl Hv. revert w Hin.
  induction Hpre as [|r pre Hr _ IH]; intros w Hin.
  - rewrite (ask_min_count_cons w l rest Hin), Hl.
    by destruct (Z.gtb_spec v 0); [|lia].
  - rewrite (ask_min_count_cons w r (pre ++ l :: rest) Hin).
    destruct (py_int (strip r)) as [n|] eqn:E.
    + specialize (Hr n eq_refl). destruct (Z.gtb_spec n 0); [lia|].
      by rewrite IH.
    + by rewrite IH.
Qed.

Lemma ask_min_count_returned lines w v w' :
  stdin w = lines ->
  ask_min_count w = Returned v w' ->
  exists pre l rest,
    lines = pre ++ l :: rest
    /\ Forall (fun r => forall n, py_int (strip r) = Some n -> n <= 0) pre
    /\ py_int (strip l) = Some v /\ 0 < v /\ w' = with_stdin rest w.
Proof.
  revert w. induction lines as [|r rs IH]; intros w Hin.
  - by rewrite ask_min_count_nil.
  - rewrite (ask_min_count_cons w r rs Hin).
    destruct (py_int (strip r)) as [n|] eqn:E.
    + destruct (Z.gtb_spec n 0).
      * intros [= -> <-]. exists [], r, rs. by repeat split.
      * intros (pre & l & rest & -> & Hpre & Hl & Hv & ->)%IH; [|done].
        exists (r :: pre), l, rest. repeat split; try done.
        constructor; [|done]. intros m Hm. assert (m = n) by congruence. lia.
    + intros (pre & l & rest & -> & Hpre & Hl & Hv & ->)%IH; [|done].
      exists (r :: pre), l, rest. repeat split; try done.
      constructor; [|done]. intros m Hm. congruence.
Qed.

Lemma ask_min_freq_accepts pre l rest f w :
  stdin w = pre ++ l :: rest ->
  Forall (fun r => py_float (strip r) = None) pre ->
  py_float (strip l) = Some f ->
  ask_min_freq w = Returned f (with_stdin rest w).
Proof.
  intros Hin Hpre Hl. revert w Hin.
  induction Hpre as [|r pre Hr _ IH]; intros w Hin.
  - by rewrite (ask_min_freq_cons w l rest Hin), Hl.
  - rewrite (ask_min_freq_cons w r (pre ++ l :: rest) Hin), Hr. by rewrite IH.
Qed.

Lemma ask_min_freq_returned lines w f w' :
  stdin w = lines ->
  ask_min_freq w = Returned f w' ->
  exists pre l rest,
    lines = pre ++ l :: rest
    /\ Forall (fun r => py_float (strip r) = None) pre
    /\ py_float (strip l) = Some f /\ w' = with_stdin rest w.
Proof.
  revert w. induction lines as [|r rs IH]; intros w Hin.
  - by rewrite ask_min_freq_nil.
  - rewrite (ask_min_freq_cons w r rs Hin).
    destruct (py_float (strip r)) as [g|] eqn:E.
    + intros [= -> <-]. exists [], r, rs. by repeat split.
    + intros (pre & l & rest & -> & Hpre & Hl & ->)%IH; [|done].
      exists (r :: pre), l, rest. repeat split; try done. by constructor.
Qed.

End Prompts.

(** C9 as stated fails for the minimum frequency: "-0.5" and "2" are
    accepted at the first prompt, though neither lies in [0, 1). *)
Lemma min_freq_outside_unit_interval_accepted :
  ask_min_freq (FA:=binary64) (machine true ["-0.5"] ∅)
  = Returned (-0.5)%float (machine true [] ∅)
  /\ fge (FloatArith:=binary64) (-0.5)%float (of_int 0) = false
  /\ ask_min_freq (FA:=binary64) (machine true ["2"] ∅)
     = Returned 2%float (machine true [] ∅)
  /\ fge (FloatArith:=binary64) 2%float (of_int 1) = true.
Proof. repeat split; vm_compute; reflexivity. Qed.

(** C9, as the code has it.  The prompt for the minimum count returns a
    value exactly when a console line parses as an integer above zero: it
    returns the value of the first such line, having rejected every line
    before it.  The prompt for the minimum frequency returns the value
    of the first line that parses as a floating-point number, whatever
    that value is.  A rejected line makes the prompt ask again. *)
Theorem prompts_accept_first_valid_line `{FA : FloatArith} (w : World)
        (pre : list string) (l : string) (rest : list string) :
  stdin w = pre ++ l :: rest ->
  (forall v, Forall (fun r => forall n, py_int (strip r) = Some n -> n <= 0) pre ->
             py_int (strip l) = Some v -> 0 < v ->
             ask_min_count w = Returned v (with_stdin rest w))
  /\ (forall f, Forall (fun r => py_float (strip r) = None) pre ->
                py_float (strip l) = Some f ->
                ask_min_freq w = Returned f (with_stdin rest w))
  /\ (forall v w', ask_min_count w = Returned v w' ->
         exists pre' l' rest',
           stdin w = pre' ++ l' :: rest'
           /\ Forall (fun r => forall n, py_int (strip r) = Some n -> n <= 0) pre'
           /\ py_int (strip l') = Some v /\ 0 < v /\ w' = with_stdin rest' w)
  /\ (forall f w', ask_min_freq w = Returned f w' ->
         exists pre' l' rest',
           stdin w = pre' ++ l' :: rest'
           /\ Forall (fun r => py_float (strip r) = None) pre'
           /\ py_float (strip l') = Some f /\ w' = with_stdin rest' w).
Proof.
  intros Hin. repeat split.
  - intros v Hpre Hl Hv. by eapply ask_min_count_accepts.
  - intros f Hpre Hl. by eapply ask_min_freq_accepts.
  - intros v w' H. by eapply ask_min_count_returned.
  - intros f w' H. by eapply ask_min_freq_returned.
Qed.

Lemma prompts_accept_first_valid_line_witness :
  ask_min_count (machine true ["abc"; "0"; "50"; "0.001"] ∅)
  = Returned 50 (machine true ["0.001"] ∅).
Proof.
  assert (stdin (machine true ["abc"; "0"; "50"; "0.001"] ∅)
          = ["abc"; "0"] ++ "50" :: ["0.001"]) as Hin by reflexivity.
  assert (Forall (fun r => forall n, py_int (strip r) = Some n -> n <= 0) ["abc"; "0"])
    as Hpre.
  { repeat constructor.
    - intros n H. vm_compute in H. discriminate.
    - intros n H. vm_compute in H. injection H as <-. lia. }
  assert (py_int (strip "50") = Some 50) as Hl by (vm_compute; reflexivity).
  assert (0 < 50) as Hv by lia.
  exact (proj1 (prompts_accept_first_valid_line (FA:=binary64) _ _ _ _ Hin) 50 Hpre Hl Hv).
Defined.

(** ** The demultiplex stage *)

Lemma warnings_app l1 l2 : warnings (l1 ++ l2) = warnings l1 ++ warnings l2.
Proof. unfold warnings. by rewrite List.filter_app, fmap_app. Qed.

Lemma run_command_ok cmd description w :
  exit_ok (spawn w (cwd w) cmd (files w)) = true ->
  exists w',
    run_command cmd description w = Returned tt w'
    /\ launched w' = launched w ++ [cmd]
    /\ warnings (log w') = warnings (log w)
    /\ cwd w' = cwd w /\ dirs w' = dirs w /\ spawn w' = spawn w
    /\ files w' = files_after (spawn w (cwd w) cmd (files w)).
Proof.
  intros Hok. unfold run_command, mbind, M_bind, logging, subprocess_run.
  cbn [cwd files spawn with_log with_files with_launched]. rewrite Hok.
  eexists. split; [reflexivity|].
  cbn [log launched cwd dirs spawn files with_log with_files with_launched].
  repeat split.
  rewrite !warnings_app. cbn. by rewrite !app_nil_r.
Qed.

Lemma present_stable w w' input_dir row :
  cwd w' = cwd w -> dirs w' = dirs w ->
  (forall p, p ∈ raw_paths input_dir row ->
     (resolve p w ∈ dom (files w') <-> resolve p w ∈ dom (files w))) ->
  present w' input_dir row = present w input_dir row.
Proof.
  intros Hc Hd Hf.
  assert (forall p, p ∈ raw_paths input_dir row -> on_disk w' p = on_disk w p) as Heq.
  { intros p Hp. unfold on_disk, resolve. rewrite Hc, Hd.
    apply bool_decide_ext. specialize (Hf p Hp). unfold resolve in Hf. by rewrite Hf. }
  unfold present. unfold raw_paths in *. cbn [forallb].
  rewrite !Heq; [done|right; left|left].
Qed.

Lemma filter_ext_elem {A} (P Q : A -> Prop) `{!forall x, Decision (P x)}
      `{!forall x, Decision (Q x)} (l : list A) :
  (forall x, x ∈ l -> (P x <-> Q x)) -> filter P l = filter Q l.
Proof.
  induction l as [|x l IH]; intros Hl; [done|].
  rewrite !filter_cons.
  rewrite IH by (intros y Hy; apply Hl; by right).
  destruct (decide (P x)) as [HP|HP], (decide (Q x)) as [HQ|HQ]; try done.
  - exfalso. apply HQ, Hl; [left|done].
  - exfalso. apply HP, Hl; [left|done].
Qed.

Section Demultiplex.
Variables (tools : gmap string string) (threads : Z)
          (input_dir demultiplex_dir cutadapt : string).
Hypothesis Htool : tools !! "cutadapt" = Some cutadapt.

Lemma demultiplex_row_present w row :
  present w input_dir row = true ->
  demultiplex_row tools threads input_dir demultiplex_dir row w
  = run_command (cutadapt_cmd cutadapt threads input_dir demultiplex_dir row)
                ("样本解复用 " +:+ sample_id row) w.
Proof.
  unfold present, raw_paths. cbn [forallb]. rewrite andb_true_r.
  intros [H1 H2]%andb_true_iff.
  unfold demultiplex_row, mbind, M_bind, path_exists. unfold on_disk in *.
  rewrite H1, H2. cbn [negb orb]. unfold tool. rewrite Htool. done.
Qed.

Lemma demultiplex_row_absent w row :
  present w input_dir row = false ->
  demultiplex_row tools threads input_dir demultiplex_dir row w
  = logging WARNING (skip_message row) w.
Proof.
  unfold present, raw_paths. cbn [forallb]. rewrite andb_true_r.
  intros H. unfold demultiplex_row, mbind, M_bind, path_exists. unfold on_disk in *.
  apply andb_false_iff in H as [H|H]; rewrite H; cbn [negb orb]; [done|].
  by rewrite orb_true_r.
Qed.

Lemma demultiplex_loop metadata w :
  all_exit_ok w ->
  raw_inputs_kept w input_dir metadata ->
  exists w',
    for_each metadata (demultiplex_row tools threads input_dir demultiplex_dir) w
    = Returned tt w'
    /\ launched w'
       = launched w ++ (cutadapt_cmd cutadapt threads input_dir demultiplex_dir
                          <$> filter (fun row => present w input_dir row = true) metadata)
    /\ warnings (log w')
       = warnings (log w)
         ++ (skip_message <$> filter (fun row => present w input_dir row = false) metadata).
Proof.
  revert w. induction metadata as [|row metadata IH]; intros w Hok Hkept.
  - exists w. cbn. by rewrite !app_nil_r.
  - cbn [for_each]. unfold mbind, M_bind.
    destruct (present w input_dir row) eqn:Hp.
    + rewrite (demultiplex_row_present w row Hp).
      destruct (run_command_ok
                  (cutadapt_cmd cutadapt threads input_dir demultiplex_dir row)
                  ("样本解复用 " +:+ sample_id row) w (Hok _ _ _))
        as (w1 & -> & Hl & Hw & Hc & Hd & Hs & Hf).
      destruct (IH w1) as (w' & -> & Hl' & Hw').
      { intros d cmd fs. rewrite Hs. apply Hok. }
      { intros d cmd fs r p Hr Hin. unfold resolve. rewrite Hs, Hc.
        apply (Hkept d cmd fs r p); [by right|done]. }
      assert (forall r, r ∈ metadata ->
                        present w1 input_dir r = present w input_dir r) as Hsame.
      { intros r Hr. apply present_stable; [done|done|].
        intros p Hin. rewrite Hf. apply (Hkept _ _ _ r p); [by right|done]. }
      exists w'. split; [done|].
      rewrite Hl', Hw', Hl, Hw.
      rewrite !filter_cons, Hp.
      rewrite decide_True by done. rewrite decide_False by done.
      rewrite fmap_cons, <- app_assoc. cbn [app].
      rewrite (filter_ext_elem (fun r => present w1 input_dir r = true)
                 (fun r => present w input_dir r = true) metadata)
        by (intros r Hr; by rewrite Hsame).
      rewrite (filter_ext_elem (fun r => present w1 input_dir r = false)
                 (fun r => present w input_dir r = false) metadata)
        by (intros r Hr; by rewrite Hsame).
      done.
    + rewrite (demultiplex_row_absent w row Hp). unfold logging.
      set (w1 := with_log (log w ++ [(WARNING, skip_message row)]) w).
      destruct (IH w1) as (w' & -> & Hl' & Hw').
      { intros d cmd fs. apply Hok. }
      { intros d cmd fs r p Hr Hin. apply (Hkept d cmd fs r p); [by right|done]. }
      exists w'. split; [done|].
      rewrite Hl', Hw'. unfold w1. cbn [launched log with_log].
      rewrite warnings_app. cbn [warnings List.filter is_warning fst fmap list_fmap snd].
      rewrite !filter_cons, Hp.
      rewrite decide_False by done. rewrite decide_True by done.
      rewrite fmap_cons, <- app_assoc. done.
Qed.

End Demultiplex.

(** C8 as stated fails: both samples have both raw files, the command of
    the first sample exits non-zero, and the stage stops there; no command
    is invoked for the second sample. *)
Lemma failed_command_stops_demultiplex :
  let fs : gmap string string :=
    list_to_map [("/data/raw/A_R1.fastq", "@r"); ("/data/raw/A_R2.fastq", "@r");
                 ("/data/raw/B_R1.fastq", "@r"); ("/data/raw/B_R2.fastq", "@r")] in
  let tools : gmap string string := {["cutadapt" := "/usr/bin/cutadapt"]} in
  let w := machine false [] fs in
  let cmd s := cutadapt_cmd "/usr/bin/cutadapt" 4 "/data/raw" "/data/out/1-demultiplex"
                            (sample s) in
  present (stage_entry "/data/out" w) "/data/raw" (sample "A") = true
  /\ present (stage_entry "/data/out" w) "/data/raw" (sample "B") = true
  /\ exists w',
      demultiplex tools 4 "/data/raw" "/data/out" [sample "A"; sample "B"] w
      = Raised (CalledProcessError (cmd "A")) w'
      /\ launched w' = [cmd "A"]
      /\ cmd "B" ∉ launched w'.
Proof.
  cbv zeta. split; [vm_compute; reflexivity|]. split; [vm_compute; reflexivity|].
  eexists. split; [vm_compute; reflexivity|]. split; [reflexivity|].
  intros H%list_elem_of_singleton. vm_compute in H. discriminate.
Qed.

(** C8, as the code has it.  As long as every invoked command exits with
    status zero, the demultiplex stage invokes one command, in order, for
    each sample whose two raw input files exist, with the primers of the
    sample in its argument vector, and none for the other samples, for
    each of which it logs one warning and goes on.  (A command that exits
    non-zero raises and ends the stage.) *)
Theorem demultiplex_one_command_per_present_sample
        (tools : gmap string string) (threads : Z) (input_dir output_dir cutadapt : string)
        (metadata : list SampleRow) (w : World) :
  tools !! "cutadapt" = Some cutadapt ->
  all_exit_ok w ->
  raw_inputs_kept w input_dir metadata ->
  exists w',
    demultiplex tools threads input_dir output_dir metadata w = Returned tt w'
    /\ launched w'
       = launched w
         ++ (cutadapt_cmd cutadapt threads input_dir (path_join output_dir "1-demultiplex")
               <$> filter (fun row => present (stage_entry output_dir w) input_dir row = true)
                          metadata)
    /\ warnings (log w')
       = warnings (log w)
         ++ (skip_message
               <$> filter (fun row => present (stage_entry output_dir w) input_dir row = false)
                          metadata)
    /\ forall row,
        cutadapt_cmd cutadapt threads input_dir (path_join output_dir "1-demultiplex") row !! 2%nat
        = Some ("^" +:+ forward_primer row)
        /\ cutadapt_cmd cutadapt threads input_dir (path_join output_dir "1-demultiplex") row !! 4%nat
           = Some ("^" +:+ reverse_primer row).
Proof.
  intros Htool Hok Hkept.
  unfold demultiplex, mbind, M_bind, makedirs. fold (stage_entry output_dir w).
  destruct (demultiplex_loop tools threads input_dir
              (path_join output_dir "1-demultiplex") cutadapt Htool metadata
              (stage_entry output_dir w)) as (w' & Hrun & Hl & Hw); [done|done|].
  exists w'. split; [exact Hrun|]. split; [exact Hl|]. split; [exact Hw|].
  intros row. split; reflexivity.
Qed.

Lemma demultiplex_one_command_per_present_sample_witness :
  exists w',
    demultiplex {["cutadapt" := "/usr/bin/cutadapt"]} 4 "/data/raw" "/data/out"
                [sample "A"; sample "B"]
                (machine true [] (list_to_map [("/data/raw/A_R1.fastq", "@r");
                                               ("/data/raw/A_R2.fastq", "@r");
                                               ("/data/raw/B_R1.fastq", "@r")]))
    = Returned tt w'
    /\ launched w' = [cutadapt_cmd "/usr/bin/cutadapt" 4 "/data/raw"
                                   "/data/out/1-demultiplex" (sample "A")]
    /\ warnings (log w') = [skip_message (sample "B")].
Proof.
  set (fs := list_to_map [("/data/raw/A_R1.fastq", "@r"); ("/data/raw/A_R2.fastq", "@r");
                          ("/data/raw/B_R1.fastq", "@r")] : gmap string string).
  assert (({["cutadapt" := "/usr/bin/cutadapt"]} : gmap string string) !! "cutadapt"
          = Some "/usr/bin/cutadapt") as Htool by apply lookup_singleton_eq.
  assert (all_exit_ok (machine true [] fs)) as Hok by (intros d cmd fs'; reflexivity).
  assert (raw_inputs_kept (machine true [] fs) "/data/raw" [sample "A"; sample "B"]) as Hkept
    by (intros d cmd fs' row p _ _; reflexivity).
  destruct (demultiplex_one_command_per_present_sample
              {["cutadapt" := "/usr/bin/cutadapt"]} 4 "/data/raw" "/data/out"
              "/usr/bin/cutadapt" [sample "A"; sample "B"] (machine true [] fs)
              Htool Hok Hkept) as (w' & Hrun & Hl & Hw & _).
  exists w'. split; [exact Hrun|]. split.
  - rewrite Hl. vm_compute. reflexivity.
  - rewrite Hw. vm_compute. reflexivity.
Defined.

(** ** The working directory *)

(** C7 fails on the code.  Each of the three stages changes into
    [<output_dir>/7-OTU] and is left by an exception without changing
    back: the relabel stage and the rarefaction stage when their first
    [run_command] fails, the abundance filter when the console is at end of
    input at its first prompt. *)
Theorem exception_leaves_stage_directory :
  let tools : gmap string string := {["vsearch" := "/usr/bin/vsearch"]} in
  let w := machine false [] ∅ in
  cwd w = "/home/user/run"
  /\ (exists cmd w',
        relabel_and_cluster (FA:=binary64) tools 4 "/data/out" w
        = Raised (CalledProcessError cmd) w'
        /\ cwd w' = "/data/out/7-OTU")
  /\ (exists cmd w',
        plot_rarefaction_curve (EX:=no_library) tools 4 "/data/out" w
        = Raised (CalledProcessError cmd) w'
        /\ cwd w' = "/data/out/7-OTU")
  /\ (exists w',
        filter_low_abundance_otus (FA:=binary64) (EX:=no_library) tools 4 "/data/out" w
        = Raised EOFError w'
        /\ cwd w' = "/data/out/7-OTU").
Proof.
  cbv zeta. split; [reflexivity|]. split; [|split].
  - eexists _, _. split; [vm_compute; reflexivity|reflexivity].
  - eexists _, _. split; [vm_compute; reflexivity|reflexivity].
  - eexists. split; [vm_compute; reflexivity|reflexivity].
Qed.

(** The paths on which the stages do change back: the early return of the
    abundance filter, its handled read failure, and the normal end of the
    relabel stage. *)
Lemma handled_paths_restore_directory :
  let tools : gmap string string := {["vsearch" := "/usr/bin/vsearch"]} in
  (exists w',
     filter_low_abundance_otus (FA:=binary64) (EX:=no_library) tools 4 "/data/out"
                               (machine true ["2"] ∅) = Returned tt w'
     /\ cwd w' = "/home/user/run")
  /\ (exists w',
        filter_low_abundance_otus (FA:=binary64) (EX:=no_library) tools 4 "/data/out"
                                  (machine true ["1"; "50"; "0.001"] ∅) = Returned tt w'
        /\ cwd w' = "/home/user/run")
  /\ (exists w',
        relabel_and_cluster (FA:=binary64) tools 4 "/data/out"
                            (machine true ["1"; "0.97"] ∅) = Returned tt w'
        /\ cwd w' = "/home/user/run").
Proof.
  cbv zeta. split; [|split].
  - eexists. split; [vm_compute; reflexivity|reflexivity].
  - eexists. split; [vm_compute; reflexivity|reflexivity].
  - eexists. split; [vm_compute; reflexivity|reflexivity].
Qed.

(** Whatever the machine: when the first command of the relabel stage
    exits non-zero, the stage is left by the exception in [7-OTU]. *)
Lemma relabel_and_cluster_failed_command `{FA : FloatArith}
      (tools : gmap string string) (threads : Z) (output_dir vsearch : string)
      (w : World) :
  let otu_dir := path_join output_dir "7-OTU" in
  let cmd_relabel :=
    [vsearch; "--fastx_filter";
     path_join (path_join (dirname otu_dir) "6-chimera") "otus_nochim.fasta";
     "--sizein"; "--sizeout"; "--fasta_width"; "0"; "--relabel"; "OTU_";
     "--threads"; str_of_Z threads; "--fastaout"; "otus.temp.fasta"] in
  tools !! "vsearch" = Some vsearch ->
  exit_ok (spawn w (path_join (cwd w) otu_dir) cmd_relabel (files w)) = false ->
  exists w',
    relabel_and_cluster tools threads output_dir w
    = Raised (CalledProcessError cmd_relabel) w'
    /\ cwd w' = path_join (cwd w) otu_dir.
Proof.
  cbv zeta. intros Htool Hfail.
  unfold relabel_and_cluster, mbind, M_bind, getcwd, chdir, tool.
  rewrite Htool.
  unfold run_command, mbind, M_bind, mret, M_ret, raise, logging, subprocess_run, resolve.
  cbn [cwd files spawn launched log with_cwd with_log with_files with_launched].
  rewrite Hfail. eexists. split; reflexivity.
Qed.

(** * [main] and its helpers *)

Import Builtins Pipeline Notions.

(** ** Loops that read the console *)

Lemma console_loop_cons {A} (body : M (option A)) w l rest :
  stdin w = l :: rest ->
  console_loop body w
  = match body w with
    | Returned (Some a) w' => Returned a w'
    | Returned None w' => loop_turns (S (length rest)) body w'
    | Raised e w' => Raised e w'
    | Diverged => Diverged
    end.
Proof.
  intros H. unfold console_loop. rewrite H. cbn [length loop_turns].
  unfold mbind, M_bind. destruct (body w) as [[a|] w'| |]; reflexivity.
Qed.

Lemma with_stdin_stdin w : with_stdin (stdin w) w = w.
Proof. by destruct w. Qed.

(** ** White space around an answer *)

Lemma rstrip_keeps_head c t :
  isspace c = false -> exists t', rstrip (String c t) = String c t'.
Proof.
  intros Hc. cbn [rstrip]. destruct (rstrip t) as [|e r].
  - rewrite Hc. by exists EmptyString.
  - by exists (String e r).
Qed.

Lemma rstrip_last s :
  match last_char (rstrip s) with
  | Some d => isspace d = false
  | None => rstrip s = EmptyString
  end.
Proof.
  induction s as [|c s IH]; [done|].
  cbn [rstrip]. destruct (rstrip s) as [|e r] eqn:E.
  - destruct (isspace c) eqn:Hc; [done|]. cbn. exact Hc.
  - change (last_char (String c (String e r))) with (last_char (String e r)).
    destruct (last_char (String e r)); [done|discriminate].
Qed.

Lemma lstrip_head s :
  match lstrip s with
  | String c _ => isspace c = false
  | EmptyString => True
  end.
Proof.
  induction s as [|c s IH]; [done|].
  cbn [lstrip]. destruct (isspace c) eqn:Hc; [exact IH|exact Hc].
Qed.

Lemma strip_idem s : strip (strip s) = strip s.
Proof.
  unfold strip at 2 3. pose proof (lstrip_head s) as Hh.
  destruct (lstrip s) as [|c t]; [done|].
  destruct (rstrip_keeps_head c t Hh) as [t' Ht].
  pose proof (rstrip_last (String c t)) as Hl. rewrite Ht in *.
  destruct (last_char (String c t')) as [d|] eqn:Hd; [|done].
  by eapply strip_id.
Qed.

Lemma with_stdin_twice a b w : with_stdin a (with_stdin b w) = with_stdin a w.
Proof. reflexivity. Qed.

Section GetValidInput.
Variable sentinel : string.

Lemma get_valid_input_nil validator w :
  stdin w = [] -> get_valid_input sentinel validator w = Raised EOFError w.
Proof.
  intros H. unfold get_valid_input, console_loop. rewrite H.
  cbn [length loop_turns]. unfold get_valid_input_turn, mbind, M_bind, input.
  by rewrite H.
Qed.

Lemma get_valid_input_cons validator w l rest :
  stdin w = l :: rest ->
  get_valid_input sentinel validator w
  = if String.eqb (lower (strip l)) sentinel
    then Returned (Unwind (SystemExit "用户选择结束运行。")) (with_stdin rest w)
    else match validator with
         | None => Returned (Continue (strip l)) (with_stdin rest w)
         | Some v =>
             match v (strip l) (with_stdin rest w) with
             | Continue true => Returned (Continue (strip l)) (with_stdin rest w)
             | Continue false => get_valid_input sentinel validator (with_stdin rest w)
             | Unwind sg => Returned (Unwind sg) (with_stdin rest w)
             end
         end.
Proof.
  intros H. unfold get_valid_input. rewrite (console_loop_cons _ w l rest H).
  unfold get_valid_input_turn at 1, mbind, M_bind, input. rewrite H.
  destruct (String.eqb (lower (strip l)) sentinel); [reflexivity|].
  destruct validator as [v|]; [|reflexivity].
  unfold consult. destruct (v (strip l) (with_stdin rest w)) as [[|]|sg]; reflexivity.
Qed.

Lemma turned_down_pending validator w pending l :
  turned_down sentinel validator w l ->
  turned_down sentinel validator (with_stdin pending w) l.
Proof. intros [H1 H2]. split; [done|]. by destruct validator. Qed.

Lemma get_valid_input_skips validator w rejected pending :
  Forall (turned_down sentinel validator w) rejected ->
  get_valid_input sentinel validator (with_stdin (rejected ++ pending) w)
  = get_valid_input sentinel validator (with_stdin pending w).
Proof.
  induction 1 as [|r rejected [Hr Hv] _ IH]; [done|].
  rewrite (get_valid_input_cons validator _ r (rejected ++ pending)) by done.
  apply String.eqb_neq in Hr. rewrite Hr.
  rewrite with_stdin_twice.
  destruct validator as [v|]; [|done].
  rewrite (Hv (rejected ++ pending)). exact IH.
Qed.

Lemma get_valid_input_returned validator lines w value w' :
  stdin w = lines ->
  get_valid_input sentinel validator w = Returned (Continue value) w' ->
  exists rejected l rest,
    lines = rejected ++ l :: rest
    /\ value = strip l
    /\ lower value ≠ sentinel
    /\ accepts validator value w'
    /\ w' = with_stdin rest w.
Proof.
  revert w. induction lines as [|r rs IH]; intros w Hin.
  - by rewrite get_valid_input_nil.
  - rewrite (get_valid_input_cons validator w r rs Hin).
    destruct (String.eqb_spec (lower (strip r)) sentinel) as [|Hne]; [done|].
    destruct validator as [v|].
    + destruct (v (strip r) (with_stdin rs w)) as [[|]|sg] eqn:E; [| |done].
      * intros [= <- <-]. by exists [], r, rs.
      * intros (rejected & l & rest & -> & -> & Hs & Ha & ->)%IH; [|done].
        by exists (r :: rejected), l, rest.
    + intros [= <- <-]. by exists [], r, rs.
Qed.

Lemma get_valid_input_accepts_at validator w rejected l rest :
  stdin w = rejected ++ l :: rest ->
  Forall (turned_down sentinel validator w) rejected ->
  lower (strip l) ≠ sentinel ->
  accepts validator (strip l) (with_stdin rest w) ->
  get_valid_input sentinel validator w
  = Returned (Continue (strip l)) (with_stdin rest w).
Proof.
  intros Hin Hrej Hne Hacc.
  rewrite <- (with_stdin_stdin w) at 1. rewrite Hin.
  rewrite get_valid_input_skips by done.
  rewrite (get_valid_input_cons validator _ l rest) by done.
  apply String.eqb_neq in Hne. rewrite Hne, with_stdin_twice.
  destruct validator as [v|]; [|done]. cbn in Hacc. by rewrite Hacc.
Qed.

(** However the prompt ends, it has changed nothing but the console,
    and it does end; what it returns is the last line it has read,
    without the white space around it. *)
Lemma get_valid_input_outcome validator lines w :
  stdin w = lines ->
  exists pending,
    get_valid_input sentinel validator w = Raised EOFError (with_stdin pending w)
    \/ (exists sg, get_valid_input sentinel validator w
                   = Returned (Unwind sg) (with_stdin pending w))
    \/ (exists value,
          get_valid_input sentinel validator w
          = Returned (Continue value) (with_stdin pending w)
          /\ accepts validator value (with_stdin pending w)
          /\ lower value ≠ sentinel /\ strip value = value
          /\ exists before l, lines = before ++ l :: pending /\ value = strip l).
Proof.
  revert w. induction lines as [|r rs IH]; intros w Hin.
  - exists []. left. rewrite get_valid_input_nil by done.
    by rewrite <- Hin, with_stdin_stdin.
  - rewrite (get_valid_input_cons validator w r rs Hin).
    destruct (String.eqb_spec (lower (strip r)) sentinel) as [|Hne].
    { exists rs. right. left. by eexists. }
    destruct validator as [v|].
    + destruct (v (strip r) (with_stdin rs w)) as [[|]|sg] eqn:E.
      * exists rs. right. right. exists (strip r).
        split; [done|]. split; [done|]. split; [done|].
        split; [apply strip_idem|]. by exists [], r.
      * destruct (IH (with_stdin rs w) eq_refl) as [pending H].
        exists pending. rewrite with_stdin_twice in H.
        destruct H as [H|[H|(value & H1 & H2 & H3 & H4 & before & l & H5 & H6)]];
          [by left|by right; left|].
        right. right. exists value. repeat (split; [done|]).
        exists (r :: before), l. by rewrite H5.
      * exists rs. right. left. by eexists.
    + exists rs. right. right. exists (strip r).
      split; [done|]. split; [done|]. split; [done|].
      split; [apply strip_idem|]. by exists [], r.
Qed.

End GetValidInput.

(** ** [get_valid_input] *)

(** X1.  After lines at which the prompt went round again, the first
    line that is not the word ending the run and that the validator lets
    through is returned, stripped of surrounding white space; exactly the
    lines up to it are consumed and nothing else changes. *)
Theorem get_valid_input_first_accepted
        (sentinel : string) (validator : option Validator) (w : World)
        (rejected : list string) (l : string) (rest : list string) :
  stdin w = rejected ++ l :: rest ->
  Forall (turned_down sentinel validator w) rejected ->
  lower (strip l) ≠ sentinel ->
  accepts validator (strip l) (with_stdin rest w) ->
  get_valid_input sentinel validator w
  = Returned (Continue (strip l)) (with_stdin rest w).
Proof.
  intros Hin Hrej Hne Hacc.
  rewrite <- (with_stdin_stdin w) at 1. rewrite Hin.
  rewrite get_valid_input_skips by done.
  rewrite (get_valid_input_cons sentinel validator _ l rest) by done.
  apply String.eqb_neq in Hne. rewrite Hne, with_stdin_twice.
  destruct validator as [v|]; [|done]. cbn in Hacc. by rewrite Hacc.
Qed.

Lemma get_valid_input_first_accepted_witness :
  get_valid_input "exit" (Some positive_integer)
                  (machine true ["abc"; "0"; " 12 "; "x"] ∅)
  = Returned (Continue "12") (machine true ["x"] ∅).
Proof.
  assert (Forall (turned_down "exit" (Some positive_integer)
                              (machine true ["abc"; "0"; " 12 "; "x"] ∅)) ["abc"; "0"])
    as Hrej.
  { repeat constructor; try (intros H; vm_compute in H; discriminate). }
  assert (lower (strip " 12 ") ≠ "exit") as Hne
    by (intros H; vm_compute in H; discriminate).
  assert (accepts (Some positive_integer) (strip " 12 ")
                  (with_stdin ["x"] (machine true ["abc"; "0"; " 12 "; "x"] ∅)))
    as Hacc by (vm_compute; reflexivity).
  exact (get_valid_input_first_accepted "exit" (Some positive_integer)
           (machine true ["abc"; "0"; " 12 "; "x"] ∅) ["abc"; "0"] " 12 " ["x"]
           eq_refl Hrej Hne Hacc).
Defined.

(** X2.  The word that ends the run is looked for before the validator
    is consulted: a line that is this word, in any case and with any
    white space around it, unwinds with [SystemExit] whatever the
    validator would have said, and the lines after it stay on the console. *)
Theorem get_valid_input_sentinel_first
        (sentinel : string) (validator : option Validator) (w : World)
        (rejected : list string) (l : string) (rest : list string) :
  stdin w = rejected ++ l :: rest ->
  Forall (turned_down sentinel validator w) rejected ->
  lower (strip l) = sentinel ->
  get_valid_input sentinel validator w
  = Returned (Unwind (SystemExit "用户选择结束运行。")) (with_stdin rest w).
Proof.
  intros Hin Hrej Heq.
  rewrite <- (with_stdin_stdin w) at 1. rewrite Hin.
  rewrite get_valid_input_skips by done.
  rewrite (get_valid_input_cons sentinel validator _ l rest) by done.
  apply String.eqb_eq in Heq. by rewrite Heq, with_stdin_twice.
Qed.

Lemma get_valid_input_sentinel_first_witness :
  get_valid_input "exit" (Some yes_or_no) (machine true ["maybe"; " Exit "; "yes"] ∅)
  = Returned (Unwind (SystemExit "用户选择结束运行。")) (machine true ["yes"] ∅).
Proof.
  assert (Forall (turned_down "exit" (Some yes_or_no)
                              (machine true ["maybe"; " Exit "; "yes"] ∅)) ["maybe"])
    as Hrej.
  { repeat constructor. intros H; vm_compute in H; discriminate. }
  assert (lower (strip " Exit ") = "exit") as Heq by (vm_compute; reflexivity).
  exact (get_valid_input_sentinel_first "exit" (Some yes_or_no)
           (machine true ["maybe"; " Exit "; "yes"] ∅) ["maybe"] " Exit " ["yes"]
           eq_refl Hrej Heq).
Defined.

(** X3.  The prompt never waits for ever: when every pending line is
    turned down, the end of the console input raises [EOFError], with
    the console emptied. *)
Theorem get_valid_input_end_of_input
        (sentinel : string) (validator : option Validator) (w : World) :
  Forall (turned_down sentinel validator w) (stdin w) ->
  get_valid_input sentinel validator w = Raised EOFError (with_stdin [] w).
Proof.
  intros Hrej.
  rewrite <- (with_stdin_stdin w) at 1.
  rewrite <- (app_nil_r (stdin w)).
  rewrite get_valid_input_skips by done.
  by rewrite get_valid_input_nil.
Qed.

Lemma get_valid_input_end_of_input_witness :
  get_valid_input "exit" (Some one_or_two) (machine true ["3"; "one"] ∅)
  = Raised EOFError (machine true [] ∅).
Proof.
  assert (Forall (turned_down "exit" (Some one_or_two) (machine true ["3"; "one"] ∅))
                 (stdin (machine true ["3"; "one"] ∅))) as Hrej.
  { repeat constructor; intros H; vm_compute in H; discriminate. }
  exact (get_valid_input_end_of_input "exit" (Some one_or_two)
           (machine true ["3"; "one"] ∅) Hrej).
Defined.

(** X4.  What the prompt hands to its caller: a value without white
    space at either end, which is not the word that ends the run and
    which the validator lets through; one line at least has been
    consumed, and nothing but the console has changed. *)
Theorem get_valid_input_sound
        (sentinel : string) (validator : option Validator) (w w' : World)
        (value : string) :
  get_valid_input sentinel validator w = Returned (Continue value) w' ->
  strip value = value
  /\ lower value ≠ sentinel
  /\ accepts validator value w'
  /\ (exists consumed, consumed ≠ [] /\ stdin w = consumed ++ stdin w')
  /\ w' = with_stdin (stdin w') w.
Proof.
  intros (rejected & l & rest & Hin & -> & Hs & Ha & ->)%(get_valid_input_returned
    sentinel validator (stdin w)); [|done].
  split; [apply strip_idem|]. split; [done|]. split; [done|]. split; [|done].
  exists (rejected ++ [l]). split; [by destruct rejected|].
  by rewrite Hin, <- app_assoc.
Qed.

Lemma get_valid_input_sound_witness :
  strip "12" = "12" /\ lower "12" ≠ "exit".
Proof.
  assert (get_valid_input "exit" (Some positive_integer)
                          (machine true ["abc"; " 12 "; "x"] ∅)
          = Returned (Continue "12") (machine true ["x"] ∅)) as Hrun
    by (vm_compute; reflexivity).
  destruct (get_valid_input_sound "exit" (Some positive_integer) _ _ _ Hrun)
    as (H1 & H2 & _).
  exact (conj H1 H2).
Defined.

(** X5.  The two scripts differ in the word that ends the run.  A line
    reading "exit" ends the second script at any prompt; the first
    script, whose word is "exist", takes it for an answer like any
    other and returns it when the validator lets it through. *)
Theorem exit_is_an_answer_in_first_script
        (validator : option Validator) (w : World) (l : string) (rest : list string) :
  stdin w = l :: rest ->
  lower (strip l) = "exit" ->
  accepts validator (strip l) (with_stdin rest w) ->
  Processing2.get_valid_input validator w
  = Returned (Unwind (SystemExit "用户选择结束运行。")) (with_stdin rest w)
  /\ Processing1.get_valid_input validator w
     = Returned (Continue (strip l)) (with_stdin rest w).
Proof.
  intros Hin Heq Hacc. split.
  - unfold Processing2.get_valid_input.
    rewrite (get_valid_input_cons "exit" validator w l rest Hin).
    apply String.eqb_eq in Heq. by rewrite Heq.
  - unfold Processing1.get_valid_input.
    rewrite (get_valid_input_cons "exist" validator w l rest Hin), Heq.
    cbn [String.eqb Ascii.eqb Bool.eqb andb].
    destruct validator as [v|]; [|done]. cbn in Hacc. by rewrite Hacc.
Qed.

Lemma exit_is_an_answer_in_first_script_witness :
  Processing2.get_valid_input None (machine true [" EXIT "; "x"] ∅)
  = Returned (Unwind (SystemExit "用户选择结束运行。")) (machine true ["x"] ∅)
  /\ Processing1.get_valid_input None (machine true [" EXIT "; "x"] ∅)
     = Returned (Continue "EXIT") (machine true ["x"] ∅).
Proof.
  assert (lower (strip " EXIT ") = "exit") as Heq by (vm_compute; reflexivity).
  exact (exit_is_an_answer_in_first_script None (machine true [" EXIT "; "x"] ∅)
           " EXIT " ["x"] eq_refl Heq I).
Defined.

(** ** The validators *)

Lemma all_chars_impl (p q : ascii -> bool) s :
  (forall c, p c = true -> q c = true) ->
  all_chars p s = true -> all_chars q s = true.
Proof.
  intros Hpq. induction s as [|c s IH]; [done|].
  cbn [all_chars]. intros [Hc Hs]%andb_true_iff.
  by rewrite (Hpq c Hc), IH.
Qed.

Lemma all_chars_last p s d :
  all_chars p s = true -> last_char s = Some d -> p d = true.
Proof.
  induction s as [|c s IH]; [done|].
  cbn [all_chars]. intros [Hc Hs]%andb_true_iff.
  destruct s as [|e s']; [by intros [= <-]|].
  intros Hl. by apply IH.
Qed.

Lemma last_char_is_Some c s : exists d, last_char (String c s) = Some d.
Proof.
  revert c. induction s as [|e s IH]; intros c; [by exists c|].
  destruct (IH e) as [d Hd]. exists d. exact Hd.
Qed.

Lemma isdigit_char_facts c :
  isdigit_char c = true ->
  isspace c = false /\ Ascii.eqb c "-" = false /\ Ascii.eqb c "+" = false
  /\ Ascii.eqb c "_" = false.
Proof.
  destruct c as [[] [] [] [] [] [] [] []]; intros H; vm_compute in H;
    try discriminate H; repeat split.
Qed.

Lemma is_digit_isdigit_char c : is_digit c = true -> isdigit_char c = true.
Proof. intros H. unfold isdigit_char. by rewrite H. Qed.

Lemma isdigit_strip s : isdigit s = true -> strip s = s.
Proof.
  destruct s as [|c s]; [done|]. cbn [isdigit]. intros H.
  destruct (last_char_is_Some c s) as [d Hd].
  pose proof (all_chars_last _ _ _ H Hd) as Hdd.
  cbn [all_chars] in H. apply andb_true_iff in H as [Hc _].
  apply isdigit_char_facts in Hc as (Hc & _). apply isdigit_char_facts in Hdd as (Hdd & _).
  by eapply strip_id.
Qed.

Lemma isdigit_sign_of s : isdigit s = true -> sign_of s = (false, s).
Proof.
  destruct s as [|c s]; [done|]. cbn [isdigit all_chars].
  intros [Hc _]%andb_true_iff.
  apply isdigit_char_facts in Hc as (_ & Hm & Hp & _).
  unfold sign_of. by rewrite Hm, Hp.
Qed.

Lemma digitpart_digits s acc cnt :
  all_chars is_digit s = true ->
  exists n, digitpart acc cnt s = (n, (cnt + String.length s)%nat, EmptyString).
Proof.
  revert acc cnt. induction s as [|c s IH]; intros acc cnt.
  - intros _. exists acc. cbn. by rewrite Nat.add_0_r.
  - cbn [all_chars]. intros [Hc Hs]%andb_true_iff.
    cbn [digitpart]. rewrite Hc.
    destruct (IH (acc * 10 + digit_val c)%N (S cnt) Hs) as [n Hn].
    exists n. rewrite Hn. cbn [String.length]. do 2 f_equal. lia.
Qed.

Lemma digitpart_stops s acc cnt :
  all_chars isdigit_char s = true ->
  all_chars is_digit s = false ->
  exists n k c r, digitpart acc cnt s = (n, k, String c r).
Proof.
  revert acc cnt. induction s as [|c s IH]; intros acc cnt; [done|].
  cbn [all_chars]. intros [Hc Hs]%andb_true_iff Hd.
  cbn [digitpart]. destruct (is_digit c) eqn:E.
  - cbn [andb] in Hd. by apply IH.
  - apply isdigit_char_facts in Hc as (_ & _ & _ & Hu). rewrite Hu.
    by exists acc, cnt, c, s.
Qed.

(** [int] of a value that [isdigit] lets through: a number when the
    digits are all ASCII, [ValueError] otherwise. *)
Lemma py_int_isdigit s :
  isdigit s = true ->
  if all_chars is_digit s
  then exists n, py_int s = Some n /\ 0 <= n
  else py_int s = None.
Proof.
  intros H. unfold py_int. rewrite (isdigit_strip s H), (isdigit_sign_of s H).
  destruct s as [|c s]; [done|]. cbn [isdigit] in H.
  destruct (all_chars is_digit (String c s)) eqn:E.
  - destruct (digitpart_digits (String c s) 0 0 E) as [n ->].
    cbn [String.length Nat.add]. exists (Z.of_N n). split; [done|lia].
  - destruct (digitpart_stops (String c s) 0 0 H E) as (n & k & d & r & ->).
    by destruct k.
Qed.

Lemma py_int_Some_nonempty s n : py_int s = Some n -> s ≠ EmptyString.
Proof. intros H ->. vm_compute in H. discriminate. Qed.

Lemma positive_integer_true x w :
  positive_integer x w = Continue true <->
  all_chars is_digit x = true /\ exists n, py_int x = Some n /\ 0 < n.
Proof.
  unfold positive_integer. split.
  - destruct (isdigit x) eqn:E; [|done].
    pose proof (py_int_isdigit x E) as Hd.
    destruct (py_int x) as [n|] eqn:En; [|done].
    intros [= Hn]. destruct (all_chars is_digit x); [|done].
    split; [done|]. exists n. split; [done|]. lia.
  - intros (Hd & n & Hn & Hpos).
    assert (isdigit x = true) as ->.
    { destruct x as [|c x]; [by apply py_int_Some_nonempty in Hn|].
      cbn [isdigit]. eapply all_chars_impl; [|exact Hd]. apply is_digit_isdigit_char. }
    rewrite Hn. f_equal. lia.
Qed.

Lemma at_least_true min_length x w :
  at_least min_length x w = Continue true ->
  all_chars is_digit x = true
  /\ exists n m, py_int x = Some n /\ py_int min_length = Some m /\ m <= n.
Proof.
  unfold at_least. destruct (isdigit x) eqn:E; [|done].
  pose proof (py_int_isdigit x E) as Hd.
  destruct (py_int x) as [n|] eqn:En; [|done].
  destruct (py_int min_length) as [m|] eqn:Em; [|done].
  intros [= Hn]. destruct (all_chars is_digit x); [|done].
  split; [done|]. exists n, m. repeat split; lia.
Qed.

(** X6.  [str.isdigit] also lets the superscript digits through, which
    [int] does not read: at the prompt for a positive integer, a line of
    digits (of the code points below 256) of which one is not an ASCII
    digit is not turned down but unwinds with [ValueError], the line
    consumed. *)
Theorem get_valid_input_value_error
        (sentinel : string) (w : World) (rejected : list string)
        (l : string) (rest : list string) :
  stdin w = rejected ++ l :: rest ->
  Forall (turned_down sentinel (Some positive_integer) w) rejected ->
  lower (strip l) ≠ sentinel ->
  isdigit (strip l) = true ->
  all_chars is_digit (strip l) = false ->
  get_valid_input sentinel (Some positive_integer) w
  = Returned (Unwind (ValueError (strip l))) (with_stdin rest w).
Proof.
  intros Hin Hrej Hne Hd Ha.
  rewrite <- (with_stdin_stdin w) at 1. rewrite Hin.
  rewrite get_valid_input_skips by done.
  rewrite (get_valid_input_cons sentinel _ _ l rest) by done.
  apply String.eqb_neq in Hne. rewrite Hne, with_stdin_twice.
  unfold positive_integer. rewrite Hd.
  pose proof (py_int_isdigit _ Hd) as Hp. rewrite Ha in Hp. by rewrite Hp.
Qed.

Lemma get_valid_input_value_error_witness :
  get_valid_input "exit" (Some positive_integer)
                  (machine true ["0"; "1" +:+ str1 (chr 178); "250"] ∅)
  = Returned (Unwind (ValueError ("1" +:+ str1 (chr 178)))) (machine true ["250"] ∅).
Proof.
  assert (Forall (turned_down "exit" (Some positive_integer)
                    (machine true ["0"; "1" +:+ str1 (chr 178); "250"] ∅)) ["0"]) as Hrej.
  { repeat constructor. intros H; vm_compute in H; discriminate. }
  assert (lower (strip ("1" +:+ str1 (chr 178))) ≠ "exit") as Hne
    by (intros H; vm_compute in H; discriminate).
  assert (isdigit (strip ("1" +:+ str1 (chr 178))) = true) as Hd
    by (vm_compute; reflexivity).
  assert (all_chars is_digit (strip ("1" +:+ str1 (chr 178))) = false) as Ha
    by (vm_compute; reflexivity).
  exact (get_valid_input_value_error "exit"
           (machine true ["0"; "1" +:+ str1 (chr 178); "250"] ∅) ["0"]
           ("1" +:+ str1 (chr 178)) ["250"] eq_refl Hrej Hne Hd Ha).
Defined.

(** X7.  The two prompts of the length range, for answers made of code
    points below 256: the values they return are runs of ASCII digits,
    and as numbers the minimum is positive and the maximum is not below
    it (the comparison is numeric, so "9" is below "10"). *)
Theorem length_range_is_ordered
        (sentinel : string) (w w1 w2 : World) (min_length max_length : string) :
  get_valid_input sentinel (Some positive_integer) w
  = Returned (Continue min_length) w1 ->
  get_valid_input sentinel (Some (at_least min_length)) w1
  = Returned (Continue max_length) w2 ->
  all_chars is_digit min_length = true
  /\ all_chars is_digit max_length = true
  /\ exists m n, py_int min_length = Some m /\ py_int max_length = Some n
                 /\ 0 < m <= n.
Proof.
  intros (_ & _ & _ & _ & _ & _ & Hmin & _)%(get_valid_input_returned _ _ (stdin w));
    [|done].
  intros (_ & _ & _ & _ & _ & _ & Hmax & _)%(get_valid_input_returned _ _ (stdin w1));
    [|done].
  cbn in Hmin, Hmax.
  apply positive_integer_true in Hmin as (Hd1 & m & Hm & Hpos).
  apply at_least_true in Hmax as (Hd2 & n & m' & Hn & Hm' & Hle).
  assert (m' = m) as -> by congruence.
  split; [done|]. split; [done|]. exists m, n. repeat split; done.
Qed.

Lemma length_range_is_ordered_witness :
  exists m n, py_int "9" = Some m /\ py_int "10" = Some n /\ 0 < m <= n.
Proof.
  assert (get_valid_input "exit" (Some positive_integer)
                          (machine true ["9"; "8"; "10"] ∅)
          = Returned (Continue "9") (machine true ["8"; "10"] ∅)) as H1
    by (vm_compute; reflexivity).
  assert (get_valid_input "exit" (Some (at_least "9")) (machine true ["8"; "10"] ∅)
          = Returned (Continue "10") (machine true [] ∅)) as H2
    by (vm_compute; reflexivity).
  exact (proj2 (proj2 (length_range_is_ordered "exit" _ _ _ "9" "10" H1 H2))).
Defined.

Lemma all_positive_true tokens :
  all_positive tokens = Continue true <->
  Forall (fun t => all_chars is_digit t = true /\ exists n, py_int t = Some n /\ 0 < n)
         tokens.
Proof.
  induction tokens as [|t ts IH]; [done|].
  rewrite Forall_cons, <- IH, <- (positive_integer_true t (machine true [] ∅)).
  unfold positive_integer. cbn [all_positive].
  destruct (isdigit t); [|intuition discriminate].
  destruct (py_int t) as [n|]; [|intuition discriminate].
  destruct (n >? 0); intuition discriminate.
Qed.

(** X8.  The list of fixed lengths, an answer made of code points below
    256, is let through exactly when it has a token and each of its
    white-space separated tokens is a run of ASCII digits that denotes a
    positive number; a blank answer is not. *)
Theorem validate_lengths_accepts_iff (s : string) (w : World) :
  validate_lengths s w = Continue true <->
  split_whitespace s ≠ []
  /\ Forall (fun t => all_chars is_digit t = true
                      /\ exists n, py_int t = Some n /\ 0 < n)
            (split_whitespace s).
Proof.
  unfold validate_lengths. rewrite <- all_positive_true.
  destruct (all_positive (split_whitespace s)) as [[|]|sg];
    [|intuition discriminate|intuition discriminate].
  destruct (split_whitespace s) as [|t ts]; cbn; intuition discriminate.
Qed.

(** ** [check_tool] *)

Section CheckTool.
Variable sentinel : string.
Context `{HO : Host}.

Lemma check_tool_loop_nil tool_name w :
  stdin w = [] ->
  console_loop (check_tool_turn sentinel tool_name) w = Raised EOFError w.
Proof.
  intros H. unfold console_loop. rewrite H.
  cbn [length loop_turns]. unfold check_tool_turn, mbind, M_bind, input.
  by rewrite H.
Qed.

Lemma check_tool_loop_cons tool_name w l rest :
  stdin w = l :: rest ->
  console_loop (check_tool_turn sentinel tool_name) w
  = if String.eqb (lower (strip l)) sentinel
    then Returned (Unwind (SystemExit "用户选择结束运行。")) (with_stdin rest w)
    else if usable tool_name w rest l
         then Returned (Continue (candidate tool_name w l))
                (with_log (log w ++ [found_record tool_name (candidate tool_name w l)])
                          (with_stdin rest w))
         else console_loop (check_tool_turn sentinel tool_name) (with_stdin rest w).
Proof.
  intros H. rewrite (console_loop_cons _ w l rest H).
  unfold check_tool_turn at 1, mbind, M_bind, input. rewrite H.
  destruct (String.eqb (lower (strip l)) sentinel); [reflexivity|].
  unfold abspath, is_executable_file.
  change (bool_decide _ && os_access_X_OK _ _) with (usable tool_name w rest l).
  destruct (usable tool_name w rest l); reflexivity.
Qed.

Lemma check_tool_loop_skips tool_name w bad pending :
  Forall (fun r => lower (strip r) ≠ sentinel
                   /\ forall pending, usable tool_name w pending r = false) bad ->
  console_loop (check_tool_turn sentinel tool_name) (with_stdin (bad ++ pending) w)
  = console_loop (check_tool_turn sentinel tool_name) (with_stdin pending w).
Proof.
  induction 1 as [|r bad [Hr Hu] _ IH]; [done|].
  rewrite (check_tool_loop_cons tool_name _ r (bad ++ pending)) by done.
  apply String.eqb_neq in Hr. rewrite Hr.
  change (usable tool_name (with_stdin ((r :: bad) ++ pending) w) (bad ++ pending) r)
    with (usable tool_name w (bad ++ pending) r).
  rewrite Hu. exact IH.
Qed.

Lemma check_tool_loop_returned tool_name lines w p w' :
  stdin w = lines ->
  console_loop (check_tool_turn sentinel tool_name) w = Returned (Continue p) w' ->
  exists consumed l rest,
    lines = consumed ++ l :: rest
    /\ p = candidate tool_name w l
    /\ usable tool_name w rest l = true
    /\ w' = with_log (log w ++ [found_record tool_name p]) (with_stdin rest w).
Proof.
  revert w. induction lines as [|r rs IH]; intros w Hin.
  - by rewrite check_tool_loop_nil.
  - rewrite (check_tool_loop_cons tool_name w r rs Hin).
    destruct (String.eqb (lower (strip r)) sentinel); [done|].
    destruct (usable tool_name w rs r) eqn:E.
    + intros [= <- <-]. by exists [], r, rs.
    + intros (consumed & l & rest & -> & -> & Hu & ->)%IH; [|done].
      by exists (r :: consumed), l, rest.
Qed.

End CheckTool.

(** X9.  What [check_tool] returns is either what the search path
    gave, the console left alone, or the path tried for a console line,
    which then names a regular file the process may execute; in both
    cases one INFO record naming the path is logged and nothing but the
    console and the log has changed. *)
Theorem check_tool_sound `{HO : Host}
        (sentinel tool_name : string) (w w' : World) (p : string) :
  check_tool sentinel tool_name w = Returned (Continue p) w' ->
  exists rest,
    w' = with_log (log w ++ [(INFO, tool_name +:+ " found at " +:+ p)])
                  (with_stdin rest w)
    /\ ((shutil_which tool_name w = Some p /\ rest = stdin w)
        \/ (exists consumed l,
              stdin w = consumed ++ l :: rest
              /\ p = candidate tool_name w l
              /\ resolve p w ∈ dom (files w)
              /\ os_access_X_OK p (with_stdin rest w) = true)).
Proof.
  unfold check_tool.
  assert (console_loop (check_tool_turn sentinel tool_name) w = Returned (Continue p) w' ->
          exists rest,
            w' = with_log (log w ++ [(INFO, tool_name +:+ " found at " +:+ p)])
                          (with_stdin rest w)
            /\ ((shutil_which tool_name w = Some p /\ rest = stdin w)
                \/ (exists consumed l,
                      stdin w = consumed ++ l :: rest
                      /\ p = candidate tool_name w l
                      /\ resolve p w ∈ dom (files w)
                      /\ os_access_X_OK p (with_stdin rest w) = true))) as Hloop.
  { intros (consumed & l & rest & Hin & -> & Hu & ->)%(check_tool_loop_returned
      sentinel tool_name (stdin w)); [|done].
    exists rest. split; [done|]. right. exists consumed, l.
    unfold usable in Hu. apply andb_true_iff in Hu as [Hf Hx].
    apply bool_decide_eq_true in Hf. done. }
  destruct (shutil_which tool_name w) as [[|c q]|] eqn:E; [exact Hloop| |exact Hloop].
  unfold lift, mbind, M_bind, mret, M_ret, logging.
  intros [= <- <-]. exists (stdin w). split; [|by left].
  by rewrite with_stdin_stdin.
Qed.

Lemma check_tool_sound_witness :
  let w := machine true ["/usr/bin"; "'/opt/tools/'"] {["/opt/tools/vsearch" := "ELF"]} in
  exists rest,
    with_log [(INFO, "vsearch found at /opt/tools/vsearch")]
             (machine true [] {["/opt/tools/vsearch" := "ELF"]})
    = with_log (log w ++ [(INFO, "vsearch" +:+ " found at " +:+ "/opt/tools/vsearch")])
               (with_stdin rest w)
    /\ ((shutil_which (Host:=plain_host []) "vsearch" w = Some "/opt/tools/vsearch"
         /\ rest = stdin w)
        \/ (exists consumed l,
              stdin w = consumed ++ l :: rest
              /\ "/opt/tools/vsearch" = candidate "vsearch" w l
              /\ resolve "/opt/tools/vsearch" w ∈ dom (files w)
              /\ os_access_X_OK (Host:=plain_host []) "/opt/tools/vsearch"
                                (with_stdin rest w) = true)).
Proof.
  assert (check_tool (HO:=plain_host []) "exit" "vsearch"
            (machine true ["/usr/bin"; "'/opt/tools/'"] {["/opt/tools/vsearch" := "ELF"]})
          = Returned (Continue "/opt/tools/vsearch")
              (with_log [(INFO, "vsearch found at /opt/tools/vsearch")]
                 (machine true [] {["/opt/tools/vsearch" := "ELF"]}))) as Hrun
    by (vm_compute; reflexivity).
  exact (check_tool_sound (HO:=plain_host []) "exit" "vsearch" _ _ _ Hrun).
Defined.

(** X10.  Without the tool on the search path, [check_tool] goes through
    the console lines: it passes over those whose directory does not hold
    an executable file of that name and returns the path under the first
    directory that does.  The directory is the line without surrounding
    single quotes, made absolute against the working directory and
    normalised; white space around it is kept. *)
Theorem check_tool_first_usable_directory `{HO : Host}
        (sentinel tool_name : string) (w : World) (bad : list string)
        (l : string) (rest : list string) :
  shutil_which tool_name w = None ->
  stdin w = bad ++ l :: rest ->
  Forall (fun r => lower (strip r) ≠ sentinel
                   /\ forall pending, usable tool_name w pending r = false) bad ->
  lower (strip l) ≠ sentinel ->
  usable tool_name w rest l = true ->
  check_tool sentinel tool_name w
  = Returned (Continue (candidate tool_name w l))
      (with_log (log w ++ [(INFO, tool_name +:+ " found at " +:+ candidate tool_name w l)])
                (with_stdin rest w)).
Proof.
  intros Hwhich Hin Hbad Hne Hu. unfold check_tool. rewrite Hwhich.
  rewrite <- (with_stdin_stdin w) at 1. rewrite Hin.
  rewrite check_tool_loop_skips by done.
  rewrite (check_tool_loop_cons sentinel tool_name _ l rest) by done.
  apply String.eqb_neq in Hne. rewrite Hne.
  change (usable tool_name (with_stdin (l :: rest) w) rest l)
    with (usable tool_name w rest l).
  by rewrite Hu.
Qed.

Lemma check_tool_first_usable_directory_witness :
  check_tool (HO:=plain_host []) "exit" "vsearch"
    (machine true ["/usr/bin"; "../tools/./bin//"; "x"]
             {["/home/user/tools/bin/vsearch" := "ELF"]})
  = Returned (Continue "/home/user/tools/bin/vsearch")
      (with_log [(INFO, "vsearch found at /home/user/tools/bin/vsearch")]
         (machine true ["x"] {["/home/user/tools/bin/vsearch" := "ELF"]})).
Proof.
  set (w := machine true ["/usr/bin"; "../tools/./bin//"; "x"]
                    {["/home/user/tools/bin/vsearch" := "ELF"]}).
  assert (shutil_which (Host:=plain_host []) "vsearch" w = None) as Hwhich by reflexivity.
  assert (Forall (fun r => lower (strip r) ≠ "exit"
                           /\ forall pending,
                               usable (H:=plain_host []) "vsearch" w pending r = false)
                 ["/usr/bin"]) as Hbad.
  { constructor; [split|constructor].
    - intros H; vm_compute in H; discriminate.
    - intros pending. vm_compute. reflexivity. }
  assert (lower (strip "../tools/./bin//") ≠ "exit") as Hne
    by (intros H; vm_compute in H; discriminate).
  assert (usable (H:=plain_host []) "vsearch" w ["x"] "../tools/./bin//" = true) as Hu
    by (vm_compute; reflexivity).
  exact (check_tool_first_usable_directory (HO:=plain_host []) "exit" "vsearch" w
           ["/usr/bin"] "../tools/./bin//" ["x"] Hwhich eq_refl Hbad Hne Hu).
Defined.

(** ** Loops over the samples *)

Lemma run_command_result cmd description w :
  run_command cmd description w
  = if exit_ok (spawn w (cwd w) cmd (files w))
    then Returned tt
           (ran cmd [(INFO, "Running: " +:+ description);
                     (INFO, "Command: " +:+ join " " cmd);
                     (INFO, description +:+ " completed successfully.")] w)
    else Raised (CalledProcessError cmd)
           (ran cmd [(INFO, "Running: " +:+ description);
                     (INFO, "Command: " +:+ join " " cmd);
                     (ERROR, "Error in " +:+ description +:+ ": "
                             +:+ proc_stderr (spawn w (cwd w) cmd (files w)))] w).
Proof.
  unfold run_command, mbind, M_bind, logging, subprocess_run, raise, ran.
  cbn [cwd files spawn log launched stdin dirs with_log with_files with_launched].
  destruct (exit_ok (spawn w (cwd w) cmd (files w)));
    cbn [cwd files spawn log launched stdin dirs with_log with_files with_launched];
    rewrite <- !app_assoc; reflexivity.
Qed.

Lemma inputs_present_stable w w' inputs :
  cwd w' = cwd w -> dirs w' = dirs w ->
  (forall p, p ∈ inputs -> (resolve p w ∈ dom (files w') <-> resolve p w ∈ dom (files w))) ->
  inputs_present w' inputs = inputs_present w inputs.
Proof.
  intros Hc Hd. unfold inputs_present.
  induction inputs as [|p inputs IH]; intros Hf; [done|].
  cbn [forallb]. rewrite IH by (intros q Hq; apply Hf; by right).
  f_equal. unfold on_disk, resolve. rewrite Hc, Hd.
  apply bool_decide_ext. specialize (Hf p ltac:(left)). unfold resolve in Hf.
  by rewrite Hf.
Qed.

Section GuardedLoop.
Context {A : Type} (body : A -> M unit) (inputs : A -> list string)
        (cmd : A -> list string) (desc msg : A -> string).
Hypothesis body_run : forall w x,
  inputs_present w (inputs x) = true -> body x w = run_command (cmd x) (desc x) w.
Hypothesis body_skip : forall w x,
  inputs_present w (inputs x) = false -> body x w = logging WARNING (msg x) w.

Lemma guarded_loop l w :
  (forall d fs x, x ∈ l -> exit_ok (spawn w d (cmd x) fs) = true) ->
  inputs_kept w inputs l ->
  exists w',
    for_each l body w = Returned tt w'
    /\ launched w'
       = launched w ++ (cmd <$> filter (fun x => inputs_present w (inputs x) = true) l)
    /\ warnings (log w')
       = warnings (log w)
         ++ (msg <$> filter (fun x => inputs_present w (inputs x) = false) l)
    /\ cwd w' = cwd w /\ dirs w' = dirs w /\ spawn w' = spawn w /\ stdin w' = stdin w
    /\ forall watched,
         (forall d c fs p, p ∈ watched ->
            (resolve p w ∈ dom (files_after (spawn w d c fs)) <-> resolve p w ∈ dom fs)) ->
         inputs_present w' watched = inputs_present w watched.
Proof.
  revert w. induction l as [|x l IH]; intros w Hok Hkept.
  - exists w. cbn. by rewrite !app_nil_r.
  - cbn [for_each]. unfold mbind, M_bind.
    destruct (inputs_present w (inputs x)) eqn:Hp.
    + rewrite (body_run w x Hp), run_command_result, (Hok _ _ x ltac:(left)).
      cbv iota.
      match goal with |- context [for_each l body ?v] => set (w1 := v) end.
      destruct (IH w1) as (w' & -> & Hl' & Hw' & Hc & Hd & Hs & Hi & Hwatch).
      { intros d fs y Hy. apply Hok. by right. }
      { intros d c fs y p Hy Hin. apply (Hkept d c fs y p); [by right|done]. }
      assert (forall y, y ∈ l ->
                inputs_present w1 (inputs y) = inputs_present w (inputs y)) as Hsame.
      { intros y Hy. apply inputs_present_stable; [done|done|].
        intros p Hin. apply (Hkept _ _ _ y p); [by right|done]. }
      exists w'. split; [done|].
      rewrite Hl', Hw', Hc, Hd, Hs, Hi.
      rewrite !filter_cons, Hp.
      rewrite decide_True by done. rewrite decide_False by done.
      rewrite (filter_ext_elem (fun y => inputs_present w1 (inputs y) = true)
                 (fun y => inputs_present w (inputs y) = true) l)
        by (intros y Hy; by rewrite Hsame).
      rewrite (filter_ext_elem (fun y => inputs_present w1 (inputs y) = false)
                 (fun y => inputs_present w (inputs y) = false) l)
        by (intros y Hy; by rewrite Hsame).
      unfold w1, ran. cbn [launched log cwd dirs spawn stdin].
      rewrite fmap_cons, <- app_assoc, warnings_app. cbn [app].
      split; [done|]. split.
      { cbn [warnings List.filter is_warning fst fmap list_fmap snd]. by rewrite app_nil_r. }
      do 4 (split; [done|]).
      intros watched Hwt. rewrite (Hwatch watched) by (intros d c fs p Hp'; by apply Hwt).
      apply inputs_present_stable; [done|done|].
      intros p Hp'. by apply Hwt.
    + rewrite (body_skip w x Hp). unfold logging.
      set (w1 := with_log (log w ++ [(WARNING, msg x)]) w).
      destruct (IH w1) as (w' & -> & Hl' & Hw' & Hc & Hd & Hs & Hi & Hwatch).
      { intros d fs y Hy. apply Hok. by right. }
      { intros d c fs y p Hy Hin. apply (Hkept d c fs y p); [by right|done]. }
      exists w'. split; [done|].
      rewrite Hl', Hw', Hc, Hd, Hs, Hi. unfold w1. cbn [launched log with_log].
      rewrite warnings_app. cbn [warnings List.filter is_warning fst fmap list_fmap snd].
      rewrite !filter_cons, Hp.
      rewrite decide_False by done. rewrite decide_True by done.
      rewrite fmap_cons, <- app_assoc.
      do 6 (split; [done|]).
      intros watched Hwt. by rewrite (Hwatch watched).
Qed.

End GuardedLoop.

(** ** Step 2: merging *)

Lemma merge_row_present tools threads demultiplex_dir merge_dir vsearch w row :
  tools !! "vsearch" = Some vsearch ->
  inputs_present w (merge_inputs demultiplex_dir row) = true ->
  merge_row tools threads demultiplex_dir merge_dir row w
  = run_command (merge_cmd vsearch threads demultiplex_dir merge_dir row)
                ("合并样本 " +:+ sample_id row +:+ " 的双端测序文件") w.
Proof.
  intros Htool. unfold inputs_present, merge_inputs. cbn [forallb]. rewrite andb_true_r.
  intros [H1 H2]%andb_true_iff.
  unfold merge_row, mbind, M_bind, path_exists. unfold on_disk in *.
  rewrite H1, H2. cbn [negb orb]. unfold tool. rewrite Htool. done.
Qed.

Lemma merge_row_absent tools threads demultiplex_dir merge_dir w row :
  inputs_present w (merge_inputs demultiplex_dir row) = false ->
  merge_row tools threads demultiplex_dir merge_dir row w
  = logging WARNING (merge_skip_message row) w.
Proof.
  unfold inputs_present, merge_inputs. cbn [forallb]. rewrite andb_true_r.
  intros H. unfold merge_row, mbind, M_bind, path_exists. unfold on_disk in *.
  apply andb_false_iff in H as [H|H]; rewrite H; cbn [negb orb]; [done|].
  by rewrite orb_true_r.
Qed.

(** X11.  As long as every launched command exits with status zero, the
    merge step launches one VSEARCH command, in the order of the
    metadata, for each sample whose two demultiplexed files exist, and
    logs one warning for each other sample and goes on.  The two files a
    command reads are the ones the demultiplex command of the sample
    was told to write, and it writes into [2-merge]. *)
Theorem merge_one_command_per_demultiplexed_sample
        (tools : gmap string string) (threads : Z) (output_dir vsearch : string)
        (metadata : list SampleRow) (w : World) :
  let demultiplex_dir := path_join output_dir "1-demultiplex" in
  let merge_dir := path_join output_dir "2-merge" in
  tools !! "vsearch" = Some vsearch ->
  all_exit_ok w ->
  inputs_kept w (merge_inputs demultiplex_dir) metadata ->
  exists w',
    merge tools threads output_dir metadata w = Returned tt w'
    /\ launched w'
       = launched w
         ++ (merge_cmd vsearch threads demultiplex_dir merge_dir
               <$> filter (fun row => inputs_present (entered merge_dir w)
                                        (merge_inputs demultiplex_dir row) = true)
                          metadata)
    /\ warnings (log w')
       = warnings (log w)
         ++ (merge_skip_message
               <$> filter (fun row => inputs_present (entered merge_dir w)
                                        (merge_inputs demultiplex_dir row) = false)
                          metadata)
    /\ forall cutadapt input_dir row,
        cutadapt_cmd cutadapt threads input_dir demultiplex_dir row !! 6%nat
        = merge_cmd vsearch threads demultiplex_dir merge_dir row !! 2%nat
        /\ cutadapt_cmd cutadapt threads input_dir demultiplex_dir row !! 8%nat
           = merge_cmd vsearch threads demultiplex_dir merge_dir row !! 4%nat
        /\ merge_cmd vsearch threads demultiplex_dir merge_dir row !! 8%nat
           = Some (path_join merge_dir (sample_id row +:+ ".merged.fastq")).
Proof.
  intros demultiplex_dir merge_dir Htool Hok Hkept.
  unfold merge, mbind, M_bind, makedirs. fold demultiplex_dir merge_dir.
  fold (entered merge_dir w).
  destruct (guarded_loop (merge_row tools threads demultiplex_dir merge_dir)
              (merge_inputs demultiplex_dir)
              (merge_cmd vsearch threads demultiplex_dir merge_dir)
              (fun row => "合并样本 " +:+ sample_id row +:+ " 的双端测序文件")
              merge_skip_message
              (fun w x => merge_row_present tools threads demultiplex_dir merge_dir
                            vsearch w x Htool)
              (merge_row_absent tools threads demultiplex_dir merge_dir)
              metadata (entered merge_dir w))
    as (w' & Hrun & Hl & Hw & _); [intros d fs x _; apply Hok|done|].
  exists w'. split; [exact Hrun|]. split; [exact Hl|]. split; [exact Hw|].
  intros cutadapt input_dir row. repeat split; reflexivity.
Qed.

Lemma merge_one_command_per_demultiplexed_sample_witness :
  exists w',
    merge {["vsearch" := "/usr/bin/vsearch"]} 4 "/data/out" [sample "A"; sample "B"]
          (machine true [] (list_to_map [("/data/out/1-demultiplex/A.R1.fastq", "@r");
                                         ("/data/out/1-demultiplex/A.R2.fastq", "@r");
                                         ("/data/out/1-demultiplex/B.R2.fastq", "@r")]))
    = Returned tt w'
    /\ launched w' = [merge_cmd "/usr/bin/vsearch" 4 "/data/out/1-demultiplex"
                                "/data/out/2-merge" (sample "A")]
    /\ warnings (log w') = [merge_skip_message (sample "B")].
Proof.
  set (fs := list_to_map [("/data/out/1-demultiplex/A.R1.fastq", "@r");
                          ("/data/out/1-demultiplex/A.R2.fastq", "@r");
                          ("/data/out/1-demultiplex/B.R2.fastq", "@r")]
             : gmap string string).
  assert (({["vsearch" := "/usr/bin/vsearch"]} : gmap string string) !! "vsearch"
          = Some "/usr/bin/vsearch") as Htool by apply lookup_singleton_eq.
  assert (all_exit_ok (machine true [] fs)) as Hok by (intros d cmd fs'; reflexivity).
  assert (inputs_kept (machine true [] fs)
            (merge_inputs (path_join "/data/out" "1-demultiplex"))
            [sample "A"; sample "B"]) as Hkept
    by (intros d cmd fs' row p _ _; reflexivity).
  destruct (merge_one_command_per_demultiplexed_sample
              {["vsearch" := "/usr/bin/vsearch"]} 4 "/data/out" "/usr/bin/vsearch"
              [sample "A"; sample "B"] (machine true [] fs) Htool Hok Hkept)
    as (w' & Hrun & Hl & Hw & _).
  exists w'. split; [exact Hrun|]. split.
  - rewrite Hl. vm_compute. reflexivity.
  - rewrite Hw. vm_compute. reflexivity.
Defined.

Lemma for_each_app {A} (l1 l2 : list A) (body : A -> M unit) w :
  for_each (l1 ++ l2) body w = (for_each l1 body ;; for_each l2 body) w.
Proof.
  revert w. induction l1 as [|x l1 IH]; intros w; [done|].
  cbn [app for_each]. unfold mbind, M_bind.
  destruct (body x w) as [[] w1|e w1|]; [|done|done].
  rewrite IH. reflexivity.
Qed.

(** X12.  A merge command that exits non-zero ends the step, and with
    it the run: the samples before it have been handled as usual, the
    step is left by [CalledProcessError] with an ERROR record as the last
    of the log, and no command is launched and no warning logged for any
    sample after it. *)
Theorem merge_stops_at_first_failure
        (tools : gmap string string) (threads : Z) (output_dir vsearch : string)
        (before : list SampleRow) (row : SampleRow) (after : list SampleRow)
        (w : World) :
  let demultiplex_dir := path_join output_dir "1-demultiplex" in
  let merge_dir := path_join output_dir "2-merge" in
  let cmd := merge_cmd vsearch threads demultiplex_dir merge_dir in
  tools !! "vsearch" = Some vsearch ->
  (forall d fs r, r ∈ before -> exit_ok (spawn w d (cmd r) fs) = true) ->
  (forall d fs, exit_ok (spawn w d (cmd row) fs) = false) ->
  inputs_kept w (merge_inputs demultiplex_dir) (before ++ [row]) ->
  inputs_present (entered merge_dir w) (merge_inputs demultiplex_dir row) = true ->
  exists w',
    merge tools threads output_dir (before ++ row :: after) w
    = Raised (CalledProcessError (cmd row)) w'
    /\ launched w'
       = launched w
         ++ (cmd <$> filter (fun r => inputs_present (entered merge_dir w)
                                       (merge_inputs demultiplex_dir r) = true) before)
         ++ [cmd row]
    /\ warnings (log w')
       = warnings (log w)
         ++ (merge_skip_message
               <$> filter (fun r => inputs_present (entered merge_dir w)
                                      (merge_inputs demultiplex_dir r) = false) before)
    /\ exists text, last (log w') = Some (ERROR, text).
Proof.
  intros demultiplex_dir merge_dir cmd Htool Hok Hfail Hkept Hp.
  unfold merge. fold demultiplex_dir merge_dir.
  unfold mbind at 1, M_bind at 1, makedirs. fold (entered merge_dir w).
  rewrite for_each_app. unfold mbind at 1, M_bind at 1.
  destruct (guarded_loop (merge_row tools threads demultiplex_dir merge_dir)
              (merge_inputs demultiplex_dir) cmd
              (fun row => "合并样本 " +:+ sample_id row +:+ " 的双端测序文件")
              merge_skip_message
              (fun w x => merge_row_present tools threads demultiplex_dir merge_dir
                            vsearch w x Htool)
              (merge_row_absent tools threads demultiplex_dir merge_dir)
              before (entered merge_dir w))
    as (w1 & -> & Hl & Hw & Hc & Hd & Hs & Hi & Hwatch).
  { intros d fs r Hr. by apply Hok. }
  { intros d c fs r p Hr Hin. apply (Hkept d c fs r p); [|done].
    apply elem_of_app. by left. }
  assert (inputs_present w1 (merge_inputs demultiplex_dir row) = true) as Hp1.
  { rewrite Hwatch; [done|]. intros d c fs p Hin.
    apply (Hkept d c fs row p); [|done]. apply elem_of_app. right. by left. }
  cbn [for_each]. unfold mbind at 1, M_bind at 1.
  rewrite (merge_row_present tools threads demultiplex_dir merge_dir vsearch w1 row Htool Hp1).
  rewrite run_command_result. fold cmd. rewrite Hs. cbn [spawn entered with_dirs].
  rewrite Hfail.
  eexists. split; [reflexivity|]. unfold ran. cbn [launched log].
  rewrite Hl, <- app_assoc. split; [done|]. split.
  - rewrite warnings_app, Hw. cbn. by rewrite app_nil_r.
  - eexists.
    match goal with
    | |- last (?l ++ [?a; ?b; ?c]) = _ =>
        change (l ++ [a; b; c]) with (l ++ [a; b] ++ [c]); rewrite app_assoc
    end.
    apply last_snoc.
Qed.

Lemma merge_stops_at_first_failure_witness :
  exists w',
    merge {["vsearch" := "/usr/bin/vsearch"]} 4 "/data/out"
          ([sample "A"] ++ sample "B" :: [sample "C"])
          (with_spawn_status
             (fun cmd => bool_decide (cmd !! 2%nat
                                      ≠ Some "/data/out/1-demultiplex/B.R1.fastq"))
             (machine true [] (list_to_map
                [("/data/out/1-demultiplex/B.R1.fastq", "@r");
                 ("/data/out/1-demultiplex/B.R2.fastq", "@r");
                 ("/data/out/1-demultiplex/C.R1.fastq", "@r");
                 ("/data/out/1-demultiplex/C.R2.fastq", "@r")])))
    = Raised (CalledProcessError
                (merge_cmd "/usr/bin/vsearch" 4 "/data/out/1-demultiplex"
                           "/data/out/2-merge" (sample "B"))) w'
    /\ launched w' = [merge_cmd "/usr/bin/vsearch" 4 "/data/out/1-demultiplex"
                                "/data/out/2-merge" (sample "B")]
    /\ warnings (log w') = [merge_skip_message (sample "A")].
Proof.
  set (fs := list_to_map [("/data/out/1-demultiplex/B.R1.fastq", "@r");
                          ("/data/out/1-demultiplex/B.R2.fastq", "@r");
                          ("/data/out/1-demultiplex/C.R1.fastq", "@r");
                          ("/data/out/1-demultiplex/C.R2.fastq", "@r")]
             : gmap string string).
  set (w := with_spawn_status
              (fun cmd => bool_decide (cmd !! 2%nat
                                       ≠ Some "/data/out/1-demultiplex/B.R1.fastq"))
              (machine true [] fs)).
  assert (({["vsearch" := "/usr/bin/vsearch"]} : gmap string string) !! "vsearch"
          = Some "/usr/bin/vsearch") as Htool by apply lookup_singleton_eq.
  assert (forall d fs' r, r ∈ [sample "A"] ->
            exit_ok (spawn w d (merge_cmd "/usr/bin/vsearch" 4
                                  (path_join "/data/out" "1-demultiplex")
                                  (path_join "/data/out" "2-merge") r) fs') = true) as Hok.
  { intros d fs' r Hr. apply list_elem_of_In in Hr. cbn in Hr.
    destruct Hr as [<-|[]]. vm_compute. reflexivity. }
  assert (forall d fs',
            exit_ok (spawn w d (merge_cmd "/usr/bin/vsearch" 4
                                  (path_join "/data/out" "1-demultiplex")
                                  (path_join "/data/out" "2-merge") (sample "B")) fs')
            = false) as Hfail
    by (intros d fs'; vm_compute; reflexivity).
  assert (inputs_kept w (merge_inputs (path_join "/data/out" "1-demultiplex"))
                      ([sample "A"] ++ [sample "B"])) as Hkept
    by (intros d cmd fs' r p _ _; reflexivity).
  assert (inputs_present (entered (path_join "/data/out" "2-merge") w)
            (merge_inputs (path_join "/data/out" "1-demultiplex") (sample "B")) = true)
    as Hp by (vm_compute; reflexivity).
  destruct (merge_stops_at_first_failure {["vsearch" := "/usr/bin/vsearch"]} 4
              "/data/out" "/usr/bin/vsearch" [sample "A"] (sample "B") [sample "C"] w
              Htool Hok Hfail Hkept Hp) as (w' & Hrun & Hl & Hw & _).
  exists w'. split; [exact Hrun|]. split.
  - rewrite Hl. vm_compute. reflexivity.
  - rewrite Hw. vm_compute. reflexivity.
Defined.

(** ** Step 3: quality filtering *)

Lemma quality_range_sample_present tools threads merge_dir quality_dir
      min_length max_length vsearch w sid :
  tools !! "vsearch" = Some vsearch ->
  inputs_present w [path_join merge_dir (sid +:+ ".merged.fastq")] = true ->
  quality_range_sample tools threads merge_dir quality_dir min_length max_length sid w
  = run_command (range_filter_cmd vsearch threads merge_dir quality_dir
                                  min_length max_length sid)
                ("质量过滤 " +:+ sid) w.
Proof.
  intros Htool. unfold inputs_present. cbn [forallb]. rewrite andb_true_r. intros H.
  unfold quality_range_sample, mbind, M_bind, path_exists. unfold on_disk in H.
  rewrite H. cbn [negb]. unfold tool. by rewrite Htool.
Qed.

Lemma quality_range_sample_absent tools threads merge_dir quality_dir
      min_length max_length w sid :
  inputs_present w [path_join merge_dir (sid +:+ ".merged.fastq")] = false ->
  quality_range_sample tools threads merge_dir quality_dir min_length max_length sid w
  = logging WARNING
      (input_skip_message sid (path_join merge_dir (sid +:+ ".merged.fastq"))) w.
Proof.
  unfold inputs_present. cbn [forallb]. rewrite andb_true_r. intros H.
  unfold quality_range_sample, mbind, M_bind, path_exists. unfold on_disk in H.
  by rewrite H.
Qed.

Lemma get_valid_input_console sentinel validator w value w' :
  get_valid_input sentinel validator w = Returned (Continue value) w' ->
  w' = with_stdin (stdin w') w.
Proof.
  intros (rejected & l & rest & _ & _ & _ & _ & ->)%(get_valid_input_returned
    sentinel validator (stdin w)); done.
Qed.

(** X13.  Step 3 with a length range.  Once the three prompts have
    returned "1", a minimum and a maximum, and as long as every launched
    command exits with status zero, one VSEARCH filter command carrying
    these two bounds is launched, in the order of the metadata, for each
    sample whose merged file exists; each other sample gets one warning
    and the loop goes on. *)
Theorem quality_range_one_command_per_merged_sample
        (sentinel : string) (tools : gmap string string) (threads : Z)
        (output_dir vsearch : string) (metadata : list SampleRow)
        (w w1 w2 w3 : World) (min_length max_length : string) :
  let merge_dir := path_join output_dir "2-merge" in
  let quality_dir := path_join output_dir "3-quality" in
  let input_of := fun sid => [path_join merge_dir (sid +:+ ".merged.fastq")] in
  tools !! "vsearch" = Some vsearch ->
  all_exit_ok w ->
  inputs_kept w input_of (sample_id <$> metadata) ->
  get_valid_input sentinel (Some one_or_two) (entered quality_dir w)
  = Returned (Continue "1") w1 ->
  get_valid_input sentinel (Some positive_integer) w1
  = Returned (Continue min_length) w2 ->
  get_valid_input sentinel (Some (at_least min_length)) w2
  = Returned (Continue max_length) w3 ->
  exists w',
    quality sentinel tools threads output_dir metadata w = Returned (Continue tt) w'
    /\ launched w'
       = launched w
         ++ (range_filter_cmd vsearch threads merge_dir quality_dir min_length max_length
               <$> filter (fun sid => inputs_present (entered quality_dir w)
                                        (input_of sid) = true)
                          (sample_id <$> metadata))
    /\ warnings (log w')
       = warnings (log w)
         ++ ((fun sid => input_skip_message sid
                           (path_join merge_dir (sid +:+ ".merged.fastq")))
               <$> filter (fun sid => inputs_present (entered quality_dir w)
                                        (input_of sid) = false)
                          (sample_id <$> metadata))
    /\ stdin w' = stdin w3.
Proof.
  intros merge_dir quality_dir input_of Htool Hok Hkept H1 H2 H3.
  pose proof (get_valid_input_console _ _ _ _ _ H1) as E1.
  pose proof (get_valid_input_console _ _ _ _ _ H2) as E2.
  pose proof (get_valid_input_console _ _ _ _ _ H3) as E3.
  assert (exists pending, w3 = with_stdin pending (entered quality_dir w))
    as [pending E].
  { exists (stdin w3). rewrite E3 at 1. rewrite E2, E1. reflexivity. }
  clear E1 E2 E3. subst w3.
  destruct (guarded_loop
              (quality_range_sample tools threads merge_dir quality_dir
                                    min_length max_length)
              input_of
              (range_filter_cmd vsearch threads merge_dir quality_dir
                                min_length max_length)
              (fun sid => "质量过滤 " +:+ sid)
              (fun sid => input_skip_message sid
                            (path_join merge_dir (sid +:+ ".merged.fastq")))
              (fun w x => quality_range_sample_present tools threads merge_dir quality_dir
                            min_length max_length vsearch w x Htool)
              (quality_range_sample_absent tools threads merge_dir quality_dir
                                           min_length max_length)
              (sample_id <$> metadata) (with_stdin pending (entered quality_dir w)))
    as (w' & Hrun & Hl & Hw & _ & _ & _ & Hi & _).
  { intros d fs x _. apply Hok. }
  { intros d c fs x p Hx Hp. apply (Hkept d c fs x p Hx Hp). }
  exists w'. split.
  - unfold quality. fold merge_dir quality_dir.
    unfold mbind at 1, P_bind at 1, mbind at 1, M_bind at 1, lift at 1, mbind at 1,
      M_bind at 1, makedirs. fold (entered quality_dir w).
    cbn [mret M_ret].
    unfold mbind at 1, P_bind at 1, mbind at 1, M_bind at 1. rewrite H1.
    cbn [String.eqb Ascii.eqb Bool.eqb].
    unfold mbind at 1, P_bind at 1, mbind at 1, M_bind at 1. rewrite H2.
    unfold mbind at 1, P_bind at 1, mbind at 1, M_bind at 1. rewrite H3.
    unfold lift, mbind, M_bind. rewrite Hrun. reflexivity.
  - rewrite Hl, Hw, Hi. done.
Qed.

Lemma quality_range_one_command_per_merged_sample_witness :
  exists w',
    quality "exit" {["vsearch" := "/usr/bin/vsearch"]} 4 "/data/out"
            [sample "A"; sample "B"]
            (machine true ["1"; "200"; "400"]
                     {["/data/out/2-merge/A.merged.fastq" := "@r"]})
    = Returned (Continue tt) w'
    /\ launched w' = [range_filter_cmd "/usr/bin/vsearch" 4 "/data/out/2-merge"
                                       "/data/out/3-quality" "200" "400" "A"]
    /\ warnings (log w')
       = [input_skip_message "B" "/data/out/2-merge/B.merged.fastq"].
Proof.
  set (w := machine true ["1"; "200"; "400"]
                    {["/data/out/2-merge/A.merged.fastq" := "@r"]}).
  set (w0 := entered (path_join "/data/out" "3-quality") w).
  assert (({["vsearch" := "/usr/bin/vsearch"]} : gmap string string) !! "vsearch"
          = Some "/usr/bin/vsearch") as Htool by apply lookup_singleton_eq.
  assert (all_exit_ok w) as Hok by (intros d cmd fs'; reflexivity).
  assert (inputs_kept w
            (fun sid => [path_join (path_join "/data/out" "2-merge")
                                   (sid +:+ ".merged.fastq")])
            (sample_id <$> [sample "A"; sample "B"])) as Hkept
    by (intros d cmd fs' row p _ _; reflexivity).
  assert (get_valid_input "exit" (Some one_or_two) w0
          = Returned (Continue "1") (with_stdin ["200"; "400"] w0)) as H1
    by (vm_compute; reflexivity).
  assert (get_valid_input "exit" (Some positive_integer) (with_stdin ["200"; "400"] w0)
          = Returned (Continue "200") (with_stdin ["400"] w0)) as H2
    by (vm_compute; reflexivity).
  assert (get_valid_input "exit" (Some (at_least "200")) (with_stdin ["400"] w0)
          = Returned (Continue "400") (with_stdin [] w0)) as H3
    by (vm_compute; reflexivity).
  destruct (quality_range_one_command_per_merged_sample "exit"
              {["vsearch" := "/usr/bin/vsearch"]} 4 "/data/out" "/usr/bin/vsearch"
              [sample "A"; sample "B"] w _ _ _ "200" "400" Htool Hok Hkept H1 H2 H3)
    as (w' & Hrun & Hl & Hw & _).
  exists w'. split; [exact Hrun|]. split.
  - rewrite Hl. vm_compute. reflexivity.
  - rewrite Hw. vm_compute. reflexivity.
Defined.

Lemma bind_returned {A B} (m : M A) (k : A -> M B) w b w' :
  (a ← m; k a) w = Returned b w' ->
  exists a w1, m w = Returned a w1 /\ k a w1 = Returned b w'.
Proof.
  unfold mbind, M_bind. destruct (m w) as [a w1| |]; [|done|done].
  intros H. by exists a, w1.
Qed.

Lemma for_each_returned_cwd {A} (body : A -> M unit) l w w' :
  (forall x v v', body x v = Returned tt v' -> cwd v' = cwd v) ->
  for_each l body w = Returned tt w' -> cwd w' = cwd w.
Proof.
  intros Hbody. revert w. induction l as [|x l IH]; intros w.
  - by intros [= <-].
  - cbn [for_each]. intros ([] & w1 & H1 & H2)%bind_returned.
    rewrite (IH _ H2). by eapply Hbody.
Qed.

Lemma append_text_result p t w :
  exists w', append_text p t w = Returned tt w'
             /\ cwd w' = cwd w /\ spawn w' = spawn w /\ dirs w' = dirs w
             /\ stdin w' = stdin w /\ log w' = log w /\ launched w' = launched w
             /\ dom (files w') = dom (files w).
Proof.
  unfold append_text. destruct (files w !! resolve p w) as [old|] eqn:E.
  - eexists. split; [reflexivity|]. repeat split.
    cbn [files with_files]. rewrite dom_insert_L.
    apply elem_of_dom_2 in E. apply set_eq. intros q.
    rewrite elem_of_union, elem_of_singleton. intuition congruence.
  - exists w. by repeat split.
Qed.

Lemma subprocess_run_to_cwd cmd out w w' :
  subprocess_run_to cmd out w = Returned tt w' -> cwd w' = cwd w.
Proof.
  unfold subprocess_run_to.
  intros (c & w1 & H1 & H2)%bind_returned.
  unfold subprocess_run in H1. injection H1 as <- <-.
  apply bind_returned in H2 as ([] & w2 & H2 & H3).
  destruct (append_text_result out (proc_stdout (spawn w (cwd w) cmd (files w)))
              (with_files (files_after (spawn w (cwd w) cmd (files w)))
                 (with_launched (launched w ++ [cmd]) w)))
    as (w2' & E & Hc & _).
  rewrite E in H2. injection H2 as ->.
  destruct (exit_ok _); [|done]. injection H3 as <-. rewrite Hc. reflexivity.
Qed.

(** X14.  Step 3 with fixed lengths, one sample whose merged file
    exists: when the sample is done, its temporary file is no longer a
    file on disk, and the working directory is the one before. *)
Theorem fixed_length_temp_file_removed
        (tools : gmap string string) (threads : Z) (merge_dir quality_dir : string)
        (lengths : list string) (sid : string) (w w' : World) :
  inputs_present w [path_join merge_dir (sid +:+ ".merged.fastq")] = true ->
  quality_fixed_sample tools threads merge_dir quality_dir lengths sid w
  = Returned tt w' ->
  files w' !! resolve (path_join quality_dir (sid +:+ ".temp.fastq")) w' = None
  /\ cwd w' = cwd w.
Proof.
  unfold inputs_present. cbn [forallb]. rewrite andb_true_r. intros Hp.
  unfold quality_fixed_sample.
  intros (present & w0 & H0 & H)%bind_returned.
  unfold path_exists in H0. injection H0 as <- <-.
  unfold on_disk in Hp. rewrite Hp in H. cbn [negb] in H.
  apply bind_returned in H as ([] & w1 & H1 & H).
  apply bind_returned in H as ([] & w2 & H2 & H).
  apply bind_returned in H as (vsearch & w3 & H3 & H).
  apply bind_returned in H as ([] & w4 & H4 & H).
  unfold open_w, write_text in H1. injection H1 as <-.
  assert (cwd w2 = cwd w) as C2.
  { erewrite for_each_returned_cwd; [| |exact H2]; [reflexivity|].
    intros x v v' Hx. apply bind_returned in Hx as (s & v1 & Ht & Hx).
    unfold tool in Ht. destruct (tools !! "seqkit"); [|done].
    injection Ht as <- <-. by eapply subprocess_run_to_cwd. }
  assert (w3 = w2) as ->.
  { unfold tool in H3. destruct (tools !! "vsearch"); [|done]. by injection H3. }
  assert (cwd w4 = cwd w2) as C4.
  { rewrite run_command_result in H4.
    destruct (exit_ok _); [|done]. by injection H4 as <-. }
  unfold remove in H.
  destruct (files w4 !! _) as [t|] eqn:E; [|done]. injection H as <-.
  cbn [files cwd with_files]. split; [|congruence].
  unfold resolve. cbn [cwd with_files]. apply lookup_delete_eq.
Qed.

Lemma fixed_length_temp_file_removed_witness :
  exists w',
    quality_fixed_sample {["vsearch" := "/usr/bin/vsearch"; "seqkit" := "/usr/bin/seqkit"]}
                         4 "/data/out/2-merge" "/data/out/3-quality" ["253"; "254"] "A"
                         (machine true [] {["/data/out/2-merge/A.merged.fastq" := "@r"]})
    = Returned tt w'
    /\ files w' !! resolve (path_join "/data/out/3-quality" ("A" +:+ ".temp.fastq")) w'
       = None.
Proof.
  set (w := machine true [] {["/data/out/2-merge/A.merged.fastq" := "@r"]}).
  set (tools := {["vsearch" := "/usr/bin/vsearch"; "seqkit" := "/usr/bin/seqkit"]}
                : gmap string string).
  assert (inputs_present w [path_join "/data/out/2-merge" ("A" +:+ ".merged.fastq")]
          = true) as Hp by (vm_compute; reflexivity).
  assert (exists w', quality_fixed_sample tools 4 "/data/out/2-merge" "/data/out/3-quality"
                       ["253"; "254"] "A" w = Returned tt w') as [w' Hrun]
    by (eexists; vm_compute; reflexivity).
  exists w'. split; [exact Hrun|].
  exact (proj1 (fixed_length_temp_file_removed tools 4 "/data/out/2-merge"
                  "/data/out/3-quality" ["253"; "254"] "A" w w' Hp Hrun)).
Defined.

Section FixedLengths.
Variables (tools : gmap string string) (threads : Z) (seqkit input temp : string)
          (w0 : World).
Hypothesis Hseqkit : tools !! "seqkit" = Some seqkit.
Hypothesis Hkeep : forall d cmd fs,
  resolve temp w0 ∈ dom fs -> resolve temp w0 ∈ dom (files_after (spawn w0 d cmd fs)).
Hypothesis Hok : forall d fs length,
  exit_ok (spawn w0 d (seqkit_cmd seqkit threads length input) fs) = true.

Lemma seqkit_step length v :
  cwd v = cwd w0 -> spawn v = spawn w0 ->
  resolve temp w0 ∈ dom (files v) ->
  exists v',
    (seqkit ← tool tools "seqkit";
     subprocess_run_to (seqkit_cmd seqkit threads length input) temp) v
    = Returned tt v'
    /\ cwd v' = cwd w0 /\ spawn v' = spawn w0
    /\ resolve temp w0 ∈ dom (files v')
    /\ launched v' = launched v ++ [seqkit_cmd seqkit threads length input]
    /\ log v' = log v.
Proof.
  intros Hc Hs Hin.
  unfold mbind, M_bind, tool. rewrite Hseqkit. cbn [mret M_ret].
  unfold subprocess_run_to, mbind, M_bind, subprocess_run.
  set (c := spawn v (cwd v) (seqkit_cmd seqkit threads length input) (files v)).
  set (v1 := with_files (files_after c)
               (with_launched (launched v ++ [seqkit_cmd seqkit threads length input]) v)).
  destruct (append_text_result temp (proc_stdout c) v1)
    as (v2 & -> & Hc2 & Hs2 & _ & _ & Hl2 & Hla2 & Hd2).
  assert (exit_ok c = true) as -> by (unfold c; rewrite Hs; apply Hok).
  exists v2. split; [done|]. split; [by rewrite Hc2|]. split; [by rewrite Hs2|].
  split; [|by rewrite Hla2, Hl2].
  rewrite Hd2. unfold v1, c. cbn [files with_files]. rewrite Hs. by apply Hkeep.
Qed.

Variable body : string -> M unit.
Hypothesis Hbody : forall length v,
  body length v
  = (seqkit ← tool tools "seqkit";
     subprocess_run_to (seqkit_cmd seqkit threads length input) temp) v.

Lemma seqkit_loop lengths v :
  cwd v = cwd w0 -> spawn v = spawn w0 ->
  resolve temp w0 ∈ dom (files v) ->
  exists v',
    for_each lengths body v = Returned tt v'
    /\ cwd v' = cwd w0 /\ spawn v' = spawn w0
    /\ resolve temp w0 ∈ dom (files v')
    /\ launched v'
       = launched v ++ ((fun length => seqkit_cmd seqkit threads length input) <$> lengths)
    /\ log v' = log v.
Proof.
  revert v. induction lengths as [|length lengths IH]; intros v Hc Hs Hin.
  - exists v. cbn. by rewrite app_nil_r.
  - cbn [for_each]. unfold mbind, M_bind. rewrite Hbody.
    destruct (seqkit_step length v Hc Hs Hin) as (v2 & -> & Hc2 & Hs2 & Hin2 & Hla2 & Hl2).
    destruct (IH v2 Hc2 Hs2 Hin2) as (v' & -> & Hc' & Hs' & Hin' & Hla' & Hl').
    exists v'. split; [done|]. split; [done|]. split; [done|]. split; [done|].
    rewrite Hla', Hl', Hla2, Hl2. by rewrite fmap_cons, <- app_assoc.
Qed.

End FixedLengths.

(** X15.  Step 3 with fixed lengths, one sample whose merged file
    exists: when the extraction commands succeed and the VSEARCH filter
    exits non-zero, the sample ends with [CalledProcessError] after one
    extraction command per length and the filter command, and, no
    program having removed it, the temporary file is left on disk: it is
    removed only after a filter that succeeded. *)
Theorem fixed_length_failure_leaves_temp_file
        (tools : gmap string string) (threads : Z) (merge_dir quality_dir : string)
        (lengths : list string) (sid seqkit vsearch : string) (w : World) :
  let input := path_join merge_dir (sid +:+ ".merged.fastq") in
  let temp := path_join quality_dir (sid +:+ ".temp.fastq") in
  tools !! "seqkit" = Some seqkit ->
  tools !! "vsearch" = Some vsearch ->
  inputs_present w [input] = true ->
  (forall d cmd fs,
     resolve temp w ∈ dom fs -> resolve temp w ∈ dom (files_after (spawn w d cmd fs))) ->
  (forall d fs length,
     exit_ok (spawn w d (seqkit_cmd seqkit threads length input) fs) = true) ->
  (forall d fs,
     exit_ok (spawn w d (fixed_filter_cmd vsearch threads quality_dir sid) fs) = false) ->
  exists w',
    quality_fixed_sample tools threads merge_dir quality_dir lengths sid w
    = Raised (CalledProcessError (fixed_filter_cmd vsearch threads quality_dir sid)) w'
    /\ resolve temp w' ∈ dom (files w')
    /\ launched w'
       = launched w
         ++ ((fun length => seqkit_cmd seqkit threads length input) <$> lengths)
         ++ [fixed_filter_cmd vsearch threads quality_dir sid].
Proof.
  intros input temp Hseqkit Hvsearch Hp Hkeep Hok Hfail.
  unfold inputs_present in Hp. cbn [forallb] in Hp. rewrite andb_true_r in Hp.
  unfold quality_fixed_sample. fold input temp.
  match goal with |- context [for_each lengths ?b] => set (body := b) end.
  unfold mbind at 1, M_bind at 1, path_exists. unfold on_disk in Hp. rewrite Hp.
  cbn [negb].
  unfold mbind at 1, M_bind at 1, open_w, write_text.
  set (w1 := with_files (<[resolve temp w := EmptyString]> (files w)) w).
  destruct (seqkit_loop tools threads seqkit input temp w Hseqkit Hkeep Hok body
              (fun length v => eq_refl) lengths w1)
    as (w2 & Hrun & Hc & Hs & Hin & Hla & Hl); [done|done| |].
  { unfold w1. cbn [files with_files]. rewrite dom_insert. set_unfold. by left. }
  unfold mbind at 1, M_bind at 1. rewrite Hrun.
  unfold mbind at 1, M_bind at 1, tool at 1. rewrite Hvsearch. cbn [mret M_ret].
  unfold mbind at 1, M_bind at 1. rewrite run_command_result.
  rewrite Hs, Hfail.
  eexists. split; [reflexivity|]. split.
  - unfold ran, resolve. cbn [files cwd]. rewrite Hs, Hc. by apply Hkeep.
  - unfold ran. cbn [launched]. rewrite Hla. unfold w1. cbn [launched with_files].
    by rewrite <- app_assoc.
Qed.

Lemma fixed_length_failure_leaves_temp_file_witness :
  exists w',
    quality_fixed_sample {["vsearch" := "/usr/bin/vsearch"; "seqkit" := "/usr/bin/seqkit"]}
                         4 "/data/out/2-merge" "/data/out/3-quality" ["253"] "A"
                         (with_spawn_status
                            (fun cmd => bool_decide (cmd !! 1%nat = Some "seq"))
                            (machine true [] {["/data/out/2-merge/A.merged.fastq" := "@r"]}))
    = Raised (CalledProcessError
                (fixed_filter_cmd "/usr/bin/vsearch" 4 "/data/out/3-quality" "A")) w'
    /\ resolve (path_join "/data/out/3-quality" ("A" +:+ ".temp.fastq")) w'
       ∈ dom (files w').
Proof.
  set (w := with_spawn_status (fun cmd => bool_decide (cmd !! 1%nat = Some "seq"))
              (machine true [] {["/data/out/2-merge/A.merged.fastq" := "@r"]})).
  set (tools := {["vsearch" := "/usr/bin/vsearch"; "seqkit" := "/usr/bin/seqkit"]}
                : gmap string string).
  assert (tools !! "seqkit" = Some "/usr/bin/seqkit") as H1 by (vm_compute; reflexivity).
  assert (tools !! "vsearch" = Some "/usr/bin/vsearch") as H2 by (vm_compute; reflexivity).
  assert (inputs_present w [path_join "/data/out/2-merge" ("A" +:+ ".merged.fastq")]
          = true) as Hp by (vm_compute; reflexivity).
  destruct (fixed_length_failure_leaves_temp_file tools 4 "/data/out/2-merge"
              "/data/out/3-quality" ["253"] "A" "/usr/bin/seqkit" "/usr/bin/vsearch" w
              H1 H2 Hp (fun d cmd fs H => H) (fun d fs length => eq_refl)
              (fun d fs => eq_refl)) as (w' & Hrun & Hin & _).
  exists w'. split; [exact Hrun|exact Hin].
Defined.

(** ** Step 4: dereplication *)

Section Dereplicate.
Variables (tools : gmap string string) (threads : Z) (output_dir vsearch : string)
          (out : string -> string) (ids : list string) (w0 : World).
Hypothesis Htool : tools !! "vsearch" = Some vsearch.
Hypothesis Hok : all_exit_ok w0.
Hypothesis Hkept : inputs_kept w0 (fun sid => [filtered_file output_dir sid]) ids.
Hypothesis Hall : forall d cmd fs,
  files_after (spawn w0 d cmd fs) !! resolve (all_derep_file output_dir) w0
  = fs !! resolve (all_derep_file output_dir) w0.
Hypothesis Hout : forall d fs sid,
  sid ∈ ids ->
  files_after (spawn w0 d (derep_cmd vsearch threads (path_join output_dir "3-quality")
                                     (path_join output_dir "4-dereplicate") sid) fs)
  !! resolve (derep_file output_dir sid) w0
  = Some (out sid).

Lemma dereplicate_sample_present sid v acc :
  sid ∈ ids ->
  cwd v = cwd w0 -> spawn v = spawn w0 ->
  files v !! resolve (all_derep_file output_dir) w0 = Some acc ->
  inputs_present v [filtered_file output_dir sid] = true ->
  exists v',
    dereplicate_sample tools threads (path_join output_dir "3-quality")
      (path_join output_dir "4-dereplicate") (all_derep_file output_dir) sid v
    = Returned tt v'
    /\ cwd v' = cwd w0 /\ spawn v' = spawn w0
    /\ files v' !! resolve (all_derep_file output_dir) w0
       = Some (acc +:+ universal_newlines (out sid))
    /\ launched v'
       = launched v ++ [derep_cmd vsearch threads (path_join output_dir "3-quality")
                                  (path_join output_dir "4-dereplicate") sid]
    /\ warnings (log v') = warnings (log v)
    /\ forall y, y ∈ ids ->
         inputs_present v' [filtered_file output_dir y]
         = inputs_present v [filtered_file output_dir y].
Proof.
  intros Hsid Hc Hs Hacc Hp.
  unfold inputs_present in Hp. cbn [forallb] in Hp. rewrite andb_true_r in Hp.
  unfold on_disk, filtered_file in Hp.
  unfold dereplicate_sample, mbind, M_bind, path_exists. rewrite Hp. cbn [negb].
  unfold tool. rewrite Htool. cbn [mret M_ret].
  rewrite run_command_result.
  set (cmd := derep_cmd vsearch threads (path_join output_dir "3-quality")
                        (path_join output_dir "4-dereplicate") sid).
  assert (exit_ok (spawn v (cwd v) cmd (files v)) = true) as ->
    by (rewrite Hs; apply Hok).
  unfold read_text, ran, resolve. cbn [files cwd].
  pose proof (Hout (cwd w0) (files v) sid Hsid) as Ho.
  unfold derep_file, resolve in Ho. fold cmd in Ho. rewrite Hs, Hc, Ho.
  unfold append_text, resolve. cbn [files cwd].
  pose proof (Hall (cwd w0) cmd (files v)) as Ha. unfold resolve in Ha.
  rewrite ?Hc, Ha. unfold resolve in Hacc. rewrite Hacc.
  eexists. split; [reflexivity|].
  cbn [cwd spawn files launched log dirs with_files].
  split; [done|]. split; [done|]. split; [by rewrite lookup_insert_eq|].
  split; [done|]. split.
  { rewrite warnings_app. cbn. by rewrite app_nil_r. }
  intros y Hy. apply inputs_present_stable; [done|done|].
  intros p [->|[]%elem_of_nil]%elem_of_cons.
  cbn [files with_files]. rewrite dom_insert.
  assert (path_join (cwd w0) (all_derep_file output_dir)
          ∈ dom (files_after (spawn w0 (cwd w0) cmd (files v)))) as Hin.
  { apply elem_of_dom. rewrite Ha, Hacc. by eexists. }
  pose proof (Hkept (cwd w0) cmd (files v) y (filtered_file output_dir y) Hy
                ltac:(left)) as Hk.
  unfold resolve in *. rewrite Hc. rewrite <- Hk.
  rewrite elem_of_union, elem_of_singleton. split; [|by right].
  intros [->|H]; done.
Qed.

Lemma dereplicate_sample_absent sid v :
  inputs_present v [filtered_file output_dir sid] = false ->
  dereplicate_sample tools threads (path_join output_dir "3-quality")
    (path_join output_dir "4-dereplicate") (all_derep_file output_dir) sid v
  = logging WARNING (input_skip_message sid (filtered_file output_dir sid)) v.
Proof.
  unfold inputs_present. cbn [forallb]. rewrite andb_true_r. intros H.
  unfold dereplicate_sample, mbind, M_bind, path_exists. unfold on_disk, filtered_file in H.
  by rewrite H.
Qed.

Lemma dereplicate_loop l v acc :
  (forall sid, sid ∈ l -> sid ∈ ids) ->
  cwd v = cwd w0 -> spawn v = spawn w0 ->
  files v !! resolve (all_derep_file output_dir) w0 = Some acc ->
  exists v',
    for_each l (dereplicate_sample tools threads (path_join output_dir "3-quality")
                  (path_join output_dir "4-dereplicate") (all_derep_file output_dir)) v
    = Returned tt v'
    /\ files v' !! resolve (all_derep_file output_dir) w0
       = Some (acc +:+ concat ((fun sid => universal_newlines (out sid))
                                 <$> filter (fun sid =>
                 inputs_present v [filtered_file output_dir sid] = true) l))
    /\ launched v'
       = launched v
         ++ (derep_cmd vsearch threads (path_join output_dir "3-quality")
                       (path_join output_dir "4-dereplicate")
               <$> filter (fun sid =>
                     inputs_present v [filtered_file output_dir sid] = true) l)
    /\ warnings (log v')
       = warnings (log v)
         ++ ((fun sid => input_skip_message sid (filtered_file output_dir sid))
               <$> filter (fun sid =>
                     inputs_present v [filtered_file output_dir sid] = false) l).
Proof.
  revert v acc. induction l as [|sid l IH]; intros v acc Hsub Hc Hs Hacc.
  - exists v. cbn. by rewrite !app_nil_r, app_str_nil_r.
  - cbn [for_each]. unfold mbind, M_bind.
    destruct (inputs_present v [filtered_file output_dir sid]) eqn:Hp.
    + destruct (dereplicate_sample_present sid v acc) as
        (v1 & -> & Hc1 & Hs1 & Hacc1 & Hla1 & Hw1 & Hsame);
        [apply Hsub; left|done|done|done|done|].
      destruct (IH v1 (acc +:+ universal_newlines (out sid)))
        as (v' & -> & Hacc' & Hla' & Hw');
        [intros y Hy; apply Hsub; by right|done|done|done|].
      exists v'. split; [done|].
      rewrite Hacc', Hla', Hw', Hla1, Hw1.
      rewrite !filter_cons, Hp.
      rewrite decide_True by done. rewrite decide_False by done.
      rewrite (filter_ext_elem
                 (fun y => inputs_present v1 [filtered_file output_dir y] = true)
                 (fun y => inputs_present v [filtered_file output_dir y] = true) l)
        by (intros y Hy; rewrite Hsame; [done|apply Hsub; by right]).
      rewrite (filter_ext_elem
                 (fun y => inputs_present v1 [filtered_file output_dir y] = false)
                 (fun y => inputs_present v [filtered_file output_dir y] = false) l)
        by (intros y Hy; rewrite Hsame; [done|apply Hsub; by right]).
      rewrite !fmap_cons. cbn [concat]. rewrite app_str_assoc, <- app_assoc. done.
    + rewrite (dereplicate_sample_absent sid v Hp). unfold logging.
      set (v1 := with_log (log v ++ [(WARNING, _)]) v).
      destruct (IH v1 acc) as (v' & -> & Hacc' & Hla' & Hw');
        [intros y Hy; apply Hsub; by right|done|done|done|].
      exists v'. split; [done|].
      rewrite Hacc', Hla', Hw'. unfold v1. cbn [launched log with_log].
      rewrite warnings_app. cbn [warnings List.filter is_warning fst fmap list_fmap snd].
      rewrite !filter_cons, Hp.
      rewrite decide_False by done. rewrite decide_True by done.
      rewrite fmap_cons, <- app_assoc. done.
Qed.

End Dereplicate.

(** X16.  Step 4, as long as every launched command exits with status
    zero and the dereplication of a sample leaves the text [out sid]
    in the file of the sample and the cumulative file alone: the step
    launches one command, in the order of the metadata, for each sample
    whose filtered file exists, logs one warning for each other sample,
    and leaves in [all_samples_derep.fasta] the texts of the processed
    samples, as reading in text mode yields them, concatenated in that
    order, and an empty file when no sample was processed. *)
Theorem dereplicate_concatenates_in_order
        (tools : gmap string string) (threads : Z) (output_dir vsearch : string)
        (out : string -> string) (metadata : list SampleRow) (w : World) :
  let quality_dir := path_join output_dir "3-quality" in
  let dereplicate_dir := path_join output_dir "4-dereplicate" in
  let ids := sample_id <$> metadata in
  let processed :=
    filter (fun sid => inputs_present (derep_entry output_dir w)
                         [filtered_file output_dir sid] = true) ids in
  tools !! "vsearch" = Some vsearch ->
  all_exit_ok w ->
  inputs_kept w (fun sid => [filtered_file output_dir sid]) ids ->
  (forall d cmd fs,
     files_after (spawn w d cmd fs) !! resolve (all_derep_file output_dir) w
     = fs !! resolve (all_derep_file output_dir) w) ->
  (forall d fs sid,
     sid ∈ ids ->
     files_after (spawn w d (derep_cmd vsearch threads quality_dir dereplicate_dir sid) fs)
     !! resolve (derep_file output_dir sid) w
     = Some (out sid)) ->
  exists w',
    dereplicate tools threads output_dir metadata w = Returned tt w'
    /\ files w' !! resolve (all_derep_file output_dir) w
       = Some (concat ((fun sid => universal_newlines (out sid)) <$> processed))
    /\ launched w'
       = launched w ++ (derep_cmd vsearch threads quality_dir dereplicate_dir <$> processed)
    /\ warnings (log w')
       = warnings (log w)
         ++ ((fun sid => input_skip_message sid (filtered_file output_dir sid))
               <$> filter (fun sid => inputs_present (derep_entry output_dir w)
                                        [filtered_file output_dir sid] = false) ids).
Proof.
  intros quality_dir dereplicate_dir ids processed Htool Hok Hkept Hall Hout.
  unfold dereplicate, mbind, M_bind, makedirs, open_w, write_text.
  fold quality_dir dereplicate_dir ids.
  destruct (dereplicate_loop tools threads output_dir vsearch out ids w
              Htool Hok Hkept Hall Hout ids (derep_entry output_dir w) EmptyString)
    as (w' & Hrun & Hacc & Hla & Hw); [done|done|done| |].
  { unfold derep_entry. cbn [files with_files]. apply lookup_insert_eq. }
  exists w'. split; [exact Hrun|]. split; [exact Hacc|]. split; [exact Hla|exact Hw].
Qed.

Lemma dereplicate_concatenates_in_order_witness :
  exists w',
    dereplicate {["vsearch" := "/usr/bin/vsearch"]} 4 "/data/out"
                [sample "A"; sample "B"; sample "C"]
                (derep_machine [] (list_to_map
                   [("/data/out/3-quality/A.filtered.fasta", ">a");
                    ("/data/out/3-quality/C.filtered.fasta", ">c")]))
    = Returned tt w'
    /\ files w' !! "/data/out/4-dereplicate/all_samples_derep.fasta"
       = Some (derep_text "A." +:+ derep_text "C.")
    /\ warnings (log w')
       = [input_skip_message "B" "/data/out/3-quality/B.filtered.fasta"].
Proof.
  set (fs := list_to_map [("/data/out/3-quality/A.filtered.fasta", ">a");
                          ("/data/out/3-quality/C.filtered.fasta", ">c")]
             : gmap string string).
  set (w := derep_machine [] fs).
  assert (({["vsearch" := "/usr/bin/vsearch"]} : gmap string string) !! "vsearch"
          = Some "/usr/bin/vsearch") as Htool by apply lookup_singleton_eq.
  assert (all_exit_ok w) as Hok by (intros d cmd fs'; reflexivity).
  assert (forall (p : string) d cmd fs',
            endswith ".derep.fasta" p = false ->
            files_after (spawn w d cmd fs') !! p = fs' !! p) as Hother.
  { intros p d cmd fs' Hp. cbn [spawn w derep_machine files_after].
    destruct (cmd !! 1%nat) as [a|]; [|done].
    destruct (String.eqb_spec a "--derep_fulllength") as [->|Hne].
    - destruct (cmd !! 6%nat) as [o|]; [|done].
      destruct (cmd !! 9%nat) as [lb|]; [|done].
      destruct (endswith ".derep.fasta" o) eqn:E; [|done].
      apply lookup_insert_ne. intros ->. congruence.
    - repeat (destruct a as [|[[] [] [] [] [] [] [] []] a]; try done). }
  assert (inputs_kept w (fun sid => [filtered_file "/data/out" sid])
                      (sample_id <$> [sample "A"; sample "B"; sample "C"])) as Hkept.
  { intros d cmd fs' sid p Hsid [->|[]%elem_of_nil]%elem_of_cons.
    rewrite !elem_of_dom.
    rewrite (Hother (resolve (filtered_file "/data/out" sid) w) d cmd fs'); [done|].
    apply list_elem_of_In in Hsid. cbn in Hsid.
    destruct Hsid as [<-|[<-|[<-|[]]]]; vm_compute; reflexivity. }
  assert (forall d cmd fs',
            files_after (spawn w d cmd fs') !! resolve (all_derep_file "/data/out") w
            = fs' !! resolve (all_derep_file "/data/out") w) as Hall.
  { intros d cmd fs'. apply Hother. vm_compute. reflexivity. }
  assert (forall d fs' sid,
            sid ∈ sample_id <$> [sample "A"; sample "B"; sample "C"] ->
            files_after (spawn w d (derep_cmd "/usr/bin/vsearch" 4
                                      (path_join "/data/out" "3-quality")
                                      (path_join "/data/out" "4-dereplicate") sid) fs')
            !! resolve (derep_file "/data/out" sid) w
            = Some (derep_text (sid +:+ "."))) as Hout.
  { intros d fs' sid Hsid. apply list_elem_of_In in Hsid. cbn in Hsid.
    destruct Hsid as [<-|[<-|[<-|[]]]].
    - exact (lookup_insert_eq fs' "/data/out/4-dereplicate/A.derep.fasta"
               (derep_text "A.")).
    - exact (lookup_insert_eq fs' "/data/out/4-dereplicate/B.derep.fasta"
               (derep_text "B.")).
    - exact (lookup_insert_eq fs' "/data/out/4-dereplicate/C.derep.fasta"
               (derep_text "C.")). }
  destruct (dereplicate_concatenates_in_order
              {["vsearch" := "/usr/bin/vsearch"]} 4 "/data/out" "/usr/bin/vsearch"
              (fun sid => derep_text (sid +:+ "."))
              [sample "A"; sample "B"; sample "C"] w Htool Hok Hkept Hall Hout)
    as (w' & Hrun & Hacc & _ & Hw).
  exists w'. split; [exact Hrun|]. split.
  - vm_compute in Hacc. vm_compute. exact Hacc.
  - rewrite Hw. vm_compute. reflexivity.
Defined.

(** ** Steps 6 and 8, and the end of the script *)

Lemma P_bind_eq {A B} (k : A -> P B) (m : P A) w :
  P_bind A B k m w
  = match m w with
    | Returned (Continue a) w1 => k a w1
    | Returned (Unwind sg) w1 => Returned (Unwind sg) w1
    | Raised e w1 => Raised e w1
    | Diverged => Diverged
    end.
Proof.
  unfold P_bind, mbind, M_bind. destruct (m w) as [[a|sg] w1| |]; reflexivity.
Qed.

Lemma lift_eq {A} (m : M A) w :
  lift m w
  = match m w with
    | Returned a w1 => Returned (Continue a) w1
    | Raised e w1 => Raised e w1
    | Diverged => Diverged
    end.
Proof. unfold lift, mbind, M_bind. destruct (m w); reflexivity. Qed.

(** X17.  Step 6 always ends, and launches at most one command: none
    when a prompt ended the step, the de novo detection, or the
    reference-based detection.  The database path handed to the latter
    after [--db] is the last line read from the console, without the
    white space around it, and it was on disk when it was asked for. *)
Theorem chimera_reference_exists
        (sentinel : string) (tools : gmap string string) (threads : Z)
        (output_dir vsearch : string) (w : World) :
  let otu_file := path_join (path_join output_dir "5-cluster") "otus.fasta" in
  let chimera_dir := path_join output_dir "6-chimera" in
  let nochim_file := path_join chimera_dir "otus_nochim.fasta" in
  tools !! "vsearch" = Some vsearch ->
  exists w',
    final_world (chimera sentinel tools threads output_dir w) = Some w'
    /\ (launched w' = launched w
        \/ launched w' = launched w ++ [denovo_cmd vsearch threads otu_file nochim_file]
        \/ exists ref_db before l,
             stdin w = before ++ l :: stdin w'
             /\ ref_db = strip l
             /\ strip ref_db = ref_db
             /\ on_disk (entered chimera_dir w) ref_db = true
             /\ uchime_ref_cmd vsearch threads otu_file ref_db nochim_file !! 3%nat
                = Some "--db"
             /\ uchime_ref_cmd vsearch threads otu_file ref_db nochim_file !! 4%nat
                = Some ref_db
             /\ launched w'
                = launched w ++ [uchime_ref_cmd vsearch threads otu_file ref_db nochim_file]).
Proof.
  intros otu_file chimera_dir nochim_file Htool.
  unfold chimera. fold otu_file chimera_dir nochim_file.
  unfold mbind at 1. rewrite P_bind_eq, lift_eq. unfold makedirs at 1.
  fold (entered chimera_dir w). unfold mbind at 1. rewrite P_bind_eq.
  destruct (get_valid_input_outcome sentinel (Some one_or_two) _ (entered chimera_dir w)
              eq_refl) as (p1 & [->|[[sg ->]|(m & -> & _ & _ & _ & b1 & l1 & Hin1 & _)]]).
  { eexists. split; [reflexivity|]. by left. }
  { eexists. split; [reflexivity|]. by left. }
  destruct (String.eqb m "1").
  - rewrite lift_eq. unfold mbind, M_bind, tool. rewrite Htool. cbn [mret M_ret].
    rewrite run_command_result.
    destruct (exit_ok _); (eexists; split; [reflexivity|]); right; left; reflexivity.
  - unfold mbind at 1. rewrite P_bind_eq.
    destruct (get_valid_input_outcome sentinel (Some path_exists_validator) _
                (with_stdin p1 (entered chimera_dir w)) eq_refl)
      as (p2 & [->|[[sg ->]|(db & -> & Hacc & _ & Hstrip & b2 & l2 & Hin2 & Hdb)]]).
    { eexists. split; [reflexivity|]. by left. }
    { eexists. split; [reflexivity|]. by left. }
    rewrite lift_eq. unfold mbind, M_bind, tool. rewrite Htool. cbn [mret M_ret].
    rewrite run_command_result.
    cbn in Hacc. injection Hacc as Hacc.
    cbn [stdin with_stdin entered with_dirs] in Hin1, Hin2.
    assert (stdin w = (b1 ++ l1 :: b2) ++ l2 :: p2) as Hin.
    { rewrite Hin1, Hin2, <- app_assoc. reflexivity. }
    destruct (exit_ok _); (eexists; split; [reflexivity|]); right; right;
      exists db, (b1 ++ l1 :: b2), l2;
      (split; [exact Hin|]); (split; [exact Hdb|]); (split; [exact Hstrip|]);
      (split; [exact Hacc|]); (split; [reflexivity|]); (split; reflexivity).
Qed.

Lemma chimera_reference_exists_witness :
  exists w',
    final_world (chimera "exit" {["vsearch" := "/usr/bin/vsearch"]} 4 "/data/out"
                   (machine true ["2"; "/db/none.fa"; " /db/gold.fa "]
                            {["/db/gold.fa" := ">ref"]})) = Some w'
    /\ (launched w' = []
        \/ launched w'
           = [] ++ [denovo_cmd "/usr/bin/vsearch" 4 "/data/out/5-cluster/otus.fasta"
                               "/data/out/6-chimera/otus_nochim.fasta"]
        \/ exists ref_db before l,
             ["2"; "/db/none.fa"; " /db/gold.fa "] = before ++ l :: stdin w'
             /\ ref_db = strip l
             /\ strip ref_db = ref_db
             /\ on_disk (entered "/data/out/6-chimera"
                           (machine true ["2"; "/db/none.fa"; " /db/gold.fa "]
                                    {["/db/gold.fa" := ">ref"]})) ref_db = true
             /\ uchime_ref_cmd "/usr/bin/vsearch" 4 "/data/out/5-cluster/otus.fasta"
                               ref_db "/data/out/6-chimera/otus_nochim.fasta" !! 3%nat
                = Some "--db"
             /\ uchime_ref_cmd "/usr/bin/vsearch" 4 "/data/out/5-cluster/otus.fasta"
                               ref_db "/data/out/6-chimera/otus_nochim.fasta" !! 4%nat
                = Some ref_db
             /\ launched w'
                = [] ++ [uchime_ref_cmd "/usr/bin/vsearch" 4 "/data/out/5-cluster/otus.fasta"
                                        ref_db "/data/out/6-chimera/otus_nochim.fasta"]).
Proof.
  assert (({["vsearch" := "/usr/bin/vsearch"]} : gmap string string) !! "vsearch"
          = Some "/usr/bin/vsearch") as Htool by apply lookup_singleton_eq.
  exact (chimera_reference_exists "exit" {["vsearch" := "/usr/bin/vsearch"]} 4
           "/data/out" "/usr/bin/vsearch"
           (machine true ["2"; "/db/none.fa"; " /db/gold.fa "] {["/db/gold.fa" := ">ref"]})
           Htool).
Defined.

(** X18.  Step 8 is optional: when the first answer let through is
    "no", in any case, the step returns having changed nothing but the
    console; no directory [8-SINTAX] is made and no command is launched. *)
Theorem classify_declined_changes_nothing
        (sentinel : string) (tools : gmap string string) (threads : Z)
        (output_dir : string) (w : World)
        (rejected : list string) (l : string) (rest : list string) :
  stdin w = rejected ++ l :: rest ->
  Forall (turned_down sentinel (Some yes_or_no) w) rejected ->
  lower (strip l) = "no" ->
  sentinel ≠ "no" ->
  classify_step sentinel tools threads output_dir w
  = Returned (Continue tt) (with_stdin rest w).
Proof.
  intros Hin Hrej Hno Hs.
  unfold classify_step. unfold mbind at 1. rewrite P_bind_eq.
  rewrite (get_valid_input_accepts_at sentinel (Some yes_or_no) w rejected l rest);
    [|done|done|by rewrite Hno|].
  - by rewrite Hno.
  - unfold accepts, yes_or_no. rewrite Hno. reflexivity.
Qed.

Lemma classify_declined_changes_nothing_witness :
  classify_step "exit" {["vsearch" := "/usr/bin/vsearch"]} 4 "/data/out"
                (machine true ["y"; " No "; "x"] ∅)
  = Returned (Continue tt) (machine true ["x"] ∅).
Proof.
  assert (Forall (turned_down "exit" (Some yes_or_no) (machine true ["y"; " No "; "x"] ∅))
                 ["y"]) as Hrej.
  { repeat constructor. intros H; vm_compute in H; discriminate. }
  assert (lower (strip " No ") = "no") as Hno by (vm_compute; reflexivity).
  assert ("exit" ≠ "no") as Hs by discriminate.
  exact (classify_declined_changes_nothing "exit" {["vsearch" := "/usr/bin/vsearch"]} 4
           "/data/out" (machine true ["y"; " No "; "x"] ∅) ["y"] " No " ["x"]
           eq_refl Hrej Hno Hs).
Defined.

Section Script.
Context `{FA : FloatArith} `{EX : Extern} `{HO : Host}.
Variable text : Exn + Signal -> string.

Lemma prepare_missing_input sentinel args w :
  on_disk w (normpath (resolve (input_dir args) w)) = false ->
  prepare sentinel args w
  = Raised (FileNotFoundError (normpath (resolve (input_dir args) w))) w.
Proof.
  intros H. unfold prepare.
  unfold mbind at 1. rewrite P_bind_eq, lift_eq. unfold abspath at 1.
  unfold mbind at 1. rewrite P_bind_eq, lift_eq. unfold abspath at 1.
  unfold mbind at 1. rewrite P_bind_eq, lift_eq. unfold abspath at 1.
  unfold mbind at 1. rewrite P_bind_eq, lift_eq. unfold path_exists at 1.
  unfold on_disk in H. rewrite H. cbn [negb]. by rewrite lift_eq.
Qed.

Lemma prepare_exit_at_first_tool args w l rest :
  on_disk w (normpath (resolve (input_dir args) w)) = true ->
  on_disk w (normpath (resolve (metadata_file args) w)) = true ->
  shutil_which "cutadapt" (entered (normpath (resolve (output_dir args) w)) w) = None ->
  stdin w = l :: rest ->
  lower (strip l) = "exit" ->
  prepare "exit" args w
  = Returned (Unwind (SystemExit "用户选择结束运行。"))
      (with_stdin rest (entered (normpath (resolve (output_dir args) w)) w)).
Proof.
  intros H1 H2 Hwhich Hin Hexit. unfold prepare.
  unfold mbind at 1. rewrite P_bind_eq, lift_eq. unfold abspath at 1.
  unfold mbind at 1. rewrite P_bind_eq, lift_eq. unfold abspath at 1.
  unfold mbind at 1. rewrite P_bind_eq, lift_eq. unfold abspath at 1.
  unfold mbind at 1. rewrite P_bind_eq, lift_eq. unfold path_exists at 1.
  unfold on_disk in H1. rewrite H1. cbn [negb].
  unfold mbind at 1. rewrite P_bind_eq, lift_eq. unfold path_exists at 1.
  unfold on_disk in H2. rewrite H2. cbn [negb].
  unfold mbind at 1. rewrite P_bind_eq, lift_eq. unfold makedirs at 1.
  fold (entered (normpath (resolve (output_dir args) w)) w).
  unfold mbind at 1. rewrite P_bind_eq.
  unfold check_tool at 1. rewrite Hwhich.
  rewrite (check_tool_loop_cons "exit" "cutadapt" _ l rest) by exact Hin.
  apply String.eqb_eq in Hexit. by rewrite Hexit.
Qed.

End Script.

(** X19.  A run whose input directory does not exist ends at the first
    check of [main]: nothing is created, launched or read from the
    console; the last lines of the script log one ERROR record for the
    [FileNotFoundError] and the interpreter ends with status 0, in both
    scripts. *)
Theorem missing_input_directory_ends_with_status_zero
        `{FA : FloatArith} `{EX : Extern} `{HO : Host}
        (text : Exn + Signal -> string) (args : Namespace) (w : World) :
  let input_dir := normpath (resolve (input_dir args) w) in
  on_disk w input_dir = false ->
  run_script text (Processing2.main args) w
  = Returned 0 (with_log (log w ++ [(ERROR, "发生错误: "
                                            +:+ text (inl (FileNotFoundError input_dir)))])
                         w)
  /\ run_script text (Processing1.main args) w
     = run_script text (Processing2.main args) w.
Proof.
  intros dir H.
  assert (forall main : P unit,
            main w = Raised (FileNotFoundError dir) w ->
            run_script text main w
            = Returned 0 (with_log (log w ++ [(ERROR, "发生错误: "
                                        +:+ text (inl (FileNotFoundError dir)))]) w)) as Hrun.
  { intros main E. unfold run_script. rewrite E. reflexivity. }
  assert (Processing2.main args w = Raised (FileNotFoundError dir) w) as E2.
  { unfold Processing2.main. unfold mbind at 1. rewrite P_bind_eq.
    by rewrite prepare_missing_input. }
  assert (Processing1.main args w = Raised (FileNotFoundError dir) w) as E1.
  { unfold Processing1.main. unfold mbind at 1. rewrite P_bind_eq.
    by rewrite prepare_missing_input. }
  split; [by apply Hrun|]. by rewrite !Hrun.
Qed.

Lemma missing_input_directory_ends_with_status_zero_witness :
  run_script (fun _ => "no such directory")
             (Processing2.main (FA:=binary64) (EX:=no_library) (HO:=plain_host [])
                {| input_dir := "raw"; metadata_file := "meta.tsv";
                   output_dir := "out"; threads := 4 |})
             (machine true ["1"] {["/home/user/run/meta.tsv" := "r"]})
  = Returned 0 (with_log [(ERROR, "发生错误: no such directory")]
                  (machine true ["1"] {["/home/user/run/meta.tsv" := "r"]})).
Proof.
  assert (on_disk (machine true ["1"] {["/home/user/run/meta.tsv" := "r"]})
                  (normpath (resolve "raw"
                     (machine true ["1"] {["/home/user/run/meta.tsv" := "r"]}))) = false)
    as H by (vm_compute; reflexivity).
  exact (proj1 (missing_input_directory_ends_with_status_zero
                  (FA:=binary64) (EX:=no_library) (HO:=plain_host [])
                  (fun _ => "no such directory")
                  {| input_dir := "raw"; metadata_file := "meta.tsv";
                     output_dir := "out"; threads := 4 |}
                  (machine true ["1"] {["/home/user/run/meta.tsv" := "r"]}) H)).
Defined.

(** X20.  [sys.exit] is not caught by the last lines of the script: when
    the first tool is not on the search path and the answer to the
    request for its directory is "exit", the second script ends with
    status 1 and without an ERROR record, having made the output
    directory and nothing else. *)
Theorem exit_at_tool_prompt_ends_with_status_one
        `{FA : FloatArith} `{EX : Extern} `{HO : Host}
        (text : Exn + Signal -> string) (args : Namespace) (w : World)
        (l : string) (rest : list string) :
  let made := entered (normpath (resolve (output_dir args) w)) w in
  on_disk w (normpath (resolve (input_dir args) w)) = true ->
  on_disk w (normpath (resolve (metadata_file args) w)) = true ->
  shutil_which "cutadapt" made = None ->
  stdin w = l :: rest ->
  lower (strip l) = "exit" ->
  run_script text (Processing2.main args) w = Returned 1 (with_stdin rest made).
Proof.
  intros made H1 H2 Hwhich Hin Hexit.
  unfold run_script, Processing2.main. unfold mbind at 1. rewrite P_bind_eq.
  by rewrite (prepare_exit_at_first_tool args w l rest H1 H2 Hwhich Hin Hexit).
Qed.

Lemma exit_at_tool_prompt_ends_with_status_one_witness :
  run_script (fun _ => "error")
             (Processing2.main (FA:=binary64) (EX:=no_library) (HO:=plain_host [])
                {| input_dir := "/data/raw"; metadata_file := "meta.tsv";
                   output_dir := "out/"; threads := 4 |})
             (machine true [" Exit"; "x"] {["/home/user/run/meta.tsv" := "r";
                                            "/data/raw" := "d"]})
  = Returned 1 (with_stdin ["x"]
                  (entered "/home/user/run/out"
                     (machine true [" Exit"; "x"] {["/home/user/run/meta.tsv" := "r";
                                                    "/data/raw" := "d"]}))).
Proof.
  set (w := machine true [" Exit"; "x"] {["/home/user/run/meta.tsv" := "r";
                                          "/data/raw" := "d"]}).
  set (args := {| input_dir := "/data/raw"; metadata_file := "meta.tsv";
                  output_dir := "out/"; threads := 4 |}).
  assert (on_disk w (normpath (resolve (input_dir args) w)) = true) as H1
    by (vm_compute; reflexivity).
  assert (on_disk w (normpath (resolve (metadata_file args) w)) = true) as H2
    by (vm_compute; reflexivity).
  assert (lower (strip " Exit") = "exit") as Hexit by (vm_compute; reflexivity).
  exact (exit_at_tool_prompt_ends_with_status_one
           (FA:=binary64) (EX:=no_library) (HO:=plain_host [])
           (fun _ => "error") args w " Exit" ["x"] H1 H2 eq_refl eq_refl Hexit).
Defined.

(** ** The prompts of the new functions *)

Lemma ask_1_or_2_cons w l rest :
  stdin w = l :: rest ->
  ask_1_or_2 w
  = if bool_decide (strip l ∈ ["1"; "2"])
    then Returned (strip l) (with_stdin rest w)
    else ask_1_or_2 (with_stdin rest w).
Proof.
  intros H. unfold ask_1_or_2. rewrite (console_loop_cons _ w l rest H).
  unfold mbind, M_bind, input. rewrite H.
  cbn [mret M_ret]. destruct (bool_decide (strip l ∈ ["1"; "2"])); reflexivity.
Qed.

Lemma ask_1_or_2_skips w rejected pending :
  Forall (fun r => strip r ∉ ["1"; "2"]) rejected ->
  ask_1_or_2 (with_stdin (rejected ++ pending) w) = ask_1_or_2 (with_stdin pending w).
Proof.
  induction 1 as [|r rejected Hr _ IH]; [done|].
  rewrite (ask_1_or_2_cons _ r (rejected ++ pending)) by done.
  rewrite bool_decide_eq_false_2 by done. by rewrite with_stdin_twice.
Qed.

Lemma ask_1_or_2_nil w : stdin w = [] -> ask_1_or_2 w = Raised EOFError w.
Proof.
  intros H. unfold ask_1_or_2, console_loop. rewrite H.
  cbn [length loop_turns]. unfold mbind, M_bind, input. by rewrite H.
Qed.

(** The prompt ends, has changed nothing but the console, and returns
    the last line it has read, without the white space around it. *)
Lemma ask_1_or_2_outcome lines w :
  stdin w = lines ->
  exists pending,
    ask_1_or_2 w = Raised EOFError (with_stdin pending w)
    \/ exists choice before l,
         ask_1_or_2 w = Returned choice (with_stdin pending w)
         /\ lines = before ++ l :: pending
         /\ choice = strip l
         /\ (choice = "1" \/ choice = "2").
Proof.
  revert w. induction lines as [|r rs IH]; intros w Hin.
  - exists []. left. rewrite ask_1_or_2_nil by done.
    by rewrite <- Hin, with_stdin_stdin.
  - rewrite (ask_1_or_2_cons w r rs Hin).
    case_bool_decide as Hc.
    + exists rs. right. exists (strip r), [], r.
      split; [done|]. split; [done|]. split; [done|].
      apply elem_of_cons in Hc as [Hc|Hc]; [left; exact Hc|].
      apply elem_of_cons in Hc as [Hc|Hc]; [right; exact Hc|].
      by apply elem_of_nil in Hc.
    + destruct (IH (with_stdin rs w) eq_refl) as [pending H].
      exists pending. rewrite with_stdin_twice in H.
      destruct H as [H|(choice & before & l & H1 & H2 & H3 & H4)]; [by left|].
      right. exists choice, (r :: before), l.
      split; [done|]. split; [by rewrite H2|done].
Qed.

Section Identity.
Context `{FA : FloatArith}.

Lemma ask_identity_nil w : stdin w = [] -> ask_identity w = Raised EOFError w.
Proof.
  intros H. unfold ask_identity, console_loop. rewrite H.
  cbn [length loop_turns]. unfold mbind, M_bind, input. by rewrite H.
Qed.

Lemma ask_identity_cons w l rest :
  stdin w = l :: rest ->
  ask_identity w
  = match py_float (strip l) with
    | Some val =>
        if fge val (of_int 0) && fge (of_int 1) val
        then Returned (strip l) (with_stdin rest w)
        else ask_identity (with_stdin rest w)
    | None => ask_identity (with_stdin rest w)
    end.
Proof.
  intros H. unfold ask_identity. rewrite (console_loop_cons _ w l rest H).
  unfold mbind, M_bind, input. rewrite H. cbn [mret M_ret].
  destruct (py_float (strip l)) as [val|]; [|reflexivity].
  destruct (fge val (of_int 0) && fge (of_int 1) val); reflexivity.
Qed.

Lemma ask_identity_outcome lines w :
  stdin w = lines ->
  exists pending,
    ask_identity w = Raised EOFError (with_stdin pending w)
    \/ exists s before l val,
         ask_identity w = Returned s (with_stdin pending w)
         /\ lines = before ++ l :: pending
         /\ s = strip l
         /\ py_float s = Some val
         /\ fge val (of_int 0) = true /\ fge (of_int 1) val = true.
Proof.
  revert w. induction lines as [|r rs IH]; intros w Hin.
  - exists []. left. rewrite ask_identity_nil by done.
    by rewrite <- Hin, with_stdin_stdin.
  - rewrite (ask_identity_cons w r rs Hin).
    assert (exists pending,
               ask_identity (with_stdin rs w) = Raised EOFError (with_stdin pending w)
               \/ exists s before l val,
                    ask_identity (with_stdin rs w) = Returned s (with_stdin pending w)
                    /\ r :: rs = before ++ l :: pending
                    /\ s = strip l
                    /\ py_float s = Some val
                    /\ fge val (of_int 0) = true /\ fge (of_int 1) val = true) as Hrest.
    { destruct (IH (with_stdin rs w) eq_refl) as [pending H].
      exists pending. rewrite with_stdin_twice in H.
      destruct H as [H|(s & before & l & val & H1 & H2 & H3)]; [by left|].
      right. exists s, (r :: before), l, val.
      split; [done|]. split; [by rewrite H2|done]. }
    destruct (py_float (strip r)) as [val|] eqn:E; [|exact Hrest].
    destruct (fge val (of_int 0) && fge (of_int 1) val) eqn:Hr; [|exact Hrest].
    apply andb_true_iff in Hr as [H0 H1].
    exists rs. right. by exists (strip r), [], r, val.
Qed.

End Identity.

(** X22.  The abundance filter is optional: when the first answer that
    is "1" or "2" is "2", the function returns having changed nothing
    but the console; no file is read or written, and the working
    directory is the one before. *)
Theorem abundance_filter_declined_changes_nothing
        `{FA : FloatArith} `{EX : Extern}
        (tools : gmap string string) (threads : Z) (output_dir : string) (w : World)
        (rejected : list string) (l : string) (rest : list string) :
  startswith "/" (cwd w) = true ->
  stdin w = rejected ++ l :: rest ->
  Forall (fun r => strip r ∉ ["1"; "2"]) rejected ->
  strip l = "2" ->
  filter_low_abundance_otus tools threads output_dir w
  = Returned tt (with_stdin rest w).
Proof.
  intros Habs Hin Hrej Hl.
  unfold filter_low_abundance_otus.
  unfold mbind at 1, M_bind at 1, getcwd.
  unfold mbind at 1, M_bind at 1, chdir at 1.
  set (w1 := with_cwd (resolve (path_join output_dir "7-OTU") w) w).
  unfold mbind at 1, M_bind at 1.
  assert (w1 = with_stdin (rejected ++ l :: rest) w1) as ->
    by (unfold w1; rewrite <- Hin; by destruct w).
  rewrite ask_1_or_2_skips by done.
  rewrite (ask_1_or_2_cons _ l rest) by done.
  rewrite Hl. cbn [bool_decide decide_rel]. rewrite bool_decide_eq_true_2 by set_solver.
  cbn [String.eqb Ascii.eqb Bool.eqb]. unfold chdir, resolve, path_join.
  cbn [cwd with_stdin with_cwd]. rewrite Habs.
  unfold w1. by destruct w.
Qed.

Lemma abundance_filter_declined_changes_nothing_witness :
  filter_low_abundance_otus (FA:=binary64) (EX:=no_library)
    {["vsearch" := "/usr/bin/vsearch"]} 4 "/data/out" (machine true ["no"; " 2 "; "x"] ∅)
  = Returned tt (machine true ["x"] ∅).
Proof.
  assert (startswith "/" (cwd (machine true ["no"; " 2 "; "x"] ∅)) = true) as Habs
    by reflexivity.
  assert (Forall (fun r => strip r ∉ ["1"; "2"]) ["no"]) as Hrej.
  { repeat constructor. intros H. apply list_elem_of_In in H. vm_compute in H.
    destruct H as [H|[H|[]]]; discriminate H. }
  assert (strip " 2 " = "2") as Hl by (vm_compute; reflexivity).
  exact (abundance_filter_declined_changes_nothing (FA:=binary64) (EX:=no_library)
           {["vsearch" := "/usr/bin/vsearch"]} 4 "/data/out"
           (machine true ["no"; " 2 "; "x"] ∅) ["no"] " 2 " ["x"] Habs eq_refl Hrej Hl).
Defined.

(** ** Steps 5 to 7 in sequence *)

Lemma run_command_returns cmd description w :
  all_exit_ok w ->
  run_command cmd description w
  = Returned tt
      (ran cmd [(INFO, "Running: " +:+ description);
                (INFO, "Command: " +:+ join " " cmd);
                (INFO, description +:+ " completed successfully.")] w).
Proof. intros Hok. by rewrite run_command_result, (Hok _ _ _). Qed.

(** X23.  Steps 5, 6 and 7 pass their files along.  With a valid
    clustering answer, "1" for the chimera detection and every command
    exiting with status zero, the three steps launch exactly three
    commands: the clustering chosen by the answer, UPARSE at identity
    0.97 for "1" and UNOISE otherwise, which reads the cumulative file
    of step 4; the de novo detection, which reads the centroids the
    clustering wrote; and the table construction, which maps the
    cumulative file of step 4 onto the non-chimeric file of step 6. *)
Theorem steps_5_to_7_pass_files_along
        (sentinel : string) (tools : gmap string string) (threads : Z)
        (output_dir vsearch : string) (w : World) (l1 l2 : string) (rest : list string) :
  let all_derep := all_derep_file output_dir in
  let otu_file := path_join (path_join output_dir "5-cluster") "otus.fasta" in
  let nochim_file := path_join (path_join output_dir "6-chimera") "otus_nochim.fasta" in
  let otu_table := path_join (path_join output_dir "7-OTU") "otu_table.txt" in
  let clustering :=
    if String.eqb (strip l1) "1"
    then uparse_cmd vsearch threads all_derep otu_file
    else unoise_cmd vsearch threads all_derep otu_file in
  tools !! "vsearch" = Some vsearch ->
  all_exit_ok w ->
  stdin w = l1 :: l2 :: rest ->
  strip l1 ∈ ["1"; "2"] ->
  strip l2 = "1" ->
  sentinel ≠ "1" -> sentinel ≠ "2" ->
  exists w',
    (cluster sentinel tools threads output_dir ;;
     chimera sentinel tools threads output_dir ;;
     lift (otu_table_step tools threads output_dir)) w
    = Returned (Continue tt) w'
    /\ launched w'
       = launched w ++ [clustering;
                        denovo_cmd vsearch threads otu_file nochim_file;
                        otutab_cmd vsearch threads all_derep nochim_file otu_table]
    /\ stdin w' = rest
    /\ clustering !! 2%nat = Some all_derep
    /\ (String.eqb (strip l1) "1" = true -> clustering !! 4%nat = Some "0.97").
Proof.
  intros all_derep otu_file nochim_file otu_table clustering Htool Hok Hin H1 H2 Hs1 Hs2.
  assert (lower (strip l1) ≠ sentinel /\ one_or_two (strip l1) = fun _ => Continue true)
    as [Hn1 Ha1].
  { apply list_elem_of_In in H1. cbn in H1.
    destruct H1 as [<-|[<-|[]]]; split; try done; by intros <-. }
  assert (lower (strip l2) ≠ sentinel) as Hn2 by (rewrite H2; by intros <-).
  apply String.eqb_neq in Hn1, Hn2.
  unfold mbind at 1. rewrite P_bind_eq.
  (* step 5 *)
  unfold cluster. fold otu_file. change (path_join (path_join output_dir "4-dereplicate")
    "all_samples_derep.fasta") with all_derep.
  unfold mbind at 1. rewrite P_bind_eq, lift_eq. unfold makedirs at 1.
  unfold mbind at 1. rewrite P_bind_eq.
  rewrite (get_valid_input_cons sentinel _ _ l1 (l2 :: rest)) by exact Hin.
  rewrite Hn1, Ha1.
  assert (exists wc,
            (if String.eqb (strip l1) "1"
             then lift (vsearch ← tool tools "vsearch";
                        run_command (uparse_cmd vsearch threads all_derep otu_file)
                                    "使用 UPARSE3 进行 OTU 聚类")
             else lift (vsearch ← tool tools "vsearch";
                        run_command (unoise_cmd vsearch threads all_derep otu_file)
                                    "使用 UNOISE3 进行 ASV 聚类"))
              (with_stdin (l2 :: rest)
                 (with_dirs (dirs w ∪ {[resolve (path_join output_dir "5-cluster") w]}) w))
            = Returned (Continue tt) wc
            /\ launched wc = launched w ++ [clustering]
            /\ stdin wc = l2 :: rest /\ spawn wc = spawn w) as (wc & -> & Hlc & Hic & Hsc).
  { unfold clustering. destruct (String.eqb (strip l1) "1");
      rewrite lift_eq; unfold mbind, M_bind, tool; rewrite Htool; cbn [mret M_ret];
      rewrite run_command_returns by (intros d c fs; apply Hok);
      eexists; (split; [reflexivity|]); done. }
  (* step 6 *)
  unfold mbind at 1. rewrite P_bind_eq.
  unfold chimera. fold otu_file nochim_file.
  unfold mbind at 1. rewrite P_bind_eq, lift_eq. unfold makedirs at 1.
  unfold mbind at 1. rewrite P_bind_eq.
  rewrite (get_valid_input_cons sentinel _ _ l2 rest) by exact Hic.
  rewrite Hn2, H2. cbn [one_or_two bool_decide decide_rel].
  rewrite bool_decide_eq_true_2 by (left).
  cbn [String.eqb Ascii.eqb Bool.eqb].
  rewrite lift_eq. unfold mbind at 1, M_bind at 1, tool at 1. rewrite Htool.
  cbn [mret M_ret].
  rewrite run_command_returns by (intros d c fs; cbn [spawn with_stdin with_dirs];
                                  rewrite Hsc; apply Hok).
  (* step 7 *)
  rewrite lift_eq. unfold otu_table_step. fold nochim_file otu_table.
  change (path_join (path_join output_dir "4-dereplicate") "all_samples_derep.fasta")
    with all_derep.
  unfold mbind at 1, M_bind at 1, makedirs at 1.
  unfold mbind at 1, M_bind at 1, tool at 1. rewrite Htool. cbn [mret M_ret].
  rewrite run_command_returns by (intros d c fs; cbn [spawn ran with_stdin with_dirs];
                                  rewrite Hsc; apply Hok).
  eexists. split; [reflexivity|].
  cbn [launched stdin ran with_dirs with_stdin]. rewrite Hlc, <- !app_assoc.
  split; [reflexivity|]. split; [reflexivity|].
  unfold clustering. destruct (String.eqb (strip l1) "1"); split; done.
Qed.

Lemma steps_5_to_7_pass_files_along_witness :
  exists w',
    (cluster "exit" {["vsearch" := "/usr/bin/vsearch"]} 4 "/data/out" ;;
     chimera "exit" {["vsearch" := "/usr/bin/vsearch"]} 4 "/data/out" ;;
     lift (otu_table_step {["vsearch" := "/usr/bin/vsearch"]} 4 "/data/out"))
      (machine true [" 2"; "1"; "x"] ∅)
    = Returned (Continue tt) w'
    /\ launched w'
       = [unoise_cmd "/usr/bin/vsearch" 4 "/data/out/4-dereplicate/all_samples_derep.fasta"
                     "/data/out/5-cluster/otus.fasta";
          denovo_cmd "/usr/bin/vsearch" 4 "/data/out/5-cluster/otus.fasta"
                     "/data/out/6-chimera/otus_nochim.fasta";
          otutab_cmd "/usr/bin/vsearch" 4 "/data/out/4-dereplicate/all_samples_derep.fasta"
                     "/data/out/6-chimera/otus_nochim.fasta"
                     "/data/out/7-OTU/otu_table.txt"]
    /\ stdin w' = ["x"].
Proof.
  assert (({["vsearch" := "/usr/bin/vsearch"]} : gmap string string) !! "vsearch"
          = Some "/usr/bin/vsearch") as Htool by apply lookup_singleton_eq.
  assert (all_exit_ok (machine true [" 2"; "1"; "x"] ∅)) as Hok
    by (intros d cmd fs'; reflexivity).
  assert (strip " 2" ∈ ["1"; "2"]) as H1 by (right; left).
  assert (strip "1" = "1") as H2 by reflexivity.
  assert ("exit" ≠ "1") as Hs1 by discriminate.
  assert ("exit" ≠ "2") as Hs2 by discriminate.
  destruct (steps_5_to_7_pass_files_along "exit" {["vsearch" := "/usr/bin/vsearch"]} 4
              "/data/out" "/usr/bin/vsearch" (machine true [" 2"; "1"; "x"] ∅)
              " 2" "1" ["x"] Htool Hok eq_refl H1 H2 Hs1 Hs2)
    as (w' & Hrun & Hl & Hi & _).
  exists w'. split; [exact Hrun|]. split; [exact Hl|exact Hi].
Defined.

(** ** What launches a program and what does not *)

Lemma quiet_ret {A} (a : A) : quiet (mret a).
Proof. intros w. reflexivity. Qed.

Lemma quiet_raise {A} e : quiet (raise (A:=A) e).
Proof. intros w. reflexivity. Qed.

Lemma quiet_bind {A B} (m : M A) (k : A -> M B) :
  quiet m -> (forall a, quiet (k a)) -> quiet (a ← m; k a).
Proof.
  intros Hm Hk w. specialize (Hm w). unfold mbind, M_bind.
  destruct (m w) as [a w1|e w1|]; cbn in *; [|done|done].
  specialize (Hk a w1). destruct (k a w1); cbn in *; congruence.
Qed.

Lemma quiet_try_except {A} (m h : M A) : quiet m -> quiet h -> quiet (try_except m h).
Proof.
  intros Hm Hh w. specialize (Hm w). unfold try_except.
  destruct (m w) as [a w1|e w1|]; cbn in *; [done| |done].
  specialize (Hh w1). destruct (h w1); cbn in *; congruence.
Qed.

Lemma quiet_loop_turns {A} (body : M (option A)) n :
  quiet body -> quiet (loop_turns n body).
Proof.
  intros Hb. induction n as [|n IH]; [by intros w|].
  cbn [loop_turns]. apply quiet_bind; [done|].
  intros [a|]; [apply quiet_ret|done].
Qed.

Lemma quiet_console_loop {A} (body : M (option A)) : quiet body -> quiet (console_loop body).
Proof. intros Hb w. unfold console_loop. by apply quiet_loop_turns. Qed.

Lemma quiet_getcwd : quiet getcwd.
Proof. by intros w. Qed.
Lemma quiet_chdir p : quiet (chdir p).
Proof. by intros w. Qed.
Lemma quiet_path_exists p : quiet (path_exists p).
Proof. by intros w. Qed.
Lemma quiet_makedirs p : quiet (makedirs p).
Proof. by intros w. Qed.
Lemma quiet_read_text p : quiet (read_text p).
Proof. intros w. unfold read_text. by destruct (files w !! resolve p w). Qed.
Lemma quiet_write_text p t : quiet (write_text p t).
Proof. by intros w. Qed.
Lemma quiet_remove p : quiet (remove p).
Proof. intros w. unfold remove. by destruct (files w !! resolve p w). Qed.
Lemma quiet_input : quiet input.
Proof. intros w. unfold input. by destruct (stdin w). Qed.
Lemma quiet_logging lv msg : quiet (logging lv msg).
Proof. by intros w. Qed.

Ltac quiet_step :=
  first [ apply quiet_ret | apply quiet_raise | apply quiet_getcwd | apply quiet_chdir
        | apply quiet_path_exists | apply quiet_makedirs | apply quiet_read_text
        | apply quiet_write_text | apply quiet_remove | apply quiet_input
        | apply quiet_logging | apply quiet_console_loop | apply quiet_try_except
        | apply quiet_bind
        | match goal with
          | |- forall _, _ => intro
          | |- quiet (match ?x with _ => _ end) => destruct x
          end ].

(** X24.  The abundance filter launches no external program, however it
    ends: with the filter declined, with a table or sequence file that
    cannot be read, with a missing [sample] column, or after writing its
    four files. *)
Theorem abundance_filter_launches_nothing
        `{FA : FloatArith} `{EX : Extern}
        (tools : gmap string string) (threads : Z) (output_dir : string) :
  quiet (filter_low_abundance_otus tools threads output_dir).
Proof.
  unfold filter_low_abundance_otus, ask_1_or_2, ask_min_count, ask_min_freq.
  repeat quiet_step.
Qed.

Lemma quiet_rename src dst : quiet (rename src dst).
Proof. intros w. unfold rename. by destruct (files w !! resolve src w). Qed.

Lemma bind_bind {A B C} (m : M A) (k : A -> M B) (c : B -> M C) w :
  ((m ≫= k) ≫= c) w = (m ≫= (fun a => k a ≫= c)) w.
Proof. unfold mbind, M_bind. destruct (m w); reflexivity. Qed.

(** X21.  The identity threshold of the second clustering reaches both
    of its commands.  When the stage returns, it has launched the
    relabelling and the direct mapping, or the relabelling, the second
    clustering and its mapping.  The two commands of the second
    clustering carry the same value after [--id]: a line of the console
    as typed, without the white space around it, which reads as a float
    between 0 and 1 inclusive (so never as NaN). *)
Theorem identity_threshold_reaches_both_commands `{FA : FloatArith}
        (tools : gmap string string) (threads : Z) (output_dir : string)
        (w w' : World) :
  relabel_and_cluster tools threads output_dir w = Returned tt w' ->
  exists vsearch,
    tools !! "vsearch" = Some vsearch
    /\ (launched w'
        = launched w ++ [relabel_cmd vsearch threads output_dir;
                         direct_map_cmd vsearch threads output_dir]
        \/ exists up_identity l val,
             l ∈ stdin w
             /\ up_identity = strip l
             /\ strip up_identity = up_identity
             /\ py_float up_identity = Some val
             /\ fge val (of_int 0) = true /\ fge (of_int 1) val = true
             /\ second_cluster_cmd vsearch threads up_identity !! 3%nat = Some "--id"
             /\ second_cluster_cmd vsearch threads up_identity !! 4%nat = Some up_identity
             /\ second_map_cmd vsearch threads output_dir up_identity !! 5%nat
                = Some "--id"
             /\ second_map_cmd vsearch threads output_dir up_identity !! 6%nat
                = Some up_identity
             /\ launched w'
                = launched w ++ [relabel_cmd vsearch threads output_dir;
                                 second_cluster_cmd vsearch threads up_identity;
                                 second_map_cmd vsearch threads output_dir up_identity]).
Proof.
  unfold relabel_and_cluster. cbv zeta.
  unfold mbind at 1, M_bind at 1, getcwd.
  unfold mbind at 1, M_bind at 1, chdir at 1.
  set (w0 := with_cwd (resolve (path_join output_dir "7-OTU") w) w).
  unfold mbind at 1, M_bind at 1, tool at 1.
  destruct (tools !! "vsearch") as [vsearch|] eqn:Htool; [|done].
  cbn [mret M_ret]. fold (relabel_cmd vsearch threads output_dir).
  unfold mbind at 1, M_bind at 1. rewrite run_command_result.
  destruct (exit_ok _); [|done].
  match goal with
  | |- context [ran ?c ?r w0] => set (w1 := ran c r w0)
  end.
  assert (stdin w1 = stdin w) as Hs1 by reflexivity.
  assert (launched w1 = launched w ++ [relabel_cmd vsearch threads output_dir]) as L1
    by reflexivity.
  clearbody w1.
  unfold mbind at 1, M_bind at 1.
  destruct (ask_1_or_2_outcome _ w1 eq_refl)
    as (p1 & [->|(choice & b1 & l1 & -> & Hin1 & _ & [->| ->])]); [done| |].
  - (* the second clustering *)
    cbn [String.eqb Ascii.eqb Bool.eqb].
    rewrite bind_bind. unfold mbind at 1, M_bind at 1.
    destruct (ask_identity_outcome _ (with_stdin p1 w1) eq_refl)
      as (p2 & [->|(s & b2 & l2 & val & -> & Hin2 & Hs & Hv & H0 & H1)]); [done|].
    rewrite with_stdin_twice.
    assert (l2 ∈ stdin w) as Hl2.
    { rewrite <- Hs1, Hin1. cbn [stdin with_stdin] in Hin2. rewrite Hin2.
      apply elem_of_app. right. right. apply elem_of_app. right. left. }
    assert (strip s = s) as Hss by (rewrite Hs; apply strip_idem).
    rewrite bind_bind. unfold mbind at 1, M_bind at 1, tool at 1.
    rewrite Htool. cbn [mret M_ret].
    fold (second_cluster_cmd vsearch threads s).
    rewrite bind_bind. unfold mbind at 1, M_bind at 1. rewrite run_command_result.
    destruct (exit_ok _); [|done].
    rewrite bind_bind. unfold mbind at 1, M_bind at 1, tool at 1.
    rewrite Htool. cbn [mret M_ret].
    fold (second_map_cmd vsearch threads output_dir s).
    rewrite bind_bind. unfold mbind at 1, M_bind at 1. rewrite run_command_result.
    destruct (exit_ok _); [|done].
    match goal with
    | |- ?t ?v = _ -> _ =>
        assert (quiet t) as Hq by (repeat quiet_step);
        specialize (Hq v)
    end.
    intros Hrun. rewrite Hrun in Hq. cbn [final_world] in Hq.
    exists vsearch. split; [done|]. right. exists s, l2, val.
    repeat (split; [done|]).
    rewrite Hq. cbn [launched ran with_stdin]. by rewrite L1, <- !app_assoc.
  - (* the direct mapping *)
    cbn [String.eqb Ascii.eqb Bool.eqb].
    rewrite bind_bind. unfold mbind at 1, M_bind at 1, tool at 1.
    rewrite Htool. cbn [mret M_ret].
    fold (direct_map_cmd vsearch threads output_dir).
    rewrite bind_bind. unfold mbind at 1, M_bind at 1. rewrite run_command_result.
    destruct (exit_ok _); [|done].
    match goal with
    | |- ?t ?v = _ -> _ =>
        assert (quiet t) as Hq by (repeat first [ apply quiet_rename | quiet_step ]);
        specialize (Hq v)
    end.
    intros Hrun. rewrite Hrun in Hq. cbn [final_world] in Hq.
    exists vsearch. split; [done|]. left.
    rewrite Hq. cbn [launched ran with_stdin]. by rewrite L1, <- !app_assoc.
Qed.

Lemma identity_threshold_reaches_both_commands_witness :
  exists w',
    relabel_and_cluster (FA:=binary64) {["vsearch" := "/usr/bin/vsearch"]} 4 "/data/out"
                        (machine true ["1"; "1.5"; " 0.9 "] ∅)
    = Returned tt w'
    /\ exists vsearch,
         ({["vsearch" := "/usr/bin/vsearch"]} : gmap string string) !! "vsearch"
         = Some vsearch
         /\ (launched w'
             = [] ++ [relabel_cmd vsearch 4 "/data/out";
                      direct_map_cmd vsearch 4 "/data/out"]
             \/ exists up_identity l val,
                  l ∈ ["1"; "1.5"; " 0.9 "]
                  /\ up_identity = strip l
                  /\ strip up_identity = up_identity
                  /\ py_float (H:=binary64) up_identity = Some val
                  /\ fge val (of_int 0) = true /\ fge (of_int 1) val = true
                  /\ second_cluster_cmd vsearch 4 up_identity !! 3%nat = Some "--id"
                  /\ second_cluster_cmd vsearch 4 up_identity !! 4%nat = Some up_identity
                  /\ second_map_cmd vsearch 4 "/data/out" up_identity !! 5%nat
                     = Some "--id"
                  /\ second_map_cmd vsearch 4 "/data/out" up_identity !! 6%nat
                     = Some up_identity
                  /\ launched w'
                     = [] ++ [relabel_cmd vsearch 4 "/data/out";
                              second_cluster_cmd vsearch 4 up_identity;
                              second_map_cmd vsearch 4 "/data/out" up_identity]).
Proof.
  eassert (relabel_and_cluster (FA:=binary64) {["vsearch" := "/usr/bin/vsearch"]} 4
             "/data/out" (machine true ["1"; "1.5"; " 0.9 "] ∅) = Returned tt _) as Hrun
    by (vm_compute; reflexivity).
  eexists. split; [exact Hrun|].
  exact (identity_threshold_reaches_both_commands (FA:=binary64) _ _ _ _ _ Hrun).
Defined.

(** The run of the witness: the second clustering and its mapping both
    carry the answer "0.9". *)
Example identity_threshold_run :
  launched <$> final_world (relabel_and_cluster (FA:=binary64)
                              {["vsearch" := "/usr/bin/vsearch"]} 4 "/data/out"
                              (machine true ["1"; "1.5"; " 0.9 "] ∅))
  = Some [relabel_cmd "/usr/bin/vsearch" 4 "/data/out";
          second_cluster_cmd "/usr/bin/vsearch" 4 "0.9";
          second_map_cmd "/usr/bin/vsearch" 4 "/data/out" "0.9"].
Proof. vm_compute. reflexivity. Qed.

(** ** The files the abundance filter touches *)

Lemma frame_refl S w : frame S w w.
Proof. by intros q _. Qed.

Lemma frame_trans S w1 w2 w3 : frame S w1 w2 -> frame S w2 w3 -> frame S w1 w3.
Proof. intros H1 H2 q Hq. by rewrite (H2 q Hq), (H1 q Hq). Qed.

Section Frame.
Variables (d : string) (S : list string).

Lemma keeps_ret {A} (a : A) : keeps d S (mret a).
Proof. intros w Hc. split; [done|apply frame_refl]. Qed.

Lemma keeps_raise {A} e : keeps d S (raise (A:=A) e).
Proof. intros w Hc. split; [done|apply frame_refl]. Qed.

Lemma keeps_bind {A B} (m : M A) (k : A -> M B) :
  keeps d S m -> (forall a, keeps d S (k a)) -> keeps d S (a ← m; k a).
Proof.
  intros Hm Hk w Hc. specialize (Hm w Hc). unfold mbind, M_bind.
  destruct (m w) as [a w1|e w1|]; cbn in *; [|done|done].
  destruct Hm as [Hc1 Hf1]. specialize (Hk a w1 Hc1).
  destruct (final_world (k a w1)) as [w2|]; [|done].
  destruct Hk as [Hc2 Hf2]. split; [done|by eapply frame_trans].
Qed.

Lemma keeps_try_except {A} (m h : M A) :
  keeps d S m -> keeps d S h -> keeps d S (try_except m h).
Proof.
  intros Hm Hh w Hc. specialize (Hm w Hc). unfold try_except.
  destruct (m w) as [a w1|e w1|]; cbn in *; [done| |done].
  destruct Hm as [Hc1 Hf1]. specialize (Hh w1 Hc1).
  destruct (final_world (h w1)) as [w2|]; [|done].
  destruct Hh as [Hc2 Hf2]. split; [done|by eapply frame_trans].
Qed.

Lemma keeps_loop_turns {A} (body : M (option A)) n :
  keeps d S body -> keeps d S (loop_turns n body).
Proof.
  intros Hb. induction n as [|n IH]; [by intros w|].
  cbn [loop_turns]. apply keeps_bind; [done|].
  intros [a|]; [apply keeps_ret|done].
Qed.

Lemma keeps_console_loop {A} (body : M (option A)) :
  keeps d S body -> keeps d S (console_loop body).
Proof. intros Hb w. unfold console_loop. by apply keeps_loop_turns. Qed.

Lemma keeps_input : keeps d S input.
Proof.
  intros w Hc. unfold input. destruct (stdin w); (split; [done|by intros q _]).
Qed.

Lemma keeps_read_text p : keeps d S (read_text p).
Proof.
  intros w Hc. unfold read_text.
  destruct (files w !! resolve p w); (split; [done|apply frame_refl]).
Qed.

Lemma keeps_write_text p t : path_join d p ∈ S -> keeps d S (write_text p t).
Proof.
  intros Hp w Hc. split; [done|]. intros q Hq.
  cbn [files with_files]. apply lookup_insert_ne. unfold resolve. rewrite Hc.
  by intros <-.
Qed.

Lemma keeps_remove p : path_join d p ∈ S -> keeps d S (remove p).
Proof.
  intros Hp w Hc. unfold remove.
  destruct (files w !! resolve p w); (split; [done|]); [|apply frame_refl].
  intros q Hq. cbn [files with_files]. apply lookup_delete_ne. unfold resolve.
  rewrite Hc. by intros <-.
Qed.

Lemma ends_framed_keeps {A} (m : M A) : keeps d S m -> ends_framed d S m.
Proof.
  intros Hm w w' Hc Hw. specialize (Hm w Hc). rewrite Hw in Hm. by destruct Hm.
Qed.

Lemma ends_framed_bind {A B} (m : M A) (k : A -> M B) :
  keeps d S m -> (forall a, ends_framed d S (k a)) -> ends_framed d S (a ← m; k a).
Proof.
  intros Hm Hk w w' Hc. specialize (Hm w Hc). unfold mbind, M_bind.
  destruct (m w) as [a w1|e w1|]; cbn in *; [|by intros [= <-]; destruct Hm|done].
  destruct Hm as [Hc1 Hf1]. intros Hw. eapply frame_trans; [done|].
  by eapply Hk.
Qed.

Lemma ends_framed_chdir p : ends_framed d S (chdir p).
Proof. intros w w' Hc [= <-]. by intros q _. Qed.

End Frame.

Ltac keeps_step :=
  first [ apply keeps_ret | apply keeps_raise | apply keeps_input | apply keeps_read_text
        | apply keeps_write_text; set_solver | apply keeps_remove; set_solver
        | apply keeps_console_loop | apply keeps_try_except | apply keeps_bind
        | match goal with
          | |- forall _, _ => intro
          | |- keeps _ _ (match ?x with _ => _ end) => destruct x
          end ].

Ltac ends_step :=
  first [ apply ends_framed_chdir
        | apply ends_framed_bind; [solve [repeat keeps_step]|]
        | apply ends_framed_keeps; solve [repeat keeps_step]
        | match goal with
          | |- forall _, _ => intro
          | |- ends_framed _ _ (match ?x with _ => _ end) => destruct x
          end ].

(** X26.  However the abundance filter ends, it has touched no file but
    its own four in [<output_dir>/7-OTU]: the filtered table, the list
    of identifiers, the filtered sequences and the list of the others.
    Every other file, the table and the sequences it reads among them,
    is as it was. *)
Theorem abundance_filter_touches_four_files
        `{FA : FloatArith} `{EX : Extern}
        (tools : gmap string string) (threads : Z) (output_dir : string)
        (w w' : World) :
  final_world (filter_low_abundance_otus tools threads output_dir w) = Some w' ->
  forall q,
    q ∉ (path_join (resolve (path_join output_dir "7-OTU") w)
           <$> ["otutab.filter.txt"; "list.t1"; "otus.filter.fasta"; "list.filter"]) ->
    files w' !! q = files w !! q.
Proof.
  unfold filter_low_abundance_otus.
  unfold mbind at 1, M_bind at 1, getcwd.
  unfold mbind at 1, M_bind at 1, chdir at 1.
  set (d := resolve (path_join output_dir "7-OTU") w).
  set (S := path_join d <$> ["otutab.filter.txt"; "list.t1"; "otus.filter.fasta";
                             "list.filter"]).
  intros Hw.
  match type of Hw with
  | final_world (?t ?v) = _ =>
      assert (ends_framed d S t) as Hf
  end.
  { unfold ask_1_or_2, ask_min_count, ask_min_freq. repeat ends_step. }
  exact (Hf (with_cwd d w) w' eq_refl Hw).
Qed.

Lemma abundance_filter_touches_four_files_witness :
  exists w',
    final_world (filter_low_abundance_otus (FA:=binary64)
                   (EX:=fixed_library two_samples [otu_record "OTU_1;size=120"])
                   {["vsearch" := "/usr/bin/vsearch"]} 4 "/data/out"
                   (machine true ["1"; "50"; "0.1"]
                            {["/data/out/7-OTU/otutab.txt" := "t";
                              "/data/out/7-OTU/otus.fasta" := "s"]})) = Some w'
    /\ files w' !! "/data/out/7-OTU/otutab.txt" = Some "t"
    /\ files w' !! "/data/out/7-OTU/otus.fasta" = Some "s".
Proof.
  set (w := machine true ["1"; "50"; "0.1"]
                    {["/data/out/7-OTU/otutab.txt" := "t";
                      "/data/out/7-OTU/otus.fasta" := "s"]}).
  assert (exists w',
            final_world (filter_low_abundance_otus (FA:=binary64)
                           (EX:=fixed_library two_samples [otu_record "OTU_1;size=120"])
                           {["vsearch" := "/usr/bin/vsearch"]} 4 "/data/out" w) = Some w')
    as [w' Hw] by (eexists; vm_compute; reflexivity).
  exists w'. split; [exact Hw|].
  pose proof (abundance_filter_touches_four_files (FA:=binary64)
                (EX:=fixed_library two_samples [otu_record "OTU_1;size=120"])
                {["vsearch" := "/usr/bin/vsearch"]} 4 "/data/out" w w' Hw) as Hf.
  split.
  - rewrite (Hf "/data/out/7-OTU/otutab.txt"); [reflexivity|].
    intros H. apply list_elem_of_In in H. vm_compute in H.
    destruct H as [H|[H|[H|[H|[]]]]]; discriminate H.
  - rewrite (Hf "/data/out/7-OTU/otus.fasta"); [reflexivity|].
    intros H. apply list_elem_of_In in H. vm_compute in H.
    destruct H as [H|[H|[H|[H|[]]]]]; discriminate H.
Defined.

(** ** The files the abundance filter writes *)

Lemma app_str_inj (s a b : string) : s +:+ a = s +:+ b -> a = b.
Proof. induction s as [|c s IH]; [done|]. intros [= H]. by apply IH. Qed.

Lemma path_join_ne (d a b : string) :
  startswith "/" a = false -> startswith "/" b = false -> a <> b ->
  path_join d a <> path_join d b.
Proof.
  intros Ha Hb Hne. unfold path_join. rewrite Ha, Hb.
  destruct (String.eqb d EmptyString || endswith_char "/" d).
  - intros H. by apply Hne, (app_str_inj d).
  - intros H. apply app_str_inj in H. injection H as H. by apply Hne.
Qed.

Lemma bind_step {A B} (m : M A) (k : A -> M B) w a w1 :
  m w = Returned a w1 -> (a ← m; k a) w = k a w1.
Proof. intros H. unfold mbind, M_bind. by rewrite H. Qed.

Lemma load_otus_snoc (records : list SeqRecord) (r : SeqRecord) :
  load_otus (records ++ [r]) = <[rec_id r := r]> (load_otus records).
Proof. unfold load_otus. by rewrite foldl_app. Qed.

(** The record kept under an identifier is a record of the collection
    with that identifier: the last one, hence the only one when the
    identifiers are distinct. *)
Lemma load_otus_lookup (records : list SeqRecord) (rid : string) (r : SeqRecord) :
  load_otus records !! rid = Some r -> r ∈ records /\ rec_id r = rid.
Proof.
  induction records as [|r' records IH] using rev_ind.
  - unfold load_otus. cbn [foldl]. by rewrite lookup_empty.
  - rewrite load_otus_snoc. destruct (decide (rec_id r' = rid)) as [<-|Hne].
    + rewrite lookup_insert_eq. intros [= <-]. split; [|done].
      apply elem_of_app. right. left.
    + rewrite lookup_insert_ne by done. intros [H1 H2]%IH.
      split; [|done]. apply elem_of_app. by left.
Qed.

Lemma load_otus_distinct (records : list SeqRecord) (r : SeqRecord) :
  NoDup (rec_id <$> records) -> r ∈ records -> load_otus records !! rec_id r = Some r.
Proof.
  induction records as [|r' records IH] using rev_ind.
  - by intros _ ?%elem_of_nil.
  - rewrite fmap_app. intros [Hnd [Hdis _]]%NoDup_app.
    rewrite load_otus_snoc. intros [Hin|Hin]%elem_of_app.
    + rewrite lookup_insert_ne; [by apply IH|].
      intros Heq. apply (Hdis (rec_id r)).
      * apply list_elem_of_fmap. by exists r.
      * rewrite <- Heq. left.
    + apply list_elem_of_singleton in Hin as ->. by rewrite lookup_insert_eq.
Qed.

Lemma format_kept (format : SeqRecord -> string) (m : gmap string SeqRecord)
      (rids : list string) :
  Forall (fun rid => rid ∈ dom m) rids ->
  (fun rid => from_option format EmptyString (m !! rid)) <$> rids
  = format <$> omap (fun rid => m !! rid) rids.
Proof.
  induction 1 as [|rid rids Hrid _ IH]; [done|].
  apply elem_of_dom in Hrid as [r Hr]. cbn [fmap list_fmap omap list_omap].
  rewrite Hr. cbn. by rewrite <- IH.
Qed.

Lemma kept_ids (records : list SeqRecord) (rids : list string) :
  Forall (fun rid => rid ∈ dom (load_otus records)) rids ->
  rec_id <$> omap (fun rid => load_otus records !! rid) rids = rids.
Proof.
  induction 1 as [|rid rids Hrid _ IH]; [done|].
  apply elem_of_dom in Hrid as [r Hr]. cbn [omap list_omap].
  rewrite Hr. cbn. rewrite IH. f_equal. by apply load_otus_lookup in Hr as [_ ?].
Qed.

Lemma ask_1_or_2_returned w choice w' :
  ask_1_or_2 w = Returned choice w' -> exists pending, w' = with_stdin pending w.
Proof.
  destruct (ask_1_or_2_outcome _ w eq_refl) as (p & [->|(c & b & l & -> & _)]); [done|].
  intros [= _ <-]. by exists p.
Qed.

(** C2, as the code has it.  The abundance filter is run (the answer
    "1" and the two thresholds have been read) on a table it can read,
    whose column labels are distinct and whose row labels
    survive the round trip through [otutab.filter.txt] (none is empty,
    starts or ends with white space, or holds a tab, a double quote or a
    line break; the header holds no line break), and on a sequence file
    it can read.  The filter keeps every row of the table, also a row
    whose counts all became zero, so the ids read back from the filtered
    table are the row labels of the input table, each followed by ";".
    The records written to [otus.filter.fasta] are, once each, the records
    kept under their identifier whose identifier contains one of these;
    the lines of [list.filter] are, once each, the identifiers of all
    other records of the collection. *)
Theorem passed_iff_contains_row_label `{FA : FloatArith} `{EX : Extern}
        (tools : gmap string string) (threads : Z) (output_dir : string)
        (w w1 w2 w3 : World) (min_count : Z) (min_freq : flt)
        (table fasta : string) (df : DataFrame) (records : list SeqRecord) :
  let otu_dir := resolve (path_join output_dir "7-OTU") w in
  ask_1_or_2 (with_cwd otu_dir w) = Returned "1" w1 ->
  ask_min_count w1 = Returned min_count w2 ->
  ask_min_freq w2 = Returned min_freq w3 ->
  files w !! path_join otu_dir "otutab.txt" = Some table ->
  pd_read_csv table = Some df ->
  files w !! path_join otu_dir "otus.fasta" = Some fasta ->
  SeqIO_parse fasta = Some records ->
  NoDup (column_names df) ->
  header_one_line df ->
  Forall (fun l => clean_label l = true) (index df) ->
  exists (w' : World) (df' : DataFrame) (passed : list SeqRecord) (failed : list string),
    filter_low_abundance_otus tools threads output_dir w = Returned tt w'
    /\ filter_table min_count min_freq df = Some df'
    /\ index df' = index df
    /\ files w' !! path_join otu_dir "otutab.filter.txt" = Some (to_csv df')
    /\ read_otu_ids (to_csv df') = (fun l => l +:+ ";") <$> index df'
    /\ files w' !! path_join otu_dir "otus.filter.fasta"
       = Some (concat (SeqIO_format <$> passed))
    /\ files w' !! path_join otu_dir "list.filter"
       = Some (concat ((fun rid => rid +:+ str1 LF) <$> failed))
    /\ NoDup (rec_id <$> passed)
    /\ NoDup failed
    /\ (forall r, r ∈ passed
                  <-> load_otus records !! rec_id r = Some r
                      /\ exists label, label ∈ index df'
                                       /\ contains (label +:+ ";") (rec_id r) = true)
    /\ (forall rid, rid ∈ failed
                    <-> (exists r, r ∈ records /\ rec_id r = rid)
                        /\ ~ exists label, label ∈ index df'
                                           /\ contains (label +:+ ";") rid = true)
    /\ (forall r, load_otus records !! rec_id r = Some r -> r ∈ records)
    /\ (NoDup (rec_id <$> records) ->
        forall r, r ∈ records -> load_otus records !! rec_id r = Some r).
Proof.
  intros otu_dir H1 H2 H3 Ht Hdf Hf Hrec Hnd Hh Hl.
  set (w0 := with_cwd otu_dir w) in *.
  destruct (ask_1_or_2_returned _ _ _ H1) as (p1 & ->).
  pose proof H2 as H2'.
  apply (ask_min_count_returned (stdin (with_stdin p1 w0))) in H2'
    as (? & ? & p2 & _ & _ & _ & _ & ->); [|done].
  pose proof H3 as H3'.
  apply (ask_min_freq_returned (stdin (with_stdin p2 (with_stdin p1 w0)))) in H3'
    as (? & ? & p3 & _ & _ & _ & ->); [|done].
  rewrite !with_stdin_twice in *.
  set (v := with_stdin p3 w0) in *.
  assert (cwd v = otu_dir) as Hcwd by reflexivity.
  assert (files v = files w) as Hfiles by reflexivity.
  set (labels := (fun l => l +:+ ";") <$> index df).
  set (all_otus := load_otus records).
  set (csv := to_csv (stored_table min_count min_freq df)).
  assert (read_otu_ids csv = labels) as Hids.
  { unfold csv. apply (row_labels_read_back min_count min_freq df); try done.
    by apply filter_table_spec. }
  set (passed := elements (passed_ids labels all_otus)).
  set (failed := elements (failed_ids labels all_otus)).
  assert (Forall (fun rid => rid ∈ dom all_otus) passed) as Hdom.
  { apply Forall_forall. intros rid Hrid. unfold passed in Hrid.
    apply elem_of_elements, passed_ids_elem in Hrid. apply Hrid. }
  set (p_ft := path_join otu_dir "otutab.filter.txt").
  set (p_t1 := path_join otu_dir "list.t1").
  set (p_fa := path_join otu_dir "otus.fasta") in *.
  set (p_ff := path_join otu_dir "otus.filter.fasta").
  set (p_lf := path_join otu_dir "list.filter").
  assert (p_fa <> p_ft /\ p_fa <> p_t1 /\ p_t1 <> p_ff /\ p_t1 <> p_lf
          /\ p_ff <> p_lf /\ p_ft <> p_t1 /\ p_ft <> p_ff /\ p_ft <> p_lf)
    as (N1 & N2 & N3 & N4 & N5 & N6 & N7 & N8)
    by (repeat split; by apply path_join_ne).
  exists (with_cwd (path_join otu_dir (cwd w))
            (with_files
               (delete p_t1
                  (<[p_lf := concat ((fun rid => rid +:+ str1 LF) <$> failed)]>
                     (<[p_ff := concat ((fun rid =>
                                           from_option SeqIO_format EmptyString
                                                       (all_otus !! rid)) <$> passed)]>
                        (<[p_t1 := concat ((fun otu => otu +:+ str1 LF) <$> labels)]>
                           (<[p_ft := csv]> (files w)))))) v)),
         (stored_table min_count min_freq df),
         (omap (fun rid => all_otus !! rid) passed), failed.
  split.
  { unfold filter_low_abundance_otus. cbv zeta.
    unfold mbind at 1, M_bind at 1, getcwd.
    unfold mbind at 1, M_bind at 1, chdir at 1.
    fold otu_dir. fold w0.
    rewrite (bind_step _ _ _ _ _ H1). cbn [String.eqb Ascii.eqb Bool.eqb].
    rewrite (bind_step _ _ _ _ _ H2).
    rewrite (bind_step _ _ _ _ _ H3).
    erewrite bind_step; cycle 1.
    { unfold try_except, mbind, M_bind, read_text, resolve.
      rewrite Hcwd, Hfiles, Ht, Hdf. reflexivity. }
    cbv iota. rewrite filter_table_spec by done.
    unfold mbind at 1, M_bind at 1, write_text at 1, resolve at 1.
    rewrite Hcwd, Hfiles. fold p_ft. fold csv.
    erewrite bind_step; cycle 1.
    { unfold read_text, resolve. cbn [files cwd with_files]. rewrite Hcwd. fold p_ft.
      rewrite lookup_insert_eq. reflexivity. }
    rewrite Hids.
    unfold mbind at 1, M_bind at 1, write_text at 1, resolve at 1.
    cbn [files cwd with_files]. rewrite Hcwd. fold p_t1.
    erewrite bind_step; cycle 1.
    { unfold try_except, mbind, M_bind, read_text, resolve.
      cbn [files cwd with_files]. rewrite Hcwd. fold p_fa.
      rewrite !lookup_insert_ne by done. rewrite Hf, Hrec. reflexivity. }
    cbv iota. fold all_otus. fold passed. fold failed.
    unfold mbind at 1, M_bind at 1, write_text at 1, resolve at 1.
    cbn [files cwd with_files]. rewrite Hcwd. fold p_ff.
    unfold mbind at 1, M_bind at 1, write_text at 1, resolve at 1.
    cbn [files cwd with_files]. rewrite Hcwd. fold p_lf.
    unfold mbind at 1, M_bind at 1, try_except, remove, resolve.
    cbn [files cwd with_files]. rewrite Hcwd. fold p_t1.
    rewrite !(lookup_insert_ne _ _ p_t1) by done. rewrite lookup_insert_eq.
    unfold chdir, resolve. cbn [files cwd with_files with_cwd].
    rewrite Hcwd. reflexivity. }
  split; [by apply filter_table_spec|].
  split; [reflexivity|].
  cbn [files with_files with_cwd].
  split.
  { rewrite lookup_delete_ne by done. rewrite !lookup_insert_ne by done.
    by rewrite lookup_insert_eq. }
  split; [exact Hids|].
  split.
  { rewrite lookup_delete_ne by done. rewrite lookup_insert_ne by done.
    rewrite lookup_insert_eq. by rewrite format_kept. }
  split.
  { rewrite lookup_delete_ne by done. by rewrite lookup_insert_eq. }
  split; [unfold all_otus; rewrite kept_ids by done; apply NoDup_elements|].
  split; [apply NoDup_elements|].
  split.
  { intros r. rewrite list_elem_of_omap. split.
    - intros (rid & Hrid & Hr). unfold passed in Hrid.
      apply elem_of_elements, passed_ids_labels in Hrid as [_ Hm].
      destruct (load_otus_lookup _ _ _ Hr) as [_ <-]. by split.
    - intros [Hr Hm]. exists (rec_id r). split; [|exact Hr].
      apply elem_of_elements, passed_ids_labels. split; [|exact Hm].
      exists r. split; [|done]. by apply load_otus_lookup in Hr as [? _]. }
  split.
  { intros rid. unfold failed. rewrite elem_of_elements. apply failed_ids_labels. }
  split.
  { intros r Hr. by apply load_otus_lookup in Hr as [? _]. }
  intros Hd r Hr. by apply load_otus_distinct.
Qed.

Lemma passed_iff_contains_row_label_witness :
  let fs : gmap string string :=
    list_to_map [("/data/out/7-OTU/otutab.txt", to_csv two_samples);
                 ("/data/out/7-OTU/otus.fasta", ">OTU_1;size=120")] in
  let records :=
    [otu_record "OTU_1;size=120"; otu_record "OTU_3;size=5"; otu_record "Zotu7;size=9"] in
  let lib := fixed_library two_samples records in
  exists w' passed failed,
    filter_low_abundance_otus (FA:=binary64) (EX:=lib) ∅ 4 "/data/out"
                              (machine true ["1"; "50"; "0.1"] fs)
    = Returned tt w'
    /\ files w' !! "/data/out/7-OTU/otus.filter.fasta"
       = Some (concat (SeqIO_format <$> passed))
    /\ files w' !! "/data/out/7-OTU/list.filter"
       = Some (concat ((fun rid => rid +:+ str1 LF) <$> failed))
    /\ (forall r, r ∈ passed
                  <-> load_otus records !! rec_id r = Some r
                      /\ exists label, label ∈ index two_samples
                                       /\ contains (label +:+ ";") (rec_id r) = true)
    /\ (forall rid, rid ∈ failed
                    <-> (exists r, r ∈ records /\ rec_id r = rid)
                        /\ ~ exists label, label ∈ index two_samples
                                           /\ contains (label +:+ ";") rid = true).
Proof.
  intros fs records lib.
  set (w := machine true ["1"; "50"; "0.1"] fs).
  set (w0 := with_cwd (resolve (path_join "/data/out" "7-OTU") w) w).
  assert (ask_1_or_2 w0 = Returned "1" (with_stdin ["50"; "0.1"] w0)) as H1
    by (vm_compute; reflexivity).
  assert (ask_min_count (with_stdin ["50"; "0.1"] w0)
          = Returned 50 (with_stdin ["0.1"] w0)) as H2
    by (vm_compute; reflexivity).
  assert (ask_min_freq (FA:=binary64) (with_stdin ["0.1"] w0)
          = Returned float_tenth (with_stdin [] w0)) as H3
    by (vm_compute; reflexivity).
  assert (files w !! path_join (resolve (path_join "/data/out" "7-OTU") w) "otutab.txt"
          = Some (to_csv two_samples)) as Ht
    by (vm_compute; reflexivity).
  assert (files w !! path_join (resolve (path_join "/data/out" "7-OTU") w) "otus.fasta"
          = Some ">OTU_1;size=120") as Hf
    by (vm_compute; reflexivity).
  assert (NoDup (column_names two_samples)) as Hnd.
  { apply (bool_decide_unpack _). vm_compute. reflexivity. }
  assert (header_one_line two_samples) as Hh.
  { repeat constructor. }
  assert (Forall (fun l => clean_label l = true) (index two_samples)) as Hl.
  { repeat constructor. }
  destruct (passed_iff_contains_row_label (FA:=binary64) (EX:=lib) ∅ 4 "/data/out"
              w _ _ _ 50 float_tenth (to_csv two_samples) ">OTU_1;size=120"
              two_samples records H1 H2 H3 Ht eq_refl Hf eq_refl Hnd Hh Hl)
    as (w' & df' & passed & failed & Hrun & _ & Hidx & _ & _ & Hp & Hfl & _ & _
        & Hpassed & Hfailed & _).
  exists w', passed, failed.
  split; [exact Hrun|]. split; [exact Hp|]. split; [exact Hfl|].
  rewrite Hidx in Hpassed, Hfailed.
  split; [exact Hpassed|exact Hfailed].
Defined.

(** The run of the witness: the record of OTU_3, whose only count 5 was
    zeroed, is written with that of OTU_1; the record that matches no row
    label is listed. *)
Example passed_and_failed_outputs :
  let fs : gmap string string :=
    list_to_map [("/data/out/7-OTU/otutab.txt", to_csv two_samples);
                 ("/data/out/7-OTU/otus.fasta", ">OTU_1;size=120")] in
  let records :=
    [otu_record "OTU_1;size=120"; otu_record "OTU_3;size=5"; otu_record "Zotu7;size=9"] in
  let lib := fixed_library two_samples records in
  exists w' order,
    filter_low_abundance_otus (FA:=binary64) (EX:=lib) ∅ 4 "/data/out"
                              (machine true ["1"; "50"; "0.1"] fs)
    = Returned tt w'
    /\ order ≡ₚ [otu_record "OTU_1;size=120"; otu_record "OTU_3;size=5"]
    /\ files w' !! "/data/out/7-OTU/otus.filter.fasta"
       = Some (concat (SeqIO_format <$> order))
    /\ files w' !! "/data/out/7-OTU/list.filter" = Some ("Zotu7;size=9" +:+ str1 LF).
Proof.
  cbv zeta. eexists.
  exists [otu_record "OTU_3;size=5"; otu_record "OTU_1;size=120"].
  split; [vm_compute; reflexivity|]. split; [apply perm_swap|].
  split; vm_compute; reflexivity.
Qed.
